(* ===== verification/_CoqProject ===== *)
-Q . S2P
Prelude.v
Config.v
Calendar.v
Rounding.v
Frame.v
Json.v
JsonRead.v
Prices.v
Job.v
Output.v
Scenarios.v
Witnesses.v
