(* ===== verification/Prelude.v ===== *)
(** * Verification of [fetch_data.py] (callan-investment-returns)

    The repository has one program, [src/fetch_data.py].  It is a batch
    job: [main] reads the clock, asks the price provider ([yf.download])
    for daily prices of nine ETFs, picks the adjusted-close columns, and
    turns them into one record per day.  A record maps each asset-class
    name to the price rounded to 4 decimals and omits missing values.  The
    job sorts the records by date and writes the document as compact JSON
    to [data.json].

    The program's parts, and the file of this development that models each:

    - [Prelude] (this file): the Python semantics the other files share.
      [PyExc] lists the exceptions the script can raise and [result] is the
      exception monad.  A [dict] (insertion-ordered, as in CPython) is an
      association list with [dict_get] ([d[k]]) and [dict_set]
      ([d[k] = v]).  [mapM]/[foldM] run a loop whose body may raise.
      [zpad], [ndigits] and [dec_string] print integers ([str(n)] and the
      fields of [strftime]).  The [py] hint database holds the dict and
      monad lemmas.
    - [Config]: the static tables [ETFS] and [COLORS] (lines 17-39) and the
      list comprehension that builds ["asset_classes"] (lines 75-78).
    - [Calendar]: the [datetime] values the job uses: the constructor's
      range checks, [strftime("%Y-%m-%d")], [isoformat()] and the
      5-years-plus-YTD window (lines 44-45).
    - [Rounding]: IEEE doubles as exact dyadic values and Python's
      [round(x, 4)] (correctly rounded, ties to even).
    - [Frame]: the provider's answer as a pandas DataFrame with
      (field, ticker) columns.  [data.empty], the [Adj Close]/[Close]
      column choice (line 57) and [closes[symbol].loc[date_idx]] with
      pandas' behaviour on duplicate labels.
    - [Prices]: the loop of lines 60-67 (the NaN check, the rounding and
      the dict updates, including the overwrite of a repeated date string)
      and the sort of lines 70-71.
    - [Json]: the JSON values the job builds and [json.dump] with
      [separators=(",", ":")] (line 84): [ensure_ascii] string escapes and
      [float.__repr__] of the rounded prices.
    - [JsonRead]: a reader written from the JSON grammar (RFC 8259), the
      way the page that loads [data.json] reads it.  It is a reference for
      the round-trip theorems, not code of the repository.
    - [Job]: [main] as a state-and-exception computation over a [World]
      (clock, provider, files, the paths [open] refuses, stdout).  The
      world records every effect in program order: the two clock reads,
      the provider call, the early [return 1], the file write (or the
      [OSError] of [open]) and the prints.  It also has the process exit
      code of [exit(main())].
    - [Output]: the layout of the document (the schema of section 3 of the
      spec as a boolean predicate [doc_shape]) and the composition of the
      job with the reader: what the page gets from [data.json].
    - [Scenarios]: concrete runs evaluated by [vm_compute].  They are the
      spec's example row, a day that appears twice, two runs that differ
      only in the clock, and a run with an infinite price.
    - [Witnesses]: each theorem that has hypotheses, applied at a concrete
      input where the hypotheses hold.

    What the theorems show, by group:
    - Config: the asset-class list always has the nine configured entries,
      each with its colour; the [COLORS[name]] lookup never raises.
    - Calendar: [strftime("%Y-%m-%d")] is injective on valid dates, and
      the string order of its output is the chronological order.  This is
      why the script's string sort is a date sort.  The window starts on
      January 1 five years back and never after [now]; the constructor
      raises only for years 1 to 5.
    - Rounding: the integer kernel implements the abstract specification
      [nearest_even] (refinement), and [round(x, 4)] of a finite float
      keeps its sign and returns [k / 10^4] with [k] the integer nearest to
      the exact value [abs_value] of the float times [10000], ties to even.
    - Prices: the output dates are strictly increasing and unique, and
      they are exactly the dates of the provider's index.  Each price in a
      row is the rounding of a non-NaN provider value, and each missing
      value is absent.  The loop raises only on duplicate labels.  Any
      correct sort gives the same output, so modelling Python's timsort
      by a merge sort is sound.
    - Prelude: [str(n)] has no leading zero and reads back as [n]; the
      digit-count loop never runs out of its fuel (termination).
    - Json and JsonRead: every string [json.dump] writes reads back as
      itself; the number text of a price below 10^16 reads back as the
      same sign and multiple of 10^-4; a whole document with finite
      numbers decodes to itself; [Infinity] and [NaN] are rejected.
    - Rounding (bounds): a finite price below 10^16 - 1 rounds to a value
      printed in fixed notation.
    - Job: an empty answer gives exit code 1 and writes nothing.  A
      successful run writes the serialised document and exits with 0; its
      stdout gains exactly the fetch line, the row count and the date
      range.  When [open] fails, [OSError] propagates, no file is written
      and the exit code is 1.  The final [sorted_dates[0]] never raises.
      [main] makes one provider request, for the nine symbols over the
      window.
    - Output: every document the job builds has the layout of the spec;
      when the provider's prices are finite and below 10^16 - 1, the file a
      successful run writes decodes to that document.  Two such runs on the
      same provider answer write the same file exactly when their second
      clock readings have the same [isoformat]: the file depends on the
      time of the run, so two runs on the same data need not give the same
      bytes.  (A run with an infinite price writes a file that is not JSON:
      [Prices.infinite_price_written] and the scenario of [Scenarios].)

    Bounds and modelling choices:
    - Doubles are modelled by their exact value (sign, integer mantissa,
      binary exponent) together with infinities and NaN.  The mantissa and
      exponent ranges of binary64 are not enforced, so the rounding
      theorems hold for every dyadic value.
    - [json.dump] prints a finite float with [float.__repr__], which gives
      the shortest string that reads back to the same double.  The model
      prints the 4-decimal value that [round] computed.  The two agree
      whenever that value has at most 15 significant digits, which covers
      every price below 10^11.
    - [%Y] is modelled as the four-digit, zero-padded year; all
      [datetime] years (1..9999) fit in four digits.
    - The reader of [JsonRead] gets as fuel the length of the text; a
      value never has more nodes than its text has characters
      ([dumps_size]), so the fuel is enough.  The digit loop of [str(n)]
      gets [log2 n + 1] steps, enough by [ndigits_fuel_enough].
    - The provider, the clock and the file system are inputs of the
      [World]; the HTTP request itself and yfinance's internals are not
      modelled.  [open] either fails before writing or the whole text is
      written: a failure in the middle of [json.dump] (disk full) is not
      modelled.

    Not modelled:
    - yfinance and the network: a library the script only calls; its
      answer or failure is the [World]'s [w_provider].
    - [float.__repr__] beyond 15 significant digits (prices of 10^11 and
      more) and the scientific notation from 10^16: the model prints the
      exact decimal digits, which can be longer than Python's shortest
      form; the reader does not accept exponents.
*)

From Stdlib Require Export ZArith Lia Ascii String.
From stdpp Require Export base list strings sorting decidable sets.

Declare Scope py_scope.
Delimit Scope py_scope with py.

(** ** Python exceptions and the exception monad *)

(** The exceptions the script can raise. [KeyError] carries the missing
    key, [ValueError] and [TypeError] the message, [ProviderError] stands
    for any failure inside the provider call (network, malformed response)
    and [OSError] for a file that cannot be opened. *)
Inductive PyExc :=
| KeyError (key : string)
| ValueError (msg : string)
| IndexError
| TypeError (msg : string)
| ProviderError (msg : string)
| OSError (msg : string).

#[global] Instance PyExc_eq_dec : EqDecision PyExc.
Proof. solve_decision. Defined.

Inductive result (A : Type) :=
| Ok (a : A)
| Err (e : PyExc).
Arguments Ok {A} a.
Arguments Err {A} e.

Definition bind {A B} (r : result A) (k : A -> result B) : result B :=
  match r with
  | Ok a => k a
  | Err e => Err e
  end.

Notation "x <- c ;; k" := (bind c (fun x => k))
  (at level 100, c at next level, right associativity) : py_scope.

Open Scope py_scope.

(** [for x in xs: body] where [body] may raise: the first exception stops
    the loop. *)
Fixpoint foldM {A S} (body : S -> A -> result S) (s : S) (xs : list A) : result S :=
  match xs with
  | [] => Ok s
  | x :: xs' => s' <- body s x ;; foldM body s' xs'
  end.

Fixpoint mapM {A B} (f : A -> result B) (xs : list A) : result (list B) :=
  match xs with
  | [] => Ok []
  | x :: xs' => y <- f x ;; ys <- mapM f xs' ;; Ok (y :: ys)
  end.

Definition is_ok {A} (r : result A) : bool :=
  match r with Ok _ => true | Err _ => false end.

(** ** Python dicts as insertion-ordered association lists *)

Section Dict.
Context {K V : Type} `{EqDecision K}.

Definition dict := list (K * V).

(** [d[k]] read: [None] is the [KeyError] case. *)
Fixpoint dict_get (d : dict) (k : K) : option V :=
  match d with
  | [] => None
  | (k', v) :: d' => if decide (k = k') then Some v else dict_get d' k
  end.

(** [d[k] = v]: an existing key keeps its position, a new key goes last. *)
Fixpoint dict_set (d : dict) (k : K) (v : V) : dict :=
  match d with
  | [] => [(k, v)]
  | (k', v') :: d' =>
      if decide (k = k') then (k, v) :: d' else (k', v') :: dict_set d' k v
  end.

Definition dict_keys (d : dict) : list K := map fst d.

(** [d[k]] as an expression: a missing key raises [KeyError]. *)
Definition py_getitem (show : K -> string) (d : dict) (k : K) : result V :=
  match dict_get d k with
  | Some v => Ok v
  | None => Err (KeyError (show k))
  end.

Lemma dict_get_set_eq d k v : dict_get (dict_set d k v) k = Some v.
Proof. induction d as [|[k' v'] d IH]; simpl; repeat case_decide; simpl; try case_decide; congruence. Qed.

Lemma dict_get_set_ne d k k' v :
  k <> k' -> dict_get (dict_set d k v) k' = dict_get d k'.
Proof.
  intros Hne. induction d as [|[k0 v0] d IH]; simpl.
  - case_decide; congruence.
  - repeat (case_decide; simpl); congruence.
Qed.

Lemma dict_set_id d k v : dict_get d k = Some v -> dict_set d k v = d.
Proof.
  induction d as [|[k' v'] d IH]; simpl; [done|].
  case_decide; [intros [= ->]; by subst|]. intros Hg. by rewrite IH.
Qed.

Lemma dict_set_set_eq d k v1 v2 : dict_set (dict_set d k v1) k v2 = dict_set d k v2.
Proof.
  induction d as [|[k' v'] d IH]; simpl; [by rewrite decide_True|].
  case_decide; simpl; [by rewrite decide_True|]. rewrite decide_False by done. by rewrite IH.
Qed.

Lemma dict_get_Some_in d k v : dict_get d k = Some v -> (k, v) ∈ d.
Proof.
  induction d as [|[k' v'] d IH]; simpl; [done|].
  case_decide; [intros [= <-]; subst; left | intros; right]; auto.
Qed.

Lemma dict_get_None d k : dict_get d k = None <-> k ∉ dict_keys d.
Proof.
  induction d as [|[k' v'] d IH]; simpl; [set_solver|].
  case_decide; subst; [split; [done|set_solver]|].
  rewrite IH. set_solver.
Qed.

Lemma dict_keys_set d k v :
  dict_keys (dict_set d k v) =
    if decide (k ∈ dict_keys d) then dict_keys d else dict_keys d ++ [k].
Proof.
  unfold dict_keys. induction d as [|[k' v'] d IH]; simpl; [done|].
  destruct (decide (k = k')) as [->|Hk]; simpl.
  - clear IH. case_decide; [done|set_solver].
  - rewrite IH. repeat case_decide; simpl; try done; set_solver.
Qed.

Lemma dict_keys_set_elem d k v x :
  x ∈ dict_keys (dict_set d k v) <-> x = k \/ x ∈ dict_keys d.
Proof. rewrite dict_keys_set. case_decide; set_solver. Qed.

Lemma dict_set_NoDup d k v :
  NoDup (dict_keys d) -> NoDup (dict_keys (dict_set d k v)).
Proof.
  rewrite dict_keys_set. case_decide; [done|].
  intros Hd. apply NoDup_app. split; [done|]. split; [|apply NoDup_singleton].
  set_solver.
Qed.

(** A property of every entry survives [d[k] = v] when the new entry has
    it. *)
Lemma dict_set_Forall (Q : K -> V -> Prop) d k v :
  Forall (fun kv => Q kv.1 kv.2) d -> Q k v -> Forall (fun kv => Q kv.1 kv.2) (dict_set d k v).
Proof.
  induction d as [|[k' v'] d IH]; intros Hd Hq; cbn [dict_set]; [by constructor|].
  apply Forall_cons in Hd as [Hkv Hd]. case_decide; constructor; auto.
Qed.

Lemma dict_get_Forall (Q : K -> V -> Prop) d k v :
  Forall (fun kv => Q kv.1 kv.2) d -> dict_get d k = Some v -> Q k v.
Proof.
  intros Hd Hg. apply dict_get_Some_in in Hg. rewrite Forall_forall in Hd.
  exact (Hd (k, v) Hg).
Qed.
End Dict.

Arguments dict : clear implicits.

Create HintDb py discriminated.
Create Rewrite HintDb py_rw.
#[export] Hint Rewrite @dict_get_set_eq : py_rw.
#[export] Hint Resolve dict_set_NoDup : py.

(** ** Lemmas on the exception monad *)

Lemma bind_Ok {A B} (r : result A) (k : A -> result B) b :
  bind r k = Ok b <-> exists a, r = Ok a /\ k a = Ok b.
Proof. destruct r; simpl; split; [eauto|intros (?&[=<-]&?)|done|intros (?&?&?);done]; auto. Qed.

Lemma bind_Err {A B} (r : result A) (k : A -> result B) e :
  r = Err e -> bind r k = Err e.
Proof. by intros ->. Qed.

Lemma foldM_app {A S} (body : S -> A -> result S) s xs ys :
  foldM body s (xs ++ ys) = (s' <- foldM body s xs ;; foldM body s' ys).
Proof.
  revert s. induction xs as [|x xs IH]; intros s; simpl; [done|].
  destruct (body s x); simpl; [apply IH|done].
Qed.

(** A loop whose body never raises returns. *)
Lemma foldM_total {A S} (body : S -> A -> result S) s xs :
  (forall s' x, x ∈ xs -> is_ok (body s' x) = true) ->
  exists s', foldM body s xs = Ok s'.
Proof.
  revert s. induction xs as [|x xs IH]; intros s Hok; simpl; [eauto|].
  pose proof (Hok s x ltac:(set_solver)) as Hx. destruct (body s x) as [s1|]; [|done].
  simpl. apply IH. intros. apply Hok. set_solver.
Qed.

(** An invariant of the loop state that every successful step preserves
    holds of the final state. *)
Lemma foldM_invariant {A S} (P : S -> Prop) (body : S -> A -> result S) s xs s' :
  (forall s0 x s1, x ∈ xs -> P s0 -> body s0 x = Ok s1 -> P s1) ->
  P s -> foldM body s xs = Ok s' -> P s'.
Proof.
  revert s. induction xs as [|x xs IH]; intros s Hstep Hs Hrun; simpl in *.
  - by injection Hrun as <-.
  - destruct (body s x) as [s1|] eqn:Hb; [|done]. simpl in Hrun.
    eapply IH; [|eapply (Hstep s x); [left|done|done]|done].
    intros s0 y s2 Hy; apply Hstep; right; done.
Qed.

(** An exception of a loop is an exception of one of its steps. *)
Lemma foldM_Err_inv {A S} (body : S -> A -> result S) s xs e :
  foldM body s xs = Err e -> exists s' x, x ∈ xs /\ body s' x = Err e.
Proof.
  revert s. induction xs as [|x xs IH]; intros s; simpl; [done|].
  destruct (body s x) as [s1|e'] eqn:Hb; simpl.
  - intros H. destruct (IH s1 H) as (s' & y & ? & ?). exists s', y. split; [by right|done].
  - intros [= <-]. exists s, x. split; [left|done].
Qed.

(** A loop over a list containing an element whose step always raises
    raises. *)
Lemma foldM_Err_at {A S} (body : S -> A -> result S) s xs x :
  x ∈ xs -> (forall s', is_ok (body s' x) = false) -> is_ok (foldM body s xs) = false.
Proof.
  revert s. induction xs as [|y xs IH]; intros s Hx Hfail; [by apply elem_of_nil in Hx|].
  simpl. destruct (body s y) as [s1|e] eqn:Hb; simpl; [|done].
  apply elem_of_cons in Hx as [->|Hx]; [specialize (Hfail s); by rewrite Hb in Hfail|].
  by apply IH.
Qed.

Lemma mapM_length {A B} (f : A -> result B) xs ys :
  mapM f xs = Ok ys -> length ys = length xs.
Proof.
  revert ys. induction xs as [|x xs IH]; intros ys; simpl; [by intros [= <-]|].
  destruct (f x); simpl; [|done]. destruct (mapM f xs); simpl; [|done].
  intros [= <-]. simpl. f_equal. by apply IH.
Qed.

Lemma mapM_total {A B} (f : A -> result B) xs :
  (forall x, x ∈ xs -> is_ok (f x) = true) -> exists ys, mapM f xs = Ok ys.
Proof.
  induction xs as [|x xs IH]; intros Hok; simpl; [eauto|].
  pose proof (Hok x ltac:(left)) as Hx. destruct (f x) as [y|]; [|done]. simpl.
  destruct IH as [ys ->]; [intros; apply Hok; by right|]. eauto.
Qed.

Lemma mapM_Ok_map {A B} (f : A -> result B) (g : A -> B) xs :
  (forall x, x ∈ xs -> f x = Ok (g x)) -> mapM f xs = Ok (map g xs).
Proof.
  induction xs as [|x xs IH]; intros Hf; simpl; [done|].
  rewrite Hf by set_solver. simpl. rewrite IH by (intros; apply Hf; set_solver). done.
Qed.

Lemma mapM_Forall2 {A B} (f : A -> result B) xs ys :
  mapM f xs = Ok ys <-> Forall2 (fun x y => f x = Ok y) xs ys.
Proof.
  revert ys. induction xs as [|x xs IH]; intros ys; simpl.
  - split; [intros [= <-]; constructor|intros H; inversion H; done].
  - destruct (f x) as [y|e] eqn:Hf; simpl.
    + destruct (mapM f xs) as [ys'|e] eqn:Hm; simpl.
      * split; [intros [= <-]; constructor; [done|by apply IH]|].
        intros H; inversion H; subst. f_equal. f_equal; [congruence|].
        apply IH in H4. congruence.
      * split; [done|]. intros H; inversion H; subst.
        apply IH in H4. congruence.
    + split; [done|]. intros H; inversion H; congruence.
Qed.

#[export] Hint Resolve mapM_length : py.

(** ** Sorted lists *)

Lemma StronglySorted_lookup {A} (R : relation A) l i j x y :
  StronglySorted R l -> (i < j)%nat -> l !! i = Some x -> l !! j = Some y -> R x y.
Proof.
  intros Hs. revert i j. induction Hs as [|a l Hs IH Ha]; intros i j Hij Hi Hj; [done|].
  destruct i as [|i], j as [|j]; simpl in *; try lia.
  - injection Hi as <-. rewrite Forall_forall in Ha. apply Ha.
    by apply list_elem_of_lookup_2 in Hj.
  - apply (IH i j); [lia|done|done].
Qed.

(** ** Strings *)

Lemma string_length_app (s t : string) :
  String.length (s +:+ t) = (String.length s + String.length t)%nat.
Proof. induction s as [|c s IH]; simpl; [done|]. by rewrite IH. Qed.

(** Decimal printing: [digit_char d] is the character of the digit [d]. *)
Definition digit_char (n : Z) : ascii := ascii_of_nat (48 + Z.to_nat n).

(** The [w] low decimal digits of [n], zero padded ([%0wd] for
    [0 <= n < 10^w]). *)
Fixpoint zpad (w : nat) (n : Z) : string :=
  match w with
  | O => EmptyString
  | S w' => zpad w' (n / 10) +:+ String (digit_char (n mod 10)) EmptyString
  end.

(** The number of decimal digits of [n > 0] (1 for [n < 10]); the fuel
    [log2 n + 1] bounds the number of digits. *)
Fixpoint ndigits_fuel (fuel : nat) (n : Z) : nat :=
  match fuel with
  | O => 1%nat
  | S f => if (n <? 10)%Z then 1%nat else S (ndigits_fuel f (n / 10))
  end.

Definition ndigits (n : Z) : nat := ndigits_fuel (S (Z.to_nat (Z.log2 n))) n.

(** [str(n)] for [n >= 0]. *)
Definition dec_string (n : Z) : string := zpad (ndigits n) n.

(** Reading decimal digits back: the value of a digit character and of a
    string of digits (with an accumulator), [None] on any other
    character. *)
Definition digit_val (c : ascii) : option Z :=
  let n := nat_of_ascii c in
  if (48 <=? n)%nat && (n <=? 57)%nat then Some (Z.of_nat n - 48)%Z else None.

Fixpoint digits_value (acc : Z) (s : string) : option Z :=
  match s with
  | EmptyString => Some acc
  | String c s' =>
      match digit_val c with
      | Some d => digits_value (10 * acc + d)%Z s'
      | None => None
      end
  end.

(** [cbn] and [simpl] leave [String.append] folded once stdpp's strings
    are loaded: these equations unfold it. *)
Lemma string_app_cons c (s t : string) : String c s +:+ t = String c (s +:+ t).
Proof. reflexivity. Qed.

Lemma string_app_nil_l (t : string) : EmptyString +:+ t = t.
Proof. reflexivity. Qed.

Lemma string_app_assoc (s t u : string) : (s +:+ t) +:+ u = s +:+ (t +:+ u).
Proof. induction s as [|c s IH]; [done|]. by rewrite !string_app_cons, IH. Qed.

Lemma string_app_nil_r (s : string) : s +:+ EmptyString = s.
Proof. induction s as [|c s IH]; [done|]. by rewrite string_app_cons, IH. Qed.

Lemma digit_val_char d : (0 <= d < 10)%Z -> digit_val (digit_char d) = Some d.
Proof.
  intros Hd.
  assert (d = 0 \/ d = 1 \/ d = 2 \/ d = 3 \/ d = 4 \/ d = 5 \/ d = 6 \/ d = 7 \/ d = 8 \/ d = 9)%Z
    as Hd' by lia.
  destruct_or! Hd'; subst; reflexivity.
Qed.

Lemma digits_value_app acc s t :
  digits_value acc (s +:+ t) =
    match digits_value acc s with Some a => digits_value a t | None => None end.
Proof.
  revert acc. induction s as [|c s IH]; intros acc; [done|].
  rewrite string_app_cons. cbn [digits_value].
  destruct (digit_val c); [apply IH|done].
Qed.

(** The digits [zpad] prints read back as the number modulo [10^w]. *)
Lemma zpad_value w n acc :
  digits_value acc (zpad w n) = Some (acc * 10 ^ Z.of_nat w + n mod 10 ^ Z.of_nat w)%Z.
Proof.
  revert n acc. induction w as [|w IH]; intros n acc.
  - cbn [zpad digits_value]. f_equal. simpl. rewrite Z.mod_1_r. lia.
  - cbn [zpad]. rewrite digits_value_app, IH. cbn [digits_value].
    rewrite digit_val_char by (apply Z.mod_pos_bound; lia). f_equal.
    rewrite Nat2Z.inj_succ, Z.pow_succ_r by lia.
    rewrite (Z.rem_mul_r n 10 (10 ^ Z.of_nat w)) by (try apply Z.pow_pos_nonneg; lia).
    lia.
Qed.

Lemma zpad_length w n : String.length (zpad w n) = w.
Proof.
  revert n. induction w as [|w IH]; intros n; simpl; [done|].
  rewrite string_length_app, IH. simpl. lia.
Qed.

(** A run of zeros: [zpad w 0] grows on either side. *)
Lemma zpad0_cons w : String "0" (zpad w 0) = zpad (S w) 0.
Proof.
  induction w as [|w IH]; [reflexivity|].
  change (zpad (S (S w)) 0) with (zpad (S w) 0 +:+ String "0" EmptyString).
  rewrite <- IH, string_app_cons. f_equal. rewrite IH. reflexivity.
Qed.

(** [ndigits_fuel f n] digits hold [n] as soon as [n < 2^f]. *)
Lemma ndigits_fuel_bound f n :
  (0 <= n < 2 ^ Z.of_nat f)%Z -> (n < 10 ^ Z.of_nat (ndigits_fuel f n))%Z.
Proof.
  revert n. induction f as [|f IH]; intros n Hn; cbn [ndigits_fuel]; [simpl in *; lia|].
  destruct (Z.ltb_spec n 10); [simpl; lia|].
  rewrite Nat2Z.inj_succ in Hn |- *. rewrite Z.pow_succ_r in Hn |- * by lia.
  assert (n / 10 < 10 ^ Z.of_nat (ndigits_fuel f (n / 10)))%Z.
  { apply IH. split; [apply Z.div_pos; lia|].
    apply Z.div_lt_upper_bound; lia. }
  pose proof (Z.mul_div_le n 10). pose proof (Z.mod_pos_bound n 10).
  pose proof (Z.div_mod n 10). lia.
Qed.

Lemma ndigits_fuel_pos f n : (1 <= ndigits_fuel f n)%nat.
Proof. destruct f; cbn [ndigits_fuel]; [lia|]. case_match; lia. Qed.

Lemma ndigits_bound n : (0 <= n)%Z -> (n < 10 ^ Z.of_nat (ndigits n))%Z.
Proof.
  intros Hn. unfold ndigits. apply ndigits_fuel_bound. split; [done|].
  rewrite Nat2Z.inj_succ, Z2Nat.id by (apply Z.log2_nonneg).
  destruct (Z.eq_dec n 0%Z) as [->|Hn0]; [simpl; lia|].
  apply Z.log2_spec. lia.
Qed.

(** [str(n)] reads back as [n]. *)
Lemma dec_string_value n : (0 <= n)%Z -> digits_value 0 (dec_string n) = Some n.
Proof.
  intros Hn. unfold dec_string. rewrite zpad_value. f_equal.
  rewrite Z.mod_small; [lia|]. split; [done|]. by apply ndigits_bound.
Qed.

Lemma dec_string_length n : (1 <= String.length (dec_string n))%nat.
Proof. unfold dec_string, ndigits. rewrite zpad_length. apply ndigits_fuel_pos. Qed.

(** [zpad] seen from the left: the most significant digit first. *)
Lemma zpad_cons_left w n :
  zpad (S w) n = String (digit_char ((n / 10 ^ Z.of_nat w) mod 10)) (zpad w n).
Proof.
  revert n. induction w as [|w IH]; intros n.
  - cbn [zpad]. rewrite string_app_nil_l. by rewrite Z.pow_0_r, Z.div_1_r.
  - change (zpad (S (S w)) n) with (zpad (S w) (n / 10) +:+ String (digit_char (n mod 10)) EmptyString).
    rewrite IH, string_app_cons, Z.div_div, <- Z.pow_succ_r, <- Nat2Z.inj_succ by lia.
    reflexivity.
Qed.

Lemma ndigits_fuel_lower f n : (1 <= n)%Z -> (10 ^ (Z.of_nat (ndigits_fuel f n) - 1) <= n)%Z.
Proof.
  revert n. induction f as [|f IH]; intros n Hn; cbn [ndigits_fuel]; [simpl; lia|].
  destruct (Z.ltb_spec n 10); [simpl; lia|].
  assert (1 <= n / 10)%Z by (apply Z.div_le_lower_bound; lia).
  specialize (IH _ H0). pose proof (ndigits_fuel_pos f (n / 10)).
  replace (Z.of_nat (S (ndigits_fuel f (n / 10))) - 1)%Z
    with (Z.succ (Z.of_nat (ndigits_fuel f (n / 10)) - 1)) by lia.
  rewrite Z.pow_succ_r by lia. pose proof (Z.mul_div_le n 10). lia.
Qed.

(** [str(n)] has no leading zero: its first digit is [0] only for [n = 0],
    which prints as ["0"]. *)
Lemma dec_string_head n :
  (0 <= n)%Z ->
  exists d r, dec_string n = String (digit_char d) r /\ (0 <= d < 10)%Z /\
    (d = 0 -> n = 0 /\ r = EmptyString)%Z.
Proof.
  intros Hn. destruct (Z.eq_dec n 0%Z) as [->|Hn0].
  { exists 0%Z, EmptyString. split; [reflexivity|split; [lia|done]]. }
  unfold dec_string. pose proof (ndigits_fuel_pos (S (Z.to_nat (Z.log2 n))) n) as Hp.
  pose proof (ndigits_bound n Hn) as Hu.
  pose proof (ndigits_fuel_lower (S (Z.to_nat (Z.log2 n))) n ltac:(lia)) as Hl.
  fold (ndigits n) in Hp, Hl. destruct (ndigits n) as [|w] eqn:Hw; [lia|].
  rewrite zpad_cons_left. eexists _, _. split; [reflexivity|].
  rewrite Nat2Z.inj_succ, Z.pow_succ_r in Hu by lia.
  replace (Z.of_nat (S w) - 1)%Z with (Z.of_nat w) in Hl by lia.
  assert (1 <= n / 10 ^ Z.of_nat w < 10)%Z.
  { split; [apply Z.div_le_lower_bound; lia|apply Z.div_lt_upper_bound; lia]. }
  rewrite Z.mod_small by lia. lia.
Qed.

Lemma ndigits_fuel_agree f1 f2 n :
  (0 <= n < 2 ^ Z.of_nat f1)%Z -> (0 <= n < 2 ^ Z.of_nat f2)%Z ->
  ndigits_fuel f1 n = ndigits_fuel f2 n.
Proof.
  revert f2 n. induction f1 as [|f1 IH]; intros [|f2] n H1 H2; cbn [ndigits_fuel] in *;
    try (simpl in *; assert (n = 0)%Z as -> by lia; reflexivity).
  destruct (Z.ltb_spec n 10); [done|]. f_equal.
  rewrite Nat2Z.inj_succ, Z.pow_succ_r in H1, H2 by lia.
  apply IH; split; try (apply Z.div_pos; lia); apply Z.div_lt_upper_bound; lia.
Qed.

(** The digit loop of [str(n)] never runs out of fuel:
    any fuel above the bit length of [n] gives the same count, and that
    count is the number of decimal digits of [n]. *)
Theorem ndigits_fuel_enough f n :
  (1 <= n < 2 ^ Z.of_nat f)%Z ->
  ndigits_fuel f n = ndigits n /\
  (10 ^ (Z.of_nat (ndigits n) - 1) <= n < 10 ^ Z.of_nat (ndigits n))%Z.
Proof.
  intros Hn. split; [|split; [apply ndigits_fuel_lower|apply ndigits_bound]; lia].
  apply ndigits_fuel_agree; [lia|]. split; [lia|].
  rewrite Nat2Z.inj_succ, Z2Nat.id by (apply Z.log2_nonneg). apply Z.log2_spec. lia.
Qed.

Lemma list_sum_cons n l : list_sum (n :: l) = (n + list_sum l)%nat.
Proof. reflexivity. Qed.

Lemma concat_cons_ne sep x ys :
  ys <> [] -> String.concat sep (x :: ys) = x +:+ sep +:+ String.concat sep ys.
Proof. destruct ys; done. Qed.

Lemma list_sum_map_le {A} (f g : A -> nat) l :
  Forall (fun x => f x <= g x)%nat l -> (list_sum (map f l) <= list_sum (map g l))%nat.
Proof. induction 1; cbn [map]; rewrite ?list_sum_cons; [done|lia]. Qed.

(** Joining with a one-character separator spends one character per
    element but the first. *)
Lemma concat_length_bound (sep : ascii) xs :
  (list_sum (map (fun x => S (String.length x)) xs)
     <= S (String.length (String.concat (String sep EmptyString) xs)))%nat.
Proof.
  induction xs as [|x [|y ys] IH]; [cbn; lia|cbn; lia|].
  rewrite concat_cons_ne by done. rewrite map_cons, list_sum_cons, !string_length_app.
  cbn [String.length]. lia.
Qed.

(** [ok_inv] splits every successful [bind] hypothesis into its two steps. *)
Ltac ok_inv :=
  repeat match goal with
  | H : bind _ _ = Ok _ |- _ =>
      let a := fresh "a" in let Ha := fresh "Ha" in
      apply bind_Ok in H as (a & Ha & H)
  | H : Ok _ = Ok _ |- _ => injection H as H
  end.
