(* ===== verification/Config.v ===== *)
(** Static configuration of [fetch_data.py]: the [ETFS] table (ticker to
    asset-class name), the [COLORS] table (name to hex colour), the
    [symbols] list and the ["asset_classes"] comprehension of [main].
    Theorems: the comprehension succeeds exactly when every name has a
    colour, and on the shipped tables it yields the nine entries. *)

From S2P Require Import Prelude.

Open Scope string_scope.

Module Config.

(** [ETFS = {...}] (lines 17-27), in CPython's insertion order. *)
Definition ETFS : dict string string :=
  [("SPY", "Large Cap");
   ("IWM", "Small Cap");
   ("EFA", "Dev ex-US");
   ("EEM", "Emerging Mkt");
   ("REET", "Real Estate");
   ("AGG", "US Fixed Inc");
   ("BNDX", "Intl Fixed Inc");
   ("HYG", "High Yield");
   ("BIL", "Cash")].

(** [COLORS = {...}] (lines 29-39). *)
Definition COLORS : dict string string :=
  [("Large Cap", "#1f77b4");
   ("Small Cap", "#ff7f0e");
   ("Dev ex-US", "#2ca02c");
   ("Emerging Mkt", "#d62728");
   ("Real Estate", "#9467bd");
   ("US Fixed Inc", "#8c564b");
   ("Intl Fixed Inc", "#e377c2");
   ("High Yield", "#7f7f7f");
   ("Cash", "#bcbd22")].

(** [symbols = list(ETFS.keys())] (line 49). *)
Definition symbols_of (etfs : dict string string) : list string := dict_keys etfs.

Definition symbols : list string := symbols_of ETFS.

(** One element of the ["asset_classes"] list: the JSON object
    [{"name": name, "symbol": symbol, "color": COLORS[name]}]. *)
Record AssetClass := mkAssetClass {
  ac_name : string;
  ac_symbol : string;
  ac_color : string
}.

(** The comprehension body for one [(symbol, name)] of [ETFS.items()];
    [COLORS[name]] raises [KeyError] for a name without a colour. *)
Definition asset_class_entry (colors : dict string string) (item : string * string)
    : result AssetClass :=
  let '(symbol, name) := item in
  color <- py_getitem id colors name ;;
  Ok (mkAssetClass name symbol color).

(** [[... for symbol, name in ETFS.items()]] (lines 75-78). *)
Definition asset_classes_of (etfs colors : dict string string) : result (list AssetClass) :=
  mapM (asset_class_entry colors) etfs.

Definition asset_classes : result (list AssetClass) := asset_classes_of ETFS COLORS.

(** The entry an item produces when its colour exists. *)
Definition entry_ok (colors : dict string string) (item : string * string) (a : AssetClass) : Prop :=
  ac_symbol a = item.1 /\ ac_name a = item.2 /\ dict_get colors item.2 = Some (ac_color a).

Lemma asset_class_entry_Ok colors item a :
  asset_class_entry colors item = Ok a <-> entry_ok colors item a.
Proof.
  destruct item as [s n]. unfold asset_class_entry, py_getitem, entry_ok; simpl.
  destruct (dict_get colors n) as [c|]; simpl; split.
  - by intros [= <-].
  - destruct a; simpl; intros (-> & -> & [= ->]); done.
  - done.
  - by intros (_ & _ & ?).
Qed.

(** The statement of [asset_classes_of_Ok], for the proofs that use it. *)
Lemma asset_classes_of_Ok_aux etfs colors l :
  asset_classes_of etfs colors = Ok l <-> Forall2 (entry_ok colors) etfs l.
Proof.
  unfold asset_classes_of. rewrite mapM_Forall2.
  split; intros H; eapply Forall2_impl; try exact H; intros; by apply asset_class_entry_Ok.
Qed.

(** C25: the comprehension succeeds with [l] exactly when [l] lists, item
    by item, the symbol, the name and [COLORS[name]] of every entry of
    [ETFS.items()]. *)
Theorem asset_classes_of_Ok etfs colors l :
  asset_classes_of etfs colors = Ok l <-> Forall2 (entry_ok colors) etfs l.
Proof. exact (asset_classes_of_Ok_aux etfs colors l). Qed.

(** The comprehension raises exactly the [KeyError] of a name of
    [ETFS] that has no colour, and raises nothing when every name has one. *)
Lemma asset_classes_of_Err etfs colors e :
  asset_classes_of etfs colors = Err e ->
  exists symbol name, (symbol, name) ∈ etfs /\ dict_get colors name = None /\ e = KeyError name.
Proof.
  unfold asset_classes_of. induction etfs as [|[s n] etfs IH]; simpl; [done|].
  unfold asset_class_entry at 1, py_getitem at 1; simpl.
  destruct (dict_get colors n) eqn:Hc; simpl.
  - destruct (mapM _ etfs) eqn:Hm; simpl; [done|].
    intros [= <-]. destruct IH as (s' & n' & Hin & Hn & ->); [done|].
    exists s', n'. split; [by right|done].
  - intros [= <-]. exists s, n. split; [left|done].
Qed.

Lemma asset_classes_of_total etfs colors :
  (forall symbol name, (symbol, name) ∈ etfs -> is_Some (dict_get colors name)) ->
  exists l, asset_classes_of etfs colors = Ok l.
Proof.
  intros Hall. destruct (asset_classes_of etfs colors) as [l|e] eqn:He; [eauto|].
  apply asset_classes_of_Err in He as (s & n & Hin & Hn & _).
  destruct (Hall s n Hin) as [c Hc]. congruence.
Qed.

(** The statement of [asset_classes_shipped], for the proofs that use it. *)
Lemma asset_classes_shipped_aux :
  exists l, asset_classes = Ok l /\ length l = 9 /\
    map ac_symbol l = symbols /\ map ac_name l = map snd ETFS /\
    NoDup (map ac_name l) /\ NoDup (map ac_symbol l) /\
    Forall (fun a => dict_get COLORS (ac_name a) = Some (ac_color a)) l.
Proof.
  destruct (asset_classes_of_total ETFS COLORS) as [l Hl].
  { intros s n Hin. repeat (apply elem_of_cons in Hin as [[= -> ->]|Hin]; [by eexists|]).
    by apply elem_of_nil in Hin. }
  exists l. split; [done|]. apply asset_classes_of_Ok_aux in Hl.
  unfold symbols, symbols_of, dict_keys.
  assert (Hsym : map ac_symbol l = map fst ETFS).
  { clear -Hl. induction Hl as [|[s n] a ?? [Hs _] ? IH]; simpl; [done|]. by rewrite Hs, IH. }
  assert (Hname : map ac_name l = map snd ETFS).
  { clear -Hl. induction Hl as [|[s n] a ?? [_ [Hn _]] ? IH]; simpl; [done|]. by rewrite Hn, IH. }
  rewrite Hsym, Hname. split; [erewrite <- length_map, Hsym; done|].
  do 2 (split; [done|]). split; [vm_compute; repeat constructor; set_solver|].
  split; [vm_compute; repeat constructor; set_solver|].
  clear -Hl. induction Hl as [|[s n] a ?? (_ & Hn & Hc) ? IH]; constructor; [|done].
  simpl in *. by rewrite Hn.
Qed.

(** C14: on the shipped tables the ["asset_classes"] list is built without
    error and holds exactly the nine configured entries, in [ETFS] order,
    with pairwise distinct names and symbols, each with its colour from
    [COLORS]. *)
Theorem asset_classes_shipped :
  exists l, asset_classes = Ok l /\ length l = 9 /\
    map ac_symbol l = symbols /\ map ac_name l = map snd ETFS /\
    NoDup (map ac_name l) /\ NoDup (map ac_symbol l) /\
    Forall (fun a => dict_get COLORS (ac_name a) = Some (ac_color a)) l.
Proof. exact asset_classes_shipped_aux. Qed.

End Config.
