(* ===== verification/Calendar.v ===== *)
(** The [datetime] values of [fetch_data.py]: the constructor
    [datetime(y, m, d)] with CPython's range checks, the two string forms
    the job prints ([strftime("%Y-%m-%d")] and [isoformat()]), the
    chronological order, and the window of lines 44-45.  Theorems: the
    date string is injective and ordered like the dates, and the window
    covers the five previous calendar years and the current year to date. *)

From S2P Require Import Prelude.
From stdpp Require Import pretty.

Open Scope Z_scope.

Module Calendar.

(** A naive [datetime.datetime] (the script never attaches a time zone). *)
Record datetime := mkDatetime {
  year : Z; month : Z; day : Z;
  hour : Z; minute : Z; second : Z; microsecond : Z
}.

#[global] Instance datetime_eq_dec : EqDecision datetime.
Proof. solve_decision. Defined.

Definition MINYEAR : Z := 1.
Definition MAXYEAR : Z := 9999.

(** CPython [_is_leap]. *)
Definition is_leap (y : Z) : bool :=
  (y mod 4 =? 0) && (negb (y mod 100 =? 0) || (y mod 400 =? 0)).

(** CPython [_days_in_month]. *)
Definition days_in_month (y m : Z) : Z :=
  if m =? 2 then (if is_leap y then 29 else 28)
  else if (m =? 4) || (m =? 6) || (m =? 9) || (m =? 11) then 30
  else 31.

(** The message of the year check, [f"year {year} is out of range"]. *)
Definition year_range_msg (y : Z) : string := "year " +:+ pretty y +:+ " is out of range".
Arguments year_range_msg : simpl never.

Definition in_range (lo x hi : Z) : bool := (lo <=? x) && (x <=? hi).

(** The range checks of the constructor ([_check_date_fields] and
    [_check_time_fields]), in the order CPython performs them. *)
Definition check_datetime (dt : datetime) : result datetime :=
  if negb (in_range MINYEAR (year dt) MAXYEAR) then
    Err (ValueError (year_range_msg (year dt)))
  else if negb (in_range 1 (month dt) 12) then Err (ValueError "month must be in 1..12")
  else if negb (in_range 1 (day dt) (days_in_month (year dt) (month dt))) then
    Err (ValueError "day is out of range for month")
  else if negb (in_range 0 (hour dt) 23) then Err (ValueError "hour must be in 0..23")
  else if negb (in_range 0 (minute dt) 59) then Err (ValueError "minute must be in 0..59")
  else if negb (in_range 0 (second dt) 59) then Err (ValueError "second must be in 0..59")
  else if negb (in_range 0 (microsecond dt) 999999) then
    Err (ValueError "microsecond must be in 0..999999")
  else Ok dt.

Definition valid_datetime (dt : datetime) : bool := is_ok (check_datetime dt).

(** [datetime(y, m, d)]: time fields default to 0. *)
Definition datetime_new (y m d : Z) : result datetime :=
  check_datetime (mkDatetime y m d 0 0 0 0).

(** Lines 44-45: [start_date = datetime(end_date.year - 5, 1, 1)]. *)
Definition window_start (end_date : datetime) : result datetime :=
  datetime_new (year end_date - 5) 1 1.

(** ** String forms *)

(** [dt.strftime("%Y-%m-%d")] (line 62), which is also [str(dt.date())]
    (line 47). *)
Definition strftime_ymd (dt : datetime) : string :=
  zpad 4 (year dt) +:+ "-" +:+ zpad 2 (month dt) +:+ "-" +:+ zpad 2 (day dt).

(** [dt.isoformat()] (line 74): the fraction is printed only when the
    microsecond is not zero. *)
Definition isoformat (dt : datetime) : string :=
  strftime_ymd dt +:+ "T" +:+ zpad 2 (hour dt) +:+ ":" +:+ zpad 2 (minute dt) +:+ ":"
    +:+ zpad 2 (second dt)
    +:+ (if microsecond dt =? 0 then EmptyString else "." +:+ zpad 6 (microsecond dt)).

(** ** Chronological order *)

Definition lex (c1 : comparison) (c2 : comparison) : comparison :=
  match c1 with Eq => c2 | c => c end.

Definition compare_date (a b : datetime) : comparison :=
  lex (Z.compare (year a) (year b))
      (lex (Z.compare (month a) (month b)) (Z.compare (day a) (day b))).

Definition compare_datetime (a b : datetime) : comparison :=
  lex (compare_date a b)
      (lex (Z.compare (hour a) (hour b))
           (lex (Z.compare (minute a) (minute b))
                (lex (Z.compare (second a) (second b))
                     (Z.compare (microsecond a) (microsecond b))))).


(** ** Lemmas on the string forms *)

Lemma valid_datetime_spec dt :
  valid_datetime dt = true <->
    MINYEAR <= year dt <= MAXYEAR /\ 1 <= month dt <= 12 /\
    1 <= day dt <= days_in_month (year dt) (month dt) /\
    0 <= hour dt <= 23 /\ 0 <= minute dt <= 59 /\ 0 <= second dt <= 59 /\
    0 <= microsecond dt <= 999999.
Proof.
  unfold valid_datetime, check_datetime, in_range.
  repeat match goal with
  | |- context [negb ((?a <=? ?b) && (?b <=? ?c))] =>
      destruct (Z.leb_spec a b); destruct (Z.leb_spec b c); cbn [negb andb is_ok]
  end; split; try done; lia.
Qed.

Lemma days_in_month_bounds y m : 28 <= days_in_month y m <= 31.
Proof. unfold days_in_month. repeat case_match; lia. Qed.

(** Lexicographic comparison of two concatenations whose first parts have
    the same length. *)
Lemma string_compare_app s1 s2 t1 t2 :
  String.length s1 = String.length s2 ->
  String.compare (s1 +:+ t1) (s2 +:+ t2) = lex (String.compare s1 s2) (String.compare t1 t2).
Proof.
  revert s2. induction s1 as [|c1 s1 IH]; intros [|c2 s2] Hlen; simpl in *; try lia; [done|].
  destruct (Ascii.compare c1 c2); [apply IH; lia|done|done].
Qed.

Lemma string_compare_single c1 c2 :
  String.compare (String c1 EmptyString) (String c2 EmptyString) = Ascii.compare c1 c2.
Proof. simpl. by destruct (Ascii.compare c1 c2). Qed.

Lemma digit_char_compare x y :
  0 <= x < 10 -> 0 <= y < 10 -> Ascii.compare (digit_char x) (digit_char y) = Z.compare x y.
Proof.
  intros Hx Hy.
  assert (x = 0 \/ x = 1 \/ x = 2 \/ x = 3 \/ x = 4 \/ x = 5 \/ x = 6 \/ x = 7 \/ x = 8 \/ x = 9)
    as Hx' by lia.
  assert (y = 0 \/ y = 1 \/ y = 2 \/ y = 3 \/ y = 4 \/ y = 5 \/ y = 6 \/ y = 7 \/ y = 8 \/ y = 9)
    as Hy' by lia.
  destruct_or! Hx'; destruct_or! Hy'; subst; reflexivity.
Qed.

(** Comparing two naturals is comparing their quotients by 10, then their
    last digits. *)
Lemma compare_div_mod10 a b :
  0 <= a -> 0 <= b ->
  Z.compare a b = lex (Z.compare (a / 10) (b / 10)) (Z.compare (a mod 10) (b mod 10)).
Proof.
  intros Ha Hb.
  pose proof (Z.div_mod a 10 ltac:(lia)). pose proof (Z.div_mod b 10 ltac:(lia)).
  pose proof (Z.mod_pos_bound a 10 ltac:(lia)). pose proof (Z.mod_pos_bound b 10 ltac:(lia)).
  unfold lex.
  destruct (Z.compare_spec (a / 10) (b / 10)), (Z.compare_spec (a mod 10) (b mod 10));
    apply Z.compare_eq_iff || apply Z.compare_lt_iff || apply Z.compare_gt_iff; lia.
Qed.

(** Zero-padded numbers of the same width compare as strings like the
    numbers they print. *)
Lemma zpad_compare w a b :
  0 <= a < 10 ^ Z.of_nat w -> 0 <= b < 10 ^ Z.of_nat w ->
  String.compare (zpad w a) (zpad w b) = Z.compare a b.
Proof.
  revert a b. induction w as [|w IH]; intros a b Ha Hb; simpl.
  - simpl in Ha, Hb. replace a with 0 by lia. replace b with 0 by lia. done.
  - rewrite Nat2Z.inj_succ, Z.pow_succ_r in Ha, Hb by lia.
    rewrite string_compare_app by (rewrite !zpad_length; done).
    rewrite IH; [|split; [apply Z.div_pos; lia|apply Z.div_lt_upper_bound; lia]..].
    rewrite string_compare_single, digit_char_compare by (apply Z.mod_pos_bound; lia).
    destruct (Z.compare (a mod 10) (b mod 10)) eqn:E;
      rewrite (compare_div_mod10 a b) by lia; unfold lex; rewrite E;
      destruct (Z.compare (a / 10) (b / 10)); done.
Qed.

Lemma valid_ymd_ranges dt :
  valid_datetime dt = true ->
  0 <= year dt < 10 ^ 4 /\ 0 <= month dt < 10 ^ 2 /\ 0 <= day dt < 10 ^ 2.
Proof.
  intros Hv. apply valid_datetime_spec in Hv. unfold MINYEAR, MAXYEAR in Hv.
  pose proof (days_in_month_bounds (year dt) (month dt)). simpl. lia.
Qed.

Lemma string_compare_refl s : String.compare s s = Eq.
Proof.
  induction s as [|c s IH]; simpl; [done|].
  unfold Ascii.compare. by rewrite N.compare_refl.
Qed.

Lemma lex_Eq c1 c2 : lex c1 c2 = Eq <-> c1 = Eq /\ c2 = Eq.
Proof. destruct c1; simpl; naive_solver. Qed.

Lemma lex_not_Gt c1 c2 : c1 <> Gt -> (c1 = Eq -> c2 <> Gt) -> lex c1 c2 <> Gt.
Proof. destruct c1; simpl; auto. Qed.

Lemma compare_date_Eq a b :
  compare_date a b = Eq <-> year a = year b /\ month a = month b /\ day a = day b.
Proof. unfold compare_date. rewrite !lex_Eq, !Z.compare_eq_iff. done. Qed.

(** ** The date string orders dates chronologically *)

(** The statement of [strftime_ymd_compare], for the proofs that use it. *)
Lemma strftime_ymd_compare_aux a b :
  valid_datetime a = true -> valid_datetime b = true ->
  String.compare (strftime_ymd a) (strftime_ymd b) = compare_date a b.
Proof.
  intros Ha Hb. apply valid_ymd_ranges in Ha as (?&?&?), Hb as (?&?&?).
  unfold strftime_ymd, compare_date.
  repeat rewrite string_compare_app by (rewrite ?zpad_length; reflexivity).
  rewrite !zpad_compare by (simpl; lia). reflexivity.
Qed.

(** C3: on valid datetimes, comparing the [strftime("%Y-%m-%d")] strings
    lexicographically gives the chronological order of the dates; this is
    what makes [sorted(prices.keys())] (line 70) a date sort. *)
Theorem strftime_ymd_compare a b :
  valid_datetime a = true -> valid_datetime b = true ->
  String.compare (strftime_ymd a) (strftime_ymd b) = compare_date a b.
Proof. exact (strftime_ymd_compare_aux a b). Qed.

(** C23: two valid datetimes have the same date string exactly when they
    fall on the same calendar day. *)
Theorem strftime_ymd_inj a b :
  valid_datetime a = true -> valid_datetime b = true ->
  strftime_ymd a = strftime_ymd b <->
    year a = year b /\ month a = month b /\ day a = day b.
Proof.
  intros Ha Hb. rewrite <- compare_date_Eq, <- strftime_ymd_compare_aux by done.
  split; [intros ->; apply string_compare_refl|apply String.compare_eq_iff].
Qed.

(** ** The window of lines 44-45 *)

(** The statement of [window_start_spec], for the proofs that use it. *)
Lemma window_start_spec_aux now :
  valid_datetime now = true ->
  match window_start now with
  | Ok s => 6 <= year now /\ s = mkDatetime (year now - 5) 1 1 0 0 0 0
  | Err e => year now <= 5 /\ e = ValueError (year_range_msg (year now - 5))
  end.
Proof.
  intros Hv. apply valid_datetime_spec in Hv. unfold MINYEAR, MAXYEAR in Hv.
  unfold window_start, datetime_new, check_datetime, in_range, MINYEAR, MAXYEAR.
  cbn [year month day hour minute second microsecond].
  destruct (Z.leb_spec 1 (year now - 5)), (Z.leb_spec (year now - 5) 9999);
    try lia; simpl; split; try lia; done.
Qed.

(** C21: the window start is January 1, 00:00 of five years before [now];
    the constructor raises [ValueError] exactly when that year is below
    [MINYEAR], i.e. when [now] is in years 1 to 5. *)
Theorem window_start_spec now :
  valid_datetime now = true ->
  match window_start now with
  | Ok s => 6 <= year now /\ s = mkDatetime (year now - 5) 1 1 0 0 0 0
  | Err e => year now <= 5 /\ e = ValueError (year_range_msg (year now - 5))
  end.
Proof. exact (window_start_spec_aux now). Qed.

(** C22: the window [[start, now)] contains every valid datetime of the
    five calendar years before the current one (the "5 full calendar
    years"), and the start is strictly before [now]. *)
Theorem window_covers now s t :
  valid_datetime now = true -> window_start now = Ok s ->
  valid_datetime t = true -> year now - 5 <= year t < year now ->
  compare_datetime s now = Lt /\ compare_datetime s t <> Gt /\ compare_datetime t now = Lt.
Proof.
  intros Hv Hs Ht Hy. pose proof (window_start_spec_aux now Hv) as Hw. rewrite Hs in Hw.
  destruct Hw as [_ ->]. apply valid_datetime_spec in Ht.
  unfold compare_datetime, compare_date; cbn [year month day hour minute second microsecond].
  split; [|split].
  - rewrite (proj2 (Z.compare_lt_iff _ _)) by lia. done.
  - repeat (apply lex_not_Gt; [|intros _]); apply Z.compare_le_iff; unfold MINYEAR in Ht; lia.
  - rewrite (proj2 (Z.compare_lt_iff (year t) _)) by lia. done.
Qed.

Lemma check_datetime_Err dt e : check_datetime dt = Err e -> exists msg, e = ValueError msg.
Proof. unfold check_datetime. repeat case_match; intros [= <-]; eauto. Qed.

End Calendar.
