(* ===== verification/Rounding.v ===== *)
(** Python floats and [round(float(price), 4)] (line 67).

    A float is modelled by its exact value: a sign, a natural mantissa and
    a binary exponent ([(-1)^neg * mant * 2^exp]), plus the infinities and
    NaN.  CPython's [round(x, n)] for [n > 0] is correctly rounded.  It
    computes the decimal [k / 10^n] nearest to the exact value of [x],
    ties to even, and returns the double nearest to it.  That double prints
    back as [k / 10^n] (see [Json]).  The sign is kept, so a negative value
    that rounds to zero gives [-0.0].  [round] returns infinities and NaN
    unchanged.

    Theorems: the integer kernel [round_half_even] implements the abstract
    specification [nearest_even] (refinement), and [round(x, 4)] returns the
    4-decimal value nearest to the exact value [abs_value] of [x], ties to
    even.  A bound
    lemma ([py_round4_fits]) shows that a finite value below
    [10^16 - 1] rounds to a number [json.dump] prints in fixed notation. *)

From S2P Require Import Prelude.

Open Scope Z_scope.

Module Rounding.

(** The value of one provider cell as a Python float. *)
Inductive pyfloat :=
| Finite (neg : bool) (mant : N) (exp : Z)
| Inf (neg : bool)
| NaN.

#[global] Instance pyfloat_eq_dec : EqDecision pyfloat.
Proof. solve_decision. Defined.

(** [x != x]: true only for NaN (line 66). *)
Definition float_ne_self (x : pyfloat) : bool :=
  match x with NaN => true | _ => false end.

(** The result of [round(x, 4)]: the decimal [(-1)^neg * k / 10^4] (as the
    double nearest to it), or an infinity, or NaN. *)
Inductive rounded :=
| RDec (neg : bool) (k : Z)
| RInf (neg : bool)
| RNaN.

#[global] Instance rounded_eq_dec : EqDecision rounded.
Proof. solve_decision. Defined.

Definition NDIGITS : Z := 4.
Definition SCALE : Z := 10 ^ NDIGITS.

(** The integer nearest to [num / den] ([num >= 0], [den > 0]), ties to
    even: the kernel of CPython's correctly rounded [round]. *)
Definition round_half_even (num den : Z) : Z :=
  let q := num / den in
  let r := num mod den in
  match Z.compare (2 * r) den with
  | Lt => q
  | Gt => q + 1
  | Eq => if Z.even q then q else q + 1
  end.

(** The exact magnitude [|x| = mant * 2^exp] of a finite float, as a
    fraction [num / den] of integers. *)
Definition abs_value (mant : N) (exp : Z) : Z * Z :=
  if 0 <=? exp then (Z.of_N mant * 2 ^ exp, 1) else (Z.of_N mant, 2 ^ (- exp)).

(** [|x| * 10^4] as a fraction [num / den] of integers: what CPython's
    [round] brings to an integer. *)
Definition scaled (mant : N) (exp : Z) : Z * Z :=
  if 0 <=? exp then (Z.of_N mant * 2 ^ exp * SCALE, 1)
  else (Z.of_N mant * SCALE, 2 ^ (- exp)).

(** [round(x, 4)]. *)
Definition py_round4 (x : pyfloat) : rounded :=
  match x with
  | Finite neg mant exp =>
      let '(num, den) := scaled mant exp in RDec neg (round_half_even num den)
  | Inf neg => RInf neg
  | NaN => RNaN
  end.

(** A finite float whose magnitude is below [10^16 - 1]: the prices that
    [json.dump] writes in fixed notation after rounding. *)
Definition fits_fixed (x : pyfloat) : bool :=
  match x with
  | Finite _ mant exp => let '(num, den) := abs_value mant exp in (num <? (10 ^ 16 - 1) * den)
  | _ => false
  end.

(** ** The abstract specification of rounding *)

(** [k] is an integer nearest to [num / den], and an even one on a tie. *)
Definition nearest_even (num den k : Z) : Prop :=
  Z.abs (2 * (num - k * den)) <= den /\
  (Z.abs (2 * (num - k * den)) = den -> Z.even k = true).

Section Kernel.
Context (num den : Z) (Hnum : 0 <= num) (Hden : 0 < den).

Lemma round_half_even_correct : nearest_even num den (round_half_even num den).
Proof.
  unfold round_half_even, nearest_even.
  pose proof (Z.div_mod num den ltac:(lia)) as Hdm.
  pose proof (Z.mod_pos_bound num den Hden) as Hr.
  set (q := num / den) in *. set (r := num mod den) in *.
  destruct (Z.compare_spec (2 * r) den).
  - destruct (Z.even q) eqn:He.
    + split; [lia|auto].
    + rewrite Z.even_add, He. split; [lia|auto].
  - split; [lia|lia].
  - split; [lia|lia].
Qed.

Lemma nearest_even_unique k1 k2 :
  nearest_even num den k1 -> nearest_even num den k2 -> k1 = k2.
Proof.
  intros [H1 E1] [H2 E2].
  destruct (Z.eq_dec k1 k2) as [|Hne]; [done|exfalso].
  assert (Hj : k1 = k2 + 1 \/ k1 = k2 - 1).
  { destruct (Z.le_gt_cases 2 (k1 - k2)) as [Hg|Hg].
    - assert ((k1 - k2) * den >= 2 * den) by nia. lia.
    - destruct (Z.le_gt_cases (k1 - k2) (-2)) as [Hl|Hl].
      + assert ((k2 - k1) * den >= 2 * den) by nia. lia.
      + lia. }
  assert (Hk1 : Z.even k1 = true) by (apply E1; destruct Hj; subst; lia).
  assert (Hk2 : Z.even k2 = true) by (apply E2; destruct Hj; subst; lia).
  destruct Hj as [-> | ->]; rewrite ?Z.even_add, ?Z.even_sub, Hk2 in Hk1; discriminate.
Qed.
End Kernel.

Lemma round_half_even_nonneg num den :
  0 <= num -> 0 < den -> 0 <= round_half_even num den.
Proof.
  intros Hn Hd. unfold round_half_even. pose proof (Z.div_pos num den Hn Hd).
  destruct (Z.compare _ _); [destruct (Z.even _)|..]; lia.
Qed.

(** [scaled] is the exact magnitude times [10^4]. *)
Lemma scaled_abs_value mant exp :
  scaled mant exp = ((abs_value mant exp).1 * SCALE, (abs_value mant exp).2).
Proof. unfold scaled, abs_value. destruct (0 <=? exp); cbn [fst snd]; f_equal; lia. Qed.

Lemma abs_value_pos mant exp : 0 <= (abs_value mant exp).1 /\ 0 < (abs_value mant exp).2.
Proof.
  unfold abs_value. destruct (Z.leb_spec 0 exp); cbn [fst snd].
  - split; [apply Z.mul_nonneg_nonneg|]; lia.
  - split; [lia|]. apply Z.pow_pos_nonneg; lia.
Qed.

(** C7 (refinement): on [num >= 0] and [den > 0], [round_half_even]
    returns [k] exactly when [k] is the nearest integer to [num / den] with
    ties to even, i.e. the kernel implements [nearest_even]. *)
Theorem round_half_even_spec num den k :
  0 <= num -> 0 < den -> round_half_even num den = k <-> nearest_even num den k.
Proof.
  intros Hn Hd. split; [intros <-; by apply round_half_even_correct|].
  intros Hk. eapply nearest_even_unique; eauto using round_half_even_correct.
Qed.

(** [round(x, 4)] on a finite float: the sign, and the integer kernel on
    the exact magnitude times [10^4]. *)
Lemma py_round4_Finite neg mant exp :
  py_round4 (Finite neg mant exp) =
    RDec neg (round_half_even ((abs_value mant exp).1 * 10000) (abs_value mant exp).2).
Proof. unfold py_round4. rewrite scaled_abs_value. reflexivity. Qed.

(** C8: [round(x, 4)] of a finite float [(-1)^neg * |x|] keeps the sign
    and returns [k / 10^4] with [k] the integer nearest to [|x| * 10^4]
    (ties to even): the rounding error is at most half a unit of the
    fourth decimal of the exact value of [x]. *)
Theorem py_round4_finite neg mant exp :
  exists k, py_round4 (Finite neg mant exp) = RDec neg k /\ 0 <= k /\
    nearest_even ((abs_value mant exp).1 * 10000) (abs_value mant exp).2 k.
Proof.
  destruct (abs_value_pos mant exp) as [Hn Hd]. rewrite py_round4_Finite.
  eexists. split; [reflexivity|]. split; [apply round_half_even_nonneg; lia|].
  apply round_half_even_correct; lia.
Qed.

(** ** Bounds *)

Lemma round_half_even_le num den :
  0 < den -> round_half_even num den <= num / den + 1.
Proof. intros Hd. unfold round_half_even. destruct (Z.compare _ _); [case_match| |]; lia. Qed.

(** A finite float below [10^16 - 1] in magnitude rounds to a
    non-negative number of ten-thousandths below [10^20]. *)
Lemma py_round4_fits x :
  fits_fixed x = true -> exists neg k, py_round4 x = RDec neg k /\ 0 <= k < 10 ^ 20.
Proof.
  destruct x as [neg mant exp| |]; try discriminate. unfold fits_fixed.
  rewrite py_round4_Finite. destruct (abs_value_pos mant exp) as [Hn Hd].
  destruct (abs_value mant exp) as [num den]. cbn [fst snd] in *.
  intros Hlt. apply Z.ltb_lt in Hlt. eexists _, _. split; [reflexivity|].
  split; [apply round_half_even_nonneg; lia|].
  pose proof (round_half_even_le (num * 10000) den Hd).
  assert (num * 10000 / den < 10 ^ 20 - 10000) by (apply Z.div_lt_upper_bound; lia).
  lia.
Qed.

(** The spec's example [450.1234] (the double 7918654595745081 * 2^-44)
    rounds to itself; [2.00005] is below the tie as a double and rounds
    down; [0.03125 = 1/32] is an exact tie (312.5) and goes to the even
    312, while [0.09375] (937.5) goes up to the even 938. *)
Example py_round4_samples :
  py_round4 (Finite false 7918654595745081 (-44)) = RDec false 4501234 /\
  py_round4 (Finite false 1125928054340295 (-49)) = RDec false 20000 /\
  py_round4 (Finite false 1 (-5)) = RDec false 312 /\
  py_round4 (Finite false 3 (-5)) = RDec false 938 /\
  py_round4 (Finite true 7378697629483821 (-67)) = RDec true 1.
Proof. repeat split; vm_compute; reflexivity. Qed.

End Rounding.
