(* ===== verification/Frame.v ===== *)
(** The provider's answer as a pandas DataFrame, and the pandas operations
    [fetch_data.py] applies to it: [data.empty] (line 52), the column
    choice of line 57, [closes[symbol].loc[date_idx]] (line 65) and the
    missing-value test of line 66.

    A frame has a row index of timestamps and (field, ticker) columns, each
    column a vector aligned with the index.  Labels may repeat in pandas.
    Selection by a repeated label returns a Series or a DataFrame instead
    of a scalar, and the test of line 66 then raises [ValueError]; the
    model keeps that behaviour. *)

From S2P Require Import Prelude Calendar Rounding.

Open Scope string_scope.

Module Frame.
Import Calendar Rounding.

(** A cell: a float (NaN for a missing price) or [None]. *)
Inductive cell :=
| CNone
| CFloat (x : pyfloat).

#[global] Instance cell_eq_dec : EqDecision cell.
Proof. solve_decision. Defined.

(** [yf.download(...)] for several tickers: a DataFrame whose columns are a
    (field, ticker) MultiIndex. *)
Record dataframe := mkFrame {
  df_index : list datetime;
  df_columns : list ((string * string) * list cell)
}.

(** Every column is as long as the index. *)
Definition wf_frame (df : dataframe) : Prop :=
  Forall (fun c => length c.2 = length (df_index df)) (df_columns df).

(** [data.empty]: true when either axis has length 0. *)
Definition df_empty (df : dataframe) : bool :=
  (length (df_index df) =? 0)%nat || (length (df_columns df) =? 0)%nat.

(** [data.columns.get_level_values(0)]. *)
Definition level0_values (df : dataframe) : list string :=
  map (fun c => c.1.1) (df_columns df).

(** A frame with flat (ticker) columns, the result of [data[field]]. *)
Record closes_frame := mkCloses {
  cl_index : list datetime;
  cl_columns : list (string * list cell)
}.

(** [data[key]] on the MultiIndex: the columns whose first level is [key],
    with that level dropped; [KeyError] when there is none. *)
Definition select_level0 (df : dataframe) (key : string) : result closes_frame :=
  match filter (fun c => c.1.1 = key) (df_columns df) with
  | [] => Err (KeyError key)
  | cols => Ok (mkCloses (df_index df) (map (fun c => (c.1.2, c.2)) cols))
  end.

(** Line 57: adjusted close when present, close otherwise. *)
Definition select_closes (df : dataframe) : result closes_frame :=
  if decide ("Adj Close" ∈ level0_values df) then select_level0 df "Adj Close"
  else select_level0 df "Close".

(** What [closes[symbol].loc[date_idx]] returns: a scalar when both labels
    are unique, a Series when one of them repeats, a DataFrame (its rows)
    when the symbol repeats and the date repeats. *)
Inductive loc_result :=
| LScalar (c : cell)
| LSeries (cs : list cell)
| LFrame (rows : list (list cell)).

(** The positions of [x] in [l]. *)
Fixpoint positions {A} `{EqDecision A} (x : A) (l : list A) : list nat :=
  match l with
  | [] => []
  | y :: l' => (if decide (x = y) then [0%nat] else []) ++ map S (positions x l')
  end.

Definition cell_at (col : list cell) (i : nat) : cell := default CNone (col !! i).

(** Line 65, [closes[symbol].loc[date_idx]]. *)
Definition loc_cell (cl : closes_frame) (symbol : string) (date_idx : datetime)
    : result loc_result :=
  let rows := positions date_idx (cl_index cl) in
  match filter (fun c => c.1 = symbol) (cl_columns cl) with
  | [] => Err (KeyError symbol)
  | [col] =>
      match rows with
      | [] => Err (KeyError (isoformat date_idx))
      | [i] => Ok (LScalar (cell_at col.2 i))
      | _ => Ok (LSeries (map (cell_at col.2) rows))
      end
  | cols =>
      match rows with
      | [] => Err (KeyError (isoformat date_idx))
      | [i] => Ok (LSeries (map (fun c => cell_at c.2 i) cols))
      | _ => Ok (LFrame (map (fun i => map (fun c => cell_at c.2 i) cols) rows))
      end
  end.

(** The condition of line 66,
    [price is None or (hasattr(price, "__len__") and len(price) == 0)
     or price != price]: [Ok true] when the value is skipped.  A scalar
    float has no [__len__]; for a non-empty Series or DataFrame,
    [price != price] is element-wise and [not] of it raises. *)
Definition is_missing (p : loc_result) : result bool :=
  match p with
  | LScalar CNone => Ok true
  | LScalar (CFloat x) => Ok (float_ne_self x)
  | LSeries [] => Ok true
  | LFrame [] => Ok true
  | LSeries _ => Err (ValueError "The truth value of a Series is ambiguous.")
  | LFrame _ => Err (ValueError "The truth value of a DataFrame is ambiguous.")
  end.

(** [float(price)]: a scalar float converts; [None] and the non-empty
    Series and DataFrames raise [TypeError] (the empty ones passed the test
    of line 66 and never reach it). *)
Definition to_float (p : loc_result) : result pyfloat :=
  match p with
  | LScalar (CFloat x) => Ok x
  | LScalar CNone => Err (TypeError "float() argument must be a string or a real number, not 'NoneType'")
  | LSeries _ => Err (TypeError "cannot convert the series to <class 'float'>")
  | LFrame _ => Err (TypeError "float() argument must be a string or a real number, not 'DataFrame'")
  end.

(** ** Lemmas *)

Lemma positions_nil {A} `{EqDecision A} (x : A) l : x ∉ l -> positions x l = [].
Proof.
  induction l as [|y l IH]; intros Hx; simpl; [done|].
  rewrite decide_False by set_solver. rewrite IH by set_solver. done.
Qed.

Lemma positions_unique {A} `{EqDecision A} (x : A) l :
  NoDup l -> x ∈ l -> exists i, positions x l = [i] /\ l !! i = Some x.
Proof.
  induction l as [|y l IH]; intros Hnd Hx; [by apply elem_of_nil in Hx|].
  apply NoDup_cons in Hnd as [Hy Hnd]. simpl.
  destruct (decide (x = y)) as [->|Hne].
  - exists 0%nat. by rewrite positions_nil.
  - destruct IH as (i & Hi & Hl); [done|set_solver|]. exists (S i). by rewrite Hi.
Qed.

(** The selection [closes[symbol]] has exactly one column. *)
Definition unique_column (cl : closes_frame) (symbol : string) : Prop :=
  length (filter (fun c => c.1 = symbol) (cl_columns cl)) = 1%nat.

(** The statement of [loc_cell_scalar], for the proofs that use it. *)
Lemma loc_cell_scalar_aux cl symbol t :
  unique_column cl symbol -> NoDup (cl_index cl) -> t ∈ cl_index cl ->
  exists i c, cl_index cl !! i = Some t /\ loc_cell cl symbol t = Ok (LScalar c) /\
    is_ok (is_missing (LScalar c)) = true.
Proof.
  unfold unique_column, loc_cell. intros Hu Hnd Ht.
  destruct (positions_unique t _ Hnd Ht) as (i & -> & Hi).
  destruct (filter _ _) as [|col [|]]; simpl in Hu; try lia.
  exists i, (cell_at col.2 i). split; [done|]. split; [done|]. by destruct (cell_at _ _).
Qed.

(** C26: with a unique column for the symbol and a unique timestamp in the
    index, [closes[symbol].loc[date_idx]] is the scalar at that row, so
    the test of line 66 does not raise. *)
Theorem loc_cell_scalar cl symbol t :
  unique_column cl symbol -> NoDup (cl_index cl) -> t ∈ cl_index cl ->
  exists i c, cl_index cl !! i = Some t /\ loc_cell cl symbol t = Ok (LScalar c) /\
    is_ok (is_missing (LScalar c)) = true.
Proof. exact (loc_cell_scalar_aux cl symbol t). Qed.

(** The statement of [loc_cell_duplicate], for the proofs that use it. *)
Lemma loc_cell_duplicate_aux cl symbol t :
  (1 <= length (filter (fun c => c.1 = symbol) (cl_columns cl)))%nat ->
  (2 <= length (positions t (cl_index cl)))%nat ->
  exists p msg, loc_cell cl symbol t = Ok p /\ is_missing p = Err (ValueError msg).
Proof.
  unfold loc_cell. intros Hc Hr.
  destruct (positions t (cl_index cl)) as [|i [|j rows]]; simpl in Hr; try lia.
  destruct (filter _ _) as [|col [|col2 cols]]; simpl in Hc; try lia; eauto.
Qed.

(** C27 (error): a timestamp that occurs twice in the index makes
    [closes[symbol].loc[date_idx]] a Series or a DataFrame, and the test of
    line 66 raises [ValueError]. *)
Theorem loc_cell_duplicate cl symbol t :
  (1 <= length (filter (fun c => c.1 = symbol) (cl_columns cl)))%nat ->
  (2 <= length (positions t (cl_index cl)))%nat ->
  exists p msg, loc_cell cl symbol t = Ok p /\ is_missing p = Err (ValueError msg).
Proof. exact (loc_cell_duplicate_aux cl symbol t). Qed.

Lemma select_level0_index df key cl :
  select_level0 df key = Ok cl -> cl_index cl = df_index df.
Proof. unfold select_level0. destruct (filter _ _); [done|]. by intros [= <-]. Qed.

Lemma select_closes_index df cl :
  select_closes df = Ok cl -> cl_index cl = df_index df.
Proof. unfold select_closes. case_decide; apply select_level0_index. Qed.

Lemma select_closes_Err df e : select_closes df = Err e -> exists key, e = KeyError key.
Proof. unfold select_closes, select_level0. repeat case_match; intros [= <-]; eauto. Qed.

(** A float that [.loc] returns as a scalar is a cell of a column of the
    frame. *)
Lemma loc_cell_scalar_elem cl symbol t x :
  loc_cell cl symbol t = Ok (LScalar (CFloat x)) ->
  exists col, col ∈ cl_columns cl /\ CFloat x ∈ col.2.
Proof.
  unfold loc_cell. destruct (filter _ _) as [|col [|col' cols]] eqn:Hf; [done| |];
    destruct (positions t (cl_index cl)) as [|i [|j rows]]; try done.
  intros [= Hc]. exists col. split.
  - assert (col ∈ filter (fun c => c.1 = symbol) (cl_columns cl)) as Hin by (rewrite Hf; left).
    by apply list_elem_of_filter in Hin as [_ ?].
  - unfold cell_at in Hc. destruct (col.2 !! i) eqn:Hi; cbn in Hc; [|done].
    subst. by eapply list_elem_of_lookup_2.
Qed.

End Frame.
