(* ===== verification/Json.v ===== *)
(** The JSON document of [fetch_data.py] and [json.dump(output, f,
    separators=(",", ":"))] (line 84).

    [json.dump] with its defaults ([ensure_ascii=True], [allow_nan=True])
    and compact separators prints every value without whitespace.  Strings
    are quoted with the escapes of [json.encoder.py_encode_basestring_ascii]:
    backslash, quote and the five short control escapes, then [\uXXXX]
    (lower-case hex) for every other character outside [' '..'~'].  A
    finite float is printed with [float.__repr__], and infinities and NaN
    as [Infinity], [-Infinity] and [NaN].  None of these three is JSON.

    The file also has the induction principle of [json] over the
    elements of arrays and objects, and the facts about [rstrip0] and the
    first character of [repr_fixed] that the reader of [JsonRead] needs. *)

From S2P Require Import Prelude Rounding.

Open Scope string_scope.

Module Json.
Import Rounding.

(** The JSON values the job builds: Python dicts (in insertion order),
    lists, strings and the rounded floats. *)
Inductive json :=
| JNull
| JBool (b : bool)
| JNum (r : rounded)
| JStr (s : string)
| JArr (l : list json)
| JObj (kvs : list (string * json)).

(** ** Strings *)

Definition chr (n : nat) : ascii := ascii_of_nat n.

Definition hex_digit (d : nat) : ascii := if (d <? 10)%nat then chr (48 + d) else chr (87 + d).

(** [\u00XX] for a character code below 256. *)
Definition u_escape (n : nat) : string :=
  String "\" (String "u" (String "0" (String "0"
    (String (hex_digit (n / 16)) (String (hex_digit (n mod 16)) EmptyString))))).

(** The escape of one character ([ESCAPE_DCT] and the [\uXXXX] fallback). *)
Definition escape_char (c : ascii) : string :=
  let n := nat_of_ascii c in
  if (n =? 34)%nat then String "\" (String c EmptyString)
  else if (n =? 92)%nat then String "\" (String "\" EmptyString)
  else if (n =? 8)%nat then String "\" (String "b" EmptyString)
  else if (n =? 12)%nat then String "\" (String "f" EmptyString)
  else if (n =? 10)%nat then String "\" (String "n" EmptyString)
  else if (n =? 13)%nat then String "\" (String "r" EmptyString)
  else if (n =? 9)%nat then String "\" (String "t" EmptyString)
  else if (32 <=? n)%nat && (n <=? 126)%nat then String c EmptyString
  else u_escape n.

Fixpoint escape_string (s : string) : string :=
  match s with
  | EmptyString => EmptyString
  | String c s' => escape_char c +:+ escape_string s'
  end.

Definition dquote : ascii := chr 34.

(** [py_encode_basestring_ascii]: the quoted, escaped string. *)
Definition encode_string (s : string) : string :=
  String dquote (escape_string s +:+ String dquote EmptyString).

(** ** Floats *)

(** The string without its trailing ['0'] characters. *)
Fixpoint rstrip0 (s : string) : string :=
  match s with
  | EmptyString => EmptyString
  | String c s' =>
      let r := rstrip0 s' in
      match r with
      | EmptyString => if decide (c = "0"%char) then EmptyString else String c EmptyString
      | _ => String c r
      end
  end.

(** [repr] of [k / 10^4] below [10^16]: fixed notation with at least one
    fractional digit. *)
Definition repr_fixed (k : Z) : string :=
  dec_string (k / SCALE) +:+ "." +:+
    (if (k mod SCALE =? 0)%Z then "0" else rstrip0 (zpad 4 (k mod SCALE))).

(** [repr] of [k / 10^4] from [10^16] on: scientific notation with the
    significant digits and a signed exponent. *)
Definition repr_sci (k : Z) : string :=
  let e := (Z.of_nat (ndigits k) - 1 - NDIGITS)%Z in
  match rstrip0 (dec_string k) with
  | EmptyString => "0e+00"
  | String d rest =>
      String d (match rest with EmptyString => EmptyString | _ => "." +:+ rest end)
        +:+ "e+" +:+ dec_string e
  end.

(** [json.dump]'s text for a float ([float.__repr__] for finite values). *)
Definition float_repr (r : rounded) : string :=
  match r with
  | RDec neg k =>
      (if neg then "-" else EmptyString) +:+
        (if (k <? 10 ^ 20)%Z then repr_fixed k else repr_sci k)
  | RInf false => "Infinity"
  | RInf true => "-Infinity"
  | RNaN => "NaN"
  end.

(** ** The compact encoder *)

Fixpoint dumps (j : json) : string :=
  match j with
  | JNull => "null"
  | JBool b => if b then "true" else "false"
  | JNum r => float_repr r
  | JStr s => encode_string s
  | JArr l => "[" +:+ String.concat "," (map dumps l) +:+ "]"
  | JObj kvs =>
      "{" +:+ String.concat "," (map (fun kv => encode_string kv.1 +:+ ":" +:+ dumps kv.2) kvs)
        +:+ "}"
  end.

(** ** Structure of JSON values *)

(** The induction principle with hypotheses on the elements of arrays and
    the values of objects (the generated one has none). *)
Section JsonInd.
Variable P : json -> Prop.
Hypothesis HNull : P JNull.
Hypothesis HBool : forall b, P (JBool b).
Hypothesis HNum : forall r, P (JNum r).
Hypothesis HStr : forall s, P (JStr s).
Hypothesis HArr : forall l, Forall P l -> P (JArr l).
Hypothesis HObj : forall kvs, Forall (fun kv => P kv.2) kvs -> P (JObj kvs).

Fixpoint json_nested_ind (j : json) : P j :=
  match j with
  | JNull => HNull
  | JBool b => HBool b
  | JNum r => HNum r
  | JStr s => HStr s
  | JArr l =>
      HArr l ((fix go (l : list json) : Forall P l :=
                 match l with
                 | [] => Forall_nil_2 _
                 | x :: l' => Forall_cons_2 _ _ _ (json_nested_ind x) (go l')
                 end) l)
  | JObj kvs =>
      HObj kvs ((fix go (kvs : list (string * json)) : Forall (fun kv => P kv.2) kvs :=
                   match kvs with
                   | [] => Forall_nil_2 _
                   | kv :: kvs' => Forall_cons_2 _ _ _ (json_nested_ind kv.2) (go kvs')
                   end) kvs)
  end.
End JsonInd.

(** The number of nodes, each array element and object member counted
    once more: the depth of recursion a reader needs. *)
Fixpoint json_size (j : json) : nat :=
  match j with
  | JArr l => S (list_sum (map (fun x => S (json_size x)) l))
  | JObj kvs => S (list_sum (map (fun kv => S (json_size kv.2)) kvs))
  | _ => 1%nat
  end.

(** Every number is a finite value printed in fixed notation: no
    [Infinity], no [NaN] and nothing from [10^16] on. *)
Fixpoint json_finite (j : json) : bool :=
  match j with
  | JNum (RDec _ k) => (0 <=? k)%Z && (k <? 10 ^ 20)%Z
  | JNum _ => false
  | JArr l => forallb json_finite l
  | JObj kvs => forallb (fun kv => json_finite kv.2) kvs
  | _ => true
  end.

(** ** Lemmas *)

Lemma json_finite_arr l : json_finite (JArr l) = forallb json_finite l.
Proof. reflexivity. Qed.

Lemma json_finite_obj kvs : json_finite (JObj kvs) = forallb (fun kv => json_finite kv.2) kvs.
Proof. reflexivity. Qed.

(** [rstrip0] removes a run of zeros and nothing else. *)
Lemma rstrip0_spec s : exists z, s = rstrip0 s +:+ zpad z 0.
Proof.
  induction s as [|c s [z Hz]]; [by exists 0%nat|]. cbn [rstrip0].
  destruct (rstrip0 s) as [|c' r] eqn:Hr.
  - rewrite string_app_nil_l in Hz. subst s. case_decide as Hc.
    + subst c. exists (S z). by rewrite zpad0_cons.
    + exists z. reflexivity.
  - exists z. rewrite string_app_cons, <- Hz. reflexivity.
Qed.

(** The fractional digits of [repr_fixed] for a non-zero remainder: one to
    four digits whose value, scaled back to four places, is the
    remainder. *)
Lemma rstrip0_zpad_value m :
  (0 < m < SCALE)%Z ->
  let f := rstrip0 (zpad 4 m) in
  (1 <= String.length f <= 4)%nat /\
  exists fv, digits_value 0 f = Some fv /\ (fv * 10 ^ Z.of_nat (4 - String.length f) = m)%Z.
Proof.
  intros Hm f. unfold SCALE, NDIGITS in Hm. destruct (rstrip0_spec (zpad 4 m)) as [z Hz].
  pose proof (zpad_value 4 m 0) as Hv. rewrite Hz, digits_value_app in Hv.
  pose proof (zpad_length 4 m) as Hl. rewrite Hz, string_length_app, zpad_length in Hl.
  fold f in Hv, Hl. rewrite Z.mod_small in Hv by (simpl; lia).
  destruct (digits_value 0 f) as [fv|] eqn:Hf; [|done].
  rewrite zpad_value, Z.mod_0_l in Hv by (apply Z.pow_nonzero; lia). injection Hv as Hv.
  replace (4 - String.length f)%nat with z by lia.
  destruct f as [|c r]; cbn [String.length] in *.
  - cbn [digits_value] in Hf. injection Hf as <-. lia.
  - split; [lia|]. exists fv. split; [done|]. lia.
Qed.

(** [repr_fixed] starts with the first digit of the integer part. *)
Lemma repr_fixed_head k :
  (0 <= k)%Z -> exists d rest, repr_fixed k = String (digit_char d) rest /\ (0 <= d < 10)%Z.
Proof.
  intros Hk. unfold repr_fixed.
  destruct (dec_string_head (k / SCALE)) as (d & r & -> & Hd & _);
    [apply Z.div_pos; unfold SCALE, NDIGITS; lia|].
  rewrite string_app_cons. eauto.
Qed.

End Json.
