(* ===== verification/JsonRead.v ===== *)
(** Reading back the text [json.dump] writes (line 84).

    [data.json] is read by the page the repository publishes, with a JSON
    parser.  This file holds a reader written from the JSON grammar
    (RFC 8259) and the theorems that connect it to the writer of [Json]:
    every string [encode_string] writes reads back as the same string, every
    number [float_repr] writes in fixed notation reads back as the same
    value, and every document whose numbers are finite reads back as itself.
    The tokens [Infinity], [-Infinity] and [NaN], which [json.dump] writes
    for non-finite floats, are not JSON, and the reader rejects them.

    The reader is the grammar, not code of the repository.  It has no
    whitespace rule (the compact separators write none), reads [\uXXXX]
    escapes only below 256 (the strings of the model are 8-bit), and
    reads numbers with at most four fractional digits and no exponent (the
    numbers of the writer below [10^16]).  Its recursion is bounded by a
    fuel that [decode] takes from the length of the text. *)

From S2P Require Import Prelude Rounding Json.

Open Scope string_scope.

Module JsonRead.
Import Rounding Json.

(** ** Strings *)

Definition hex_val (c : ascii) : option nat :=
  let n := nat_of_ascii c in
  if (48 <=? n)%nat && (n <=? 57)%nat then Some (n - 48)%nat
  else if (97 <=? n)%nat && (n <=? 102)%nat then Some (n - 87)%nat
  else if (65 <=? n)%nat && (n <=? 70)%nat then Some (n - 55)%nat
  else None.

(** The character of [\uXXXX], when its code fits in a byte. *)
Definition u_value (h1 h2 h3 h4 : ascii) : option ascii :=
  match hex_val h1, hex_val h2, hex_val h3, hex_val h4 with
  | Some a, Some b, Some c, Some d =>
      let n := (((a * 16 + b) * 16 + c) * 16 + d)%nat in
      if (n <? 256)%nat then Some (ascii_of_nat n) else None
  | _, _, _, _ => None
  end.

(** The two-character escapes: backslash followed by a quote, a
    backslash, a slash, or one of [b f n r t]. *)
Definition short_escape (e : ascii) : option ascii :=
  let n := nat_of_ascii e in
  if (n =? 34)%nat || (n =? 92)%nat || (n =? 47)%nat then Some e
  else if (n =? 98)%nat then Some (chr 8)
  else if (n =? 102)%nat then Some (chr 12)
  else if (n =? 110)%nat then Some (chr 10)
  else if (n =? 114)%nat then Some (chr 13)
  else if (n =? 116)%nat then Some (chr 9)
  else None.

Definition prepend (c : ascii) (o : option (string * string)) : option (string * string) :=
  match o with
  | Some (a, r) => Some (String c a, r)
  | None => None
  end.

(** The characters of a string after its opening quote, up to and without
    the closing quote; the rest of the text after it.  A control character
    or a byte above [0x7f] is refused. *)
Fixpoint read_chars (s : string) : option (string * string) :=
  match s with
  | EmptyString => None
  | String c s' =>
      let n := nat_of_ascii c in
      if (n =? 34)%nat then Some (EmptyString, s')
      else if (n =? 92)%nat then
        match s' with
        | String e r =>
            if (nat_of_ascii e =? 117)%nat then
              match r with
              | String h1 (String h2 (String h3 (String h4 r'))) =>
                  match u_value h1 h2 h3 h4 with
                  | Some c' => prepend c' (read_chars r')
                  | None => None
                  end
              | _ => None
              end
            else
              match short_escape e with
              | Some c' => prepend c' (read_chars r)
              | None => None
              end
        | EmptyString => None
        end
      else if (32 <=? n)%nat && (n <=? 127)%nat then prepend c (read_chars s')
      else None
  end.

Definition read_string (s : string) : option (string * string) :=
  match s with
  | String c s' => if (nat_of_ascii c =? 34)%nat then read_chars s' else None
  | EmptyString => None
  end.

(** ** Numbers *)

Definition is_digit (c : ascii) : bool :=
  match digit_val c with Some _ => true | None => false end.

(** The longest prefix of digits and the rest. *)
Fixpoint read_digits (s : string) : string * string :=
  match s with
  | String c s' =>
      if is_digit c then let '(d, r) := read_digits s' in (String c d, r)
      else (EmptyString, s)
  | EmptyString => (EmptyString, EmptyString)
  end.

(** JSON forbids a leading zero before other integer digits. *)
Definition leading_zero (i : string) : bool :=
  match i with
  | String c (String _ _) => (nat_of_ascii c =? 48)%nat
  | _ => false
  end.

(** Integer digits, then an optional point and one to four digits; the
    sign [neg] has been read. *)
Definition read_unsigned (neg : bool) (s1 : string) : option (rounded * string) :=
  let '(i, s2) := read_digits s1 in
  match digits_value 0 i with
  | None => None
  | Some iv =>
      if (String.length i =? 0)%nat || leading_zero i then None
      else
        match s2 with
        | String c s3 =>
            if (nat_of_ascii c =? 46)%nat then
              let '(f, s4) := read_digits s3 in
              match digits_value 0 f with
              | Some fv =>
                  if (1 <=? String.length f)%nat && (String.length f <=? 4)%nat then
                    Some (RDec neg (iv * SCALE + fv * 10 ^ Z.of_nat (4 - String.length f))%Z, s4)
                  else None
              | None => None
              end
            else Some (RDec neg (iv * SCALE)%Z, s2)
        | EmptyString => Some (RDec neg (iv * SCALE)%Z, EmptyString)
        end
  end.

(** A number: an optional minus sign and the unsigned part. *)
Definition read_number (s : string) : option (rounded * string) :=
  match s with
  | String c s' => if (nat_of_ascii c =? 45)%nat then read_unsigned true s' else read_unsigned false s
  | EmptyString => None
  end.

(** The text does not go on with a digit (a number ends there). *)
Definition starts_digit (s : string) : bool :=
  match s with String c _ => is_digit c | EmptyString => false end.

(** ** Values *)

(** [p] at the head of [s]: the rest. *)
Fixpoint strip_prefix (p s : string) : option string :=
  match p, s with
  | EmptyString, _ => Some s
  | String a p', String b s' => if decide (a = b) then strip_prefix p' s' else None
  | String _ _, EmptyString => None
  end.

Definition with_rest {A B} (f : A -> B) (o : option (A * string)) : option (B * string) :=
  match o with
  | Some (a, r) => Some (f a, r)
  | None => None
  end.

(** A value, the elements of an array after its ['['] and the members of
    an object after its ['{'], each with the rest of the text.  Each call
    spends one unit of [fuel]. *)
Fixpoint read_value (fuel : nat) (s : string) {struct fuel} : option (json * string) :=
  match fuel with
  | O => None
  | S fuel' =>
      match s with
      | EmptyString => None
      | String c s' =>
          let n := nat_of_ascii c in
          if (n =? 45)%nat || is_digit c then with_rest JNum (read_number s)
          else if (n =? 110)%nat then option_map (pair JNull) (strip_prefix "ull" s')
          else if (n =? 116)%nat then option_map (pair (JBool true)) (strip_prefix "rue" s')
          else if (n =? 102)%nat then option_map (pair (JBool false)) (strip_prefix "alse" s')
          else if (n =? 34)%nat then with_rest JStr (read_chars s')
          else if (n =? 91)%nat then
            match s' with
            | String d r => if (nat_of_ascii d =? 93)%nat then Some (JArr [], r)
                            else with_rest JArr (read_elems fuel' s')
            | EmptyString => None
            end
          else if (n =? 123)%nat then
            match s' with
            | String d r => if (nat_of_ascii d =? 125)%nat then Some (JObj [], r)
                            else with_rest JObj (read_members fuel' s')
            | EmptyString => None
            end
          else None
      end
  end
with read_elems (fuel : nat) (s : string) {struct fuel} : option (list json * string) :=
  match fuel with
  | O => None
  | S fuel' =>
      match read_value fuel' s with
      | Some (v, String d r) =>
          if (nat_of_ascii d =? 44)%nat then with_rest (cons v) (read_elems fuel' r)
          else if (nat_of_ascii d =? 93)%nat then Some ([v], r)
          else None
      | _ => None
      end
  end
with read_members (fuel : nat) (s : string) {struct fuel}
    : option (list (string * json) * string) :=
  match fuel with
  | O => None
  | S fuel' =>
      match read_string s with
      | Some (k, String d r) =>
          if (nat_of_ascii d =? 58)%nat then
            match read_value fuel' r with
            | Some (v, String e r') =>
                if (nat_of_ascii e =? 44)%nat then with_rest (cons (k, v)) (read_members fuel' r')
                else if (nat_of_ascii e =? 125)%nat then Some ([(k, v)], r')
                else None
            | _ => None
            end
          else None
      | _ => None
      end
  end.

(** [json.loads]: one value and nothing after it, with as much fuel as
    the text has characters. *)
Definition decode (s : string) : option json :=
  match read_value (String.length s) s with
  | Some (j, EmptyString) => Some j
  | _ => None
  end.

(** ** Strings read back *)

(** One escaped character reads back as itself, whatever follows.  The
    proof evaluates the escape of each of the 256 characters. *)
Lemma read_chars_escape_char c t :
  read_chars (escape_char c +:+ t) = prepend c (read_chars t).
Proof. destruct c as [[] [] [] [] [] [] [] []]; cbn; reflexivity. Qed.

Lemma read_chars_escape_string s t :
  read_chars (escape_string s +:+ String dquote t) = Some (s, t).
Proof.
  induction s as [|c s IH]; [reflexivity|]. cbn [escape_string].
  by rewrite string_app_assoc, read_chars_escape_char, IH.
Qed.

(** The statement of [read_string_encode], for the proofs that use it. *)
Lemma read_string_encode_aux s t : read_string (encode_string s +:+ t) = Some (s, t).
Proof.
  unfold encode_string. rewrite string_app_cons, string_app_assoc. cbn [read_string].
  exact (read_chars_escape_string s t).
Qed.

(** C19 (roundtrip): a string written by [encode_string] reads back as
    itself, whatever text follows it. *)
Theorem read_string_encode s t : read_string (encode_string s +:+ t) = Some (s, t).
Proof. exact (read_string_encode_aux s t). Qed.

(** ** Numbers read back *)

Lemma digit_val_code c d :
  digit_val c = Some d -> Z.of_nat (nat_of_ascii c) = (48 + d)%Z /\ (0 <= d <= 9)%Z.
Proof.
  unfold digit_val. destruct (_ && _) eqn:Hc; [|done]. intros [= <-].
  apply andb_true_iff in Hc as [H1 H2]. apply Nat.leb_le in H1, H2. lia.
Qed.

Lemma is_digit_char d : (0 <= d < 10)%Z -> is_digit (digit_char d) = true.
Proof. intros Hd. unfold is_digit. by rewrite digit_val_char. Qed.

Lemma read_digits_app acc s v t :
  digits_value acc s = Some v -> starts_digit t = false -> read_digits (s +:+ t) = (s, t).
Proof.
  revert acc. induction s as [|c s IH]; intros acc Hs Ht.
  - rewrite string_app_nil_l. destruct t as [|c t]; [done|].
    cbn [starts_digit read_digits] in Ht |- *. by rewrite Ht.
  - rewrite string_app_cons. cbn [digits_value] in Hs. cbn [read_digits].
    destruct (digit_val c) eqn:Hc; [|done]. unfold is_digit. rewrite Hc.
    by rewrite (IH _ Hs Ht).
Qed.

(** [str(n)] passes the leading-zero rule. *)
Lemma leading_zero_dec_string n : (0 <= n)%Z -> leading_zero (dec_string n) = false.
Proof.
  intros Hn. destruct (dec_string_head n Hn) as (d & r & -> & Hd & H0).
  destruct r as [|c r]; [done|]. cbn [leading_zero].
  apply Nat.eqb_neq. intros Hc.
  destruct (digit_val_code (digit_char d) d) as [Hcode _]; [by apply digit_val_char|].
  assert (d = 0)%Z by lia. by destruct (H0 H) as [_ ?].
Qed.

(** The fractional digits [repr_fixed] writes: one to four digits whose
    value, scaled to four places, is the remainder. *)
Lemma repr_fixed_fraction k :
  (0 <= k)%Z ->
  exists fv, digits_value 0 (if (k mod SCALE =? 0)%Z then "0" else rstrip0 (zpad 4 (k mod SCALE)))
               = Some fv /\
    (1 <= String.length (if (k mod SCALE =? 0)%Z then "0" else rstrip0 (zpad 4 (k mod SCALE))) <= 4)%nat /\
    (k mod SCALE = fv * 10 ^ Z.of_nat (4 - String.length
       (if (k mod SCALE =? 0)%Z then "0" else rstrip0 (zpad 4 (k mod SCALE)))))%Z.
Proof.
  intros Hk. pose proof (Z.mod_pos_bound k SCALE ltac:(unfold SCALE, NDIGITS; lia)).
  destruct (Z.eqb_spec (k mod SCALE) 0) as [H0|H0].
  - exists 0%Z. rewrite H0. cbn. split; [reflexivity|split; lia].
  - destruct (rstrip0_zpad_value (k mod SCALE)) as [Hl (fv & Hf & Hfv)]; [lia|].
    exists fv. auto.
Qed.

Lemma read_unsigned_repr_fixed neg k rest :
  (0 <= k)%Z -> starts_digit rest = false ->
  read_unsigned neg (repr_fixed k +:+ rest) = Some (RDec neg k, rest).
Proof.
  intros Hk Hr. unfold repr_fixed.
  pose proof (Z.div_mod k SCALE ltac:(unfold SCALE, NDIGITS; lia)) as Hdm.
  assert (Hq0 : (0 <= k / SCALE)%Z) by (apply Z.div_pos; unfold SCALE, NDIGITS; lia).
  pose proof (dec_string_value _ Hq0) as Hq. pose proof (dec_string_length (k / SCALE)) as Hlen.
  pose proof (leading_zero_dec_string _ Hq0) as Hlz.
  destruct (repr_fixed_fraction k Hk) as (fv & Hf & Hl & Hfv).
  revert Hf Hl Hfv. generalize (if (k mod SCALE =? 0)%Z then "0" else rstrip0 (zpad 4 (k mod SCALE))).
  intros f Hf Hl Hfv.
  rewrite !string_app_assoc, string_app_cons, string_app_nil_l.
  unfold read_unsigned. rewrite (read_digits_app 0 _ _ _ Hq) by reflexivity.
  revert Hq Hlen Hlz. generalize (dec_string (k / SCALE)). intros i Hq Hlen Hlz.
  rewrite Hq, Hlz. replace (String.length i =? 0)%nat with false by (symmetry; apply Nat.eqb_neq; lia).
  cbn [orb]. cbv beta iota. replace (nat_of_ascii "." =? 46)%nat with true by reflexivity.
  rewrite (read_digits_app 0 _ _ _ Hf Hr), Hf. cbv beta iota.
  replace ((1 <=? String.length f)%nat && (String.length f <=? 4)%nat) with true
    by (symmetry; apply andb_true_iff; split; apply Nat.leb_le; lia).
  do 3 f_equal. lia.
Qed.

(** A digit is none of the characters that open the other values. *)
Lemma is_digit_code c : is_digit c = true -> (48 <= nat_of_ascii c <= 57)%nat.
Proof.
  unfold is_digit. destruct (digit_val c) eqn:Hc; [|done].
  apply digit_val_code in Hc. lia.
Qed.

(** The statement of [float_repr_roundtrip], for the proofs that use it. *)
Lemma float_repr_roundtrip_aux neg k rest :
  (0 <= k < 10 ^ 20)%Z -> starts_digit rest = false ->
  read_number (float_repr (RDec neg k) +:+ rest) = Some (RDec neg k, rest).
Proof.
  intros Hk Hr. unfold float_repr. rewrite (proj2 (Z.ltb_lt _ _)) by lia.
  rewrite string_app_assoc. destruct neg.
  - rewrite string_app_cons, string_app_nil_l. unfold read_number. cbv beta iota.
    replace (nat_of_ascii "-" =? 45)%nat with true by reflexivity.
    apply read_unsigned_repr_fixed; [lia|done].
  - rewrite string_app_nil_l. destruct (repr_fixed_head k) as (d & r & Hrf & Hd); [lia|].
    rewrite Hrf, string_app_cons. unfold read_number. cbv beta iota.
    pose proof (is_digit_code _ (is_digit_char d Hd)).
    replace (nat_of_ascii (digit_char d) =? 45)%nat with false by (symmetry; apply Nat.eqb_neq; lia).
    rewrite <- string_app_cons, <- Hrf. apply read_unsigned_repr_fixed; [lia|done].
Qed.

(** C20 (roundtrip): the number [json.dump] writes for a rounded price
    below [10^16] (fixed notation) reads back as the same sign and the same
    multiple of [10^-4], whatever non-digit text follows it. *)
Theorem float_repr_roundtrip neg k rest :
  (0 <= k < 10 ^ 20)%Z -> starts_digit rest = false ->
  read_number (float_repr (RDec neg k) +:+ rest) = Some (RDec neg k, rest).
Proof. exact (float_repr_roundtrip_aux neg k rest). Qed.

(** ** Values read back *)

(** The unfolding equations of the reader on the texts the writer
    produces. *)
Lemma read_value_num fuel c s :
  ((nat_of_ascii c =? 45)%nat || is_digit c) = true ->
  read_value (S fuel) (String c s) = with_rest JNum (read_number (String c s)).
Proof. intros H. simpl. by rewrite H. Qed.

Lemma read_value_str fuel s : read_value (S fuel) (String dquote s) = with_rest JStr (read_chars s).
Proof. reflexivity. Qed.

Lemma read_value_arr fuel d s :
  nat_of_ascii d <> 93%nat ->
  read_value (S fuel) (String "[" (String d s)) = with_rest JArr (read_elems fuel (String d s)).
Proof. intros H. simpl. by rewrite (proj2 (Nat.eqb_neq _ _) H). Qed.

Lemma read_value_obj fuel d s :
  nat_of_ascii d <> 125%nat ->
  read_value (S fuel) (String "{" (String d s)) = with_rest JObj (read_members fuel (String d s)).
Proof. intros H. simpl. by rewrite (proj2 (Nat.eqb_neq _ _) H). Qed.

Lemma read_elems_comma fuel s v r :
  read_value fuel s = Some (v, String "," r) ->
  read_elems (S fuel) s = with_rest (cons v) (read_elems fuel r).
Proof. intros H. simpl. by rewrite H. Qed.

Lemma read_elems_last fuel s v r :
  read_value fuel s = Some (v, String "]" r) -> read_elems (S fuel) s = Some ([v], r).
Proof. intros H. simpl. by rewrite H. Qed.

Lemma read_members_comma fuel s k r v r' :
  read_string s = Some (k, String ":" r) -> read_value fuel r = Some (v, String "," r') ->
  read_members (S fuel) s = with_rest (cons (k, v)) (read_members fuel r').
Proof. intros H1 H2. simpl. by rewrite H1, H2. Qed.

Lemma read_members_last fuel s k r v r' :
  read_string s = Some (k, String ":" r) -> read_value fuel r = Some (v, String "}" r') ->
  read_members (S fuel) s = Some ([(k, v)], r').
Proof. intros H1 H2. simpl. by rewrite H1, H2. Qed.

(** The first character of a number the writer prints in fixed
    notation: a minus sign or a digit. *)
Lemma float_repr_head neg k :
  (0 <= k < 10 ^ 20)%Z ->
  exists c r, float_repr (RDec neg k) = String c r /\
    ((nat_of_ascii c =? 45)%nat || is_digit c) = true.
Proof.
  intros Hk. unfold float_repr. rewrite (proj2 (Z.ltb_lt _ _)) by lia. destruct neg.
  - rewrite string_app_cons, string_app_nil_l. by eexists _, _.
  - rewrite string_app_nil_l. destruct (repr_fixed_head k) as (d & r & -> & Hd); [lia|].
    eexists _, _. split; [reflexivity|]. by rewrite is_digit_char, orb_true_r.
Qed.

(** No value the writer prints starts with a closing bracket. *)
Lemma dumps_head j :
  json_finite j = true -> exists c r, dumps j = String c r /\ nat_of_ascii c <> 93%nat.
Proof.
  destruct j as [| [] | [neg k| |] | s | l | kvs]; cbn [json_finite dumps]; intros Hf;
    try discriminate; try by eexists _, _.
  apply andb_true_iff in Hf as [H1 H2]. apply Z.leb_le in H1. apply Z.ltb_lt in H2.
  destruct (float_repr_head neg k) as (c & r & -> & Hc); [lia|].
  exists c, r. split; [done|]. apply orb_true_iff in Hc as [Hc|Hc].
  - apply Nat.eqb_eq in Hc. lia.
  - apply is_digit_code in Hc. lia.
Qed.

Lemma concat_head sep y ys t c r :
  y = String c r -> exists r', String.concat sep (y :: ys) +:+ t = String c r'.
Proof.
  intros ->. destruct ys; cbn [String.concat]; [|rewrite string_app_cons];
    rewrite string_app_cons; by eexists.
Qed.

(** The writer's text of [j], followed by a text that does not go on with
    a digit, reads back as [j] with that text left over, given enough
    fuel. *)
Definition reads_back (j : json) : Prop :=
  forall fuel rest, (json_size j <= fuel)%nat -> starts_digit rest = false ->
    read_value fuel (dumps j +:+ rest) = Some (j, rest).

Lemma read_elems_dumps l :
  Forall (fun x => json_finite x = true -> reads_back x) l -> forallb json_finite l = true ->
  forall fuel rest, l <> [] -> (list_sum (map (fun x => S (json_size x)) l) <= fuel)%nat ->
  read_elems fuel (String.concat "," (map dumps l) +:+ String "]" rest) = Some (l, rest).
Proof.
  induction l as [|x l IH]; intros HF Hfin fuel rest Hne Hfuel; [done|].
  apply Forall_cons in HF as [Hx HF]. apply andb_true_iff in Hfin as [Hfx Hfin].
  rewrite map_cons, list_sum_cons in Hfuel. destruct fuel as [|fuel]; [lia|].
  destruct l as [|y l].
  - cbn [map String.concat]. apply (read_elems_last _ _ x). apply Hx; [done|lia|reflexivity].
  - cbn [map String.concat]. rewrite !string_app_assoc, string_app_cons, string_app_nil_l.
    erewrite read_elems_comma; [|apply Hx; [done|lia|reflexivity]].
    cbn [map] in IH. rewrite map_cons in Hfuel. rewrite IH; [done|done|done|done|lia].
Qed.

Lemma read_members_dumps kvs :
  Forall (fun kv => json_finite kv.2 = true -> reads_back kv.2) kvs ->
  forallb (fun kv => json_finite kv.2) kvs = true ->
  forall fuel rest, kvs <> [] -> (list_sum (map (fun kv => S (json_size kv.2)) kvs) <= fuel)%nat ->
  read_members fuel
    (String.concat "," (map (fun kv => encode_string kv.1 +:+ ":" +:+ dumps kv.2) kvs)
       +:+ String "}" rest) = Some (kvs, rest).
Proof.
  induction kvs as [|[k v] kvs IH]; intros HF Hfin fuel rest Hne Hfuel; [done|].
  apply Forall_cons in HF as [Hv HF]. apply andb_true_iff in Hfin as [Hfv Hfin].
  rewrite map_cons, list_sum_cons in Hfuel. cbn [fst snd] in Hfuel, Hv, Hfv |- *.
  destruct fuel as [|fuel]; [lia|].
  destruct kvs as [|kv' kvs].
  - cbn [map String.concat fst snd]. rewrite !string_app_assoc, (string_app_cons ":"), string_app_nil_l.
    eapply read_members_last; [apply read_string_encode_aux|apply Hv; [done|lia|reflexivity]].
  - rewrite map_cons, concat_cons_ne by done. cbn [fst snd].
    rewrite !string_app_assoc, (string_app_cons ":"), string_app_nil_l.
    rewrite (string_app_cons ","), string_app_nil_l.
    erewrite read_members_comma; [|apply read_string_encode_aux|apply Hv; [done|lia|reflexivity]].
    rewrite IH; [done|done|done|done|lia].
Qed.

(** The text [json.dump] writes for a value whose numbers are finite and
    below [10^16] reads back as that value, whatever non-digit text follows
    it, as soon as the fuel covers the size of the value. *)
Theorem read_value_dumps j : json_finite j = true -> reads_back j.
Proof.
  induction j as [| b | r | s | l IH | kvs IH] using json_nested_ind;
    intros Hf fuel rest Hfuel Hr; destruct fuel as [|fuel]; cbn [json_size] in Hfuel; try lia.
  - reflexivity.
  - by destruct b.
  - destruct r as [neg k| |]; try discriminate. cbn [json_finite] in Hf.
    apply andb_true_iff in Hf as [H1 H2]. apply Z.leb_le in H1. apply Z.ltb_lt in H2.
    destruct (float_repr_head neg k) as (c & r & Hrep & Hc); [lia|].
    cbn [dumps]. rewrite Hrep, string_app_cons, read_value_num by done.
    rewrite <- string_app_cons, <- Hrep, float_repr_roundtrip_aux by (done || lia). reflexivity.
  - cbn [dumps]. unfold encode_string.
    rewrite string_app_cons, string_app_assoc, (string_app_cons dquote), string_app_nil_l.
    by rewrite read_value_str, read_chars_escape_string.
  - destruct l as [|x l]; [reflexivity|]. cbn [json_finite] in Hf.
    destruct (dumps_head x) as (c & r & Hx & Hc); [by apply andb_true_iff in Hf as [? _]|].
    cbn [dumps]. rewrite !string_app_assoc, string_app_cons, string_app_nil_l.
    rewrite (string_app_cons "]"), string_app_nil_l.
    destruct (concat_head "," (dumps x) (map dumps l) (String "]" rest) c r Hx) as [r' Hr'].
    change (dumps x :: map dumps l) with (map dumps (x :: l)) in Hr'.
    rewrite Hr', read_value_arr by done. rewrite <- Hr', read_elems_dumps; done || lia.
  - destruct kvs as [|[k v] kvs]; [reflexivity|]. cbn [json_finite] in Hf.
    cbn [dumps]. rewrite !string_app_assoc, string_app_cons, string_app_nil_l.
    rewrite (string_app_cons "}"), string_app_nil_l.
    destruct (concat_head "," (encode_string k +:+ ":" +:+ dumps v)
                (map (fun kv => encode_string kv.1 +:+ ":" +:+ dumps kv.2) kvs)
                (String "}" rest) dquote _ ltac:(unfold encode_string; apply string_app_cons))
      as [r' Hr'].
    change ((encode_string k +:+ ":" +:+ dumps v)
              :: map (fun kv => encode_string kv.1 +:+ ":" +:+ dumps kv.2) kvs)
      with (map (fun kv => encode_string kv.1 +:+ ":" +:+ dumps kv.2) ((k, v) :: kvs)) in Hr'.
    rewrite Hr', read_value_obj by done. rewrite <- Hr', read_members_dumps; done || lia.
Qed.

Lemma float_repr_length r : (1 <= String.length (float_repr r))%nat.
Proof.
  destruct r as [neg k|[]|]; cbn [float_repr]; try (cbn; lia).
  rewrite string_length_app. destruct (k <? 10 ^ 20)%Z.
  - unfold repr_fixed. rewrite string_length_app. pose proof (dec_string_length (k / SCALE)). lia.
  - unfold repr_sci. destruct (rstrip0 _); [cbn; lia|].
    rewrite string_app_cons. cbn [String.length]. lia.
Qed.

(** The fuel [decode] gives is enough: a value has no more nodes than its
    text has characters. *)
Lemma dumps_size j : (json_size j <= String.length (dumps j))%nat.
Proof.
  induction j as [| b | r | s | l IH | kvs IH] using json_nested_ind.
  - cbn. lia.
  - destruct b; cbn; lia.
  - cbn [json_size dumps]. apply float_repr_length.
  - cbn [json_size dumps]. unfold encode_string. cbn [String.length]. lia.
  - cbn [json_size dumps]. rewrite !string_length_app. cbn [String.length].
    pose proof (concat_length_bound "," (map dumps l)) as Hc. rewrite map_map in Hc.
    enough (list_sum (map (fun x => S (json_size x)) l)
              <= list_sum (map (fun x => S (String.length (dumps x))) l))%nat by lia.
    apply list_sum_map_le. eapply Forall_impl; [exact IH|]. cbv beta. lia.
  - cbn [json_size dumps]. rewrite !string_length_app. cbn [String.length].
    pose proof (concat_length_bound ","
      (map (fun kv => encode_string kv.1 +:+ ":" +:+ dumps kv.2) kvs)) as Hc.
    rewrite map_map in Hc.
    enough (list_sum (map (fun kv => S (json_size kv.2)) kvs)
      <= list_sum (map (fun kv => S (String.length (encode_string kv.1 +:+ ":" +:+ dumps kv.2))) kvs))%nat
      by lia.
    apply list_sum_map_le. eapply Forall_impl; [exact IH|]. intros kv Hkv.
    rewrite !string_length_app. cbv beta in Hkv. lia.
Qed.

(** The statement of [decode_dumps], for the proofs that use it. *)
Lemma decode_dumps_aux j : json_finite j = true -> decode (dumps j) = Some j.
Proof.
  intros Hf. unfold decode.
  pose proof (read_value_dumps j Hf (String.length (dumps j)) EmptyString (dumps_size j) eq_refl) as H.
  rewrite string_app_nil_r in H. by rewrite H.
Qed.

(** C10 (roundtrip): [data.json] parses back to the document: the text
    [json.dump] writes for a value whose numbers are finite and below
    [10^16] decodes, as a whole, to that value. *)
Theorem decode_dumps j : json_finite j = true -> decode (dumps j) = Some j.
Proof. exact (decode_dumps_aux j). Qed.

(** The tokens [json.dump] writes for infinite and NaN floats
    are not JSON values: the reader rejects them, whatever follows. *)
Theorem nonfinite_not_json b fuel rest :
  read_value fuel (float_repr (RInf b) +:+ rest) = None /\
  read_value fuel (float_repr RNaN +:+ rest) = None.
Proof. destruct fuel, b; split; reflexivity. Qed.

End JsonRead.
