(* ===== verification/Prices.v ===== *)
(** The price table of [fetch_data.py] (lines 59-71): the loop over the
    index and the symbols that fills [prices], and the sort that turns it
    into [sorted_prices].

    [prices] is a dict from date string to a dict from asset-class name to
    rounded price.  The loop first stores an empty inner dict for the date
    ([prices[date_str] = {}], which drops what an earlier timestamp with the
    same date string stored), then mutates that inner dict once per kept
    symbol.  The model keeps these steps in that order.  [row_loop] builds
    the inner dict directly, and [date_step_row] proves the two agree.

    Theorems: the loop invariant (the keys are distinct date strings of
    the index), the sort's output (strictly increasing, chronological, the
    index's dates), the content of every row, when the loop raises, and
    two behaviours the spec does not describe (the overwrite of a repeated
    date and infinite prices).  Section [Entries] carries a property of
    every (name, price) entry of the table from the frame's cells to the
    result of the loop. *)

From S2P Require Import Prelude Config Calendar Rounding Frame Json.

Open Scope string_scope.

Module Prices.
Import Config Calendar Rounding Frame Json.

Definition row := dict string rounded.
Definition prices_dict := dict string row.

(** Lines 65-67 for one symbol, in Python's evaluation order: the value,
    the test, then [round(float(price), 4)], then the targets
    [prices[date_str]] and [ETFS[symbol]]. *)
Definition symbol_step (etfs : dict string string) (cl : closes_frame) (date_idx : datetime)
    (date_str : string) (prices : prices_dict) (symbol : string) : result prices_dict :=
  price <- loc_cell cl symbol date_idx ;;
  skip <- is_missing price ;;
  if skip then Ok prices else
  x <- to_float price ;;
  r <- py_getitem id prices date_str ;;
  name <- py_getitem id etfs symbol ;;
  Ok (dict_set prices date_str (dict_set r name (py_round4 x))).

(** Lines 61-67 for one timestamp. *)
Definition date_step (etfs : dict string string) (symbols : list string) (cl : closes_frame)
    (prices : prices_dict) (date_idx : datetime) : result prices_dict :=
  let date_str := strftime_ymd date_idx in
  foldM (symbol_step etfs cl date_idx date_str) (dict_set prices date_str []) symbols.

(** Lines 60-67. *)
Definition build_prices (etfs : dict string string) (symbols : list string) (cl : closes_frame)
    : result prices_dict :=
  foldM (date_step etfs symbols cl) [] (cl_index cl).

(** Line 70, [sorted(prices.keys())]: CPython's sort is a stable merge
    sort (timsort); [sort_dates_unique] shows that any sort gives the same
    list here. *)
Definition sort_dates (keys : list string) : list string := merge_sort String.le keys.

(** One element of line 71, [{"date": d, **prices[d]}]. *)
Definition price_row (prices : prices_dict) (d : string) : result json :=
  r <- py_getitem id prices d ;;
  Ok (JObj (fold_left (fun acc kv => dict_set acc kv.1 (JNum kv.2)) r [("date", JStr d)])).

(** Line 71. *)
Definition sorted_prices (prices : prices_dict) : result (list json) :=
  mapM (price_row prices) (sort_dates (dict_keys prices)).

Lemma sorted_prices_total p :
  exists rows, sorted_prices p = Ok rows /\ length rows = length (dict_keys p).
Proof.
  assert (Hperm : sort_dates (dict_keys p) ≡ₚ dict_keys p) by apply merge_sort_Permutation.
  destruct (mapM_total (price_row p) (sort_dates (dict_keys p))) as [rows Hr].
  { intros d Hd. rewrite Hperm in Hd. unfold price_row, py_getitem.
    destruct (dict_get p d) eqn:E; [done|]. by apply dict_get_None in E. }
  exists rows. split; [done|]. rewrite (mapM_length _ _ _ Hr). by apply Permutation_length.
Qed.

(** ** The inner loop as a function on the row *)

(** What one symbol adds to the row being built. *)
Definition row_step (etfs : dict string string) (cl : closes_frame) (date_idx : datetime)
    (r : row) (symbol : string) : result row :=
  price <- loc_cell cl symbol date_idx ;;
  skip <- is_missing price ;;
  if skip then Ok r else
  x <- to_float price ;;
  name <- py_getitem id etfs symbol ;;
  Ok (dict_set r name (py_round4 x)).

Definition row_loop etfs cl date_idx symbols : result row :=
  foldM (row_step etfs cl date_idx) [] symbols.

(** Mutating the stored inner dict is storing the updated inner dict. *)
Lemma symbol_loop_row etfs cl t ds symbols prices r :
  dict_get prices ds = Some r ->
  foldM (symbol_step etfs cl t ds) prices symbols =
    (r' <- foldM (row_step etfs cl t) r symbols ;; Ok (dict_set prices ds r')).
Proof.
  revert prices r. induction symbols as [|s symbols IH]; intros prices r Hr; simpl.
  - by rewrite dict_set_id.
  - unfold symbol_step, row_step at 1.
    destruct (loc_cell cl s t) as [p|]; simpl; [|done].
    destruct (is_missing p) as [[]|]; simpl; [by apply IH|..|done].
    destruct (to_float p) as [x|]; simpl; [|done].
    unfold py_getitem at 1. rewrite Hr. simpl.
    destruct (py_getitem id etfs s) as [name|]; simpl; [|done].
    rewrite (IH _ (dict_set r name (py_round4 x))) by apply dict_get_set_eq.
    destruct (foldM _ _ symbols); simpl; [by rewrite dict_set_set_eq|done].
Qed.

(** One iteration of the outer loop stores, under the
    date string, the row built from an empty dict by the symbol loop, and
    raises exactly when that loop raises. *)
Lemma date_step_row etfs symbols cl prices t :
  date_step etfs symbols cl prices t =
    (r <- row_loop etfs cl t symbols ;; Ok (dict_set prices (strftime_ymd t) r)).
Proof.
  unfold date_step, row_loop. rewrite symbol_loop_row with (r := []) by apply dict_get_set_eq.
  destruct (foldM _ _ symbols); simpl; [by rewrite dict_set_set_eq|done].
Qed.

(** ** The keys of [prices] *)

Lemma date_loop_keys etfs symbols cl ts p0 p :
  foldM (date_step etfs symbols cl) p0 ts = Ok p ->
  (forall d, d ∈ dict_keys p <-> d ∈ dict_keys p0 \/ exists t, t ∈ ts /\ strftime_ymd t = d) /\
  (NoDup (dict_keys p0) -> NoDup (dict_keys p)).
Proof.
  revert p0. induction ts as [|t ts IH]; intros p0 Hrun; simpl in Hrun.
  - injection Hrun as <-. split; [|done]. intros d. split; [auto|].
    intros [?|(? & Hin & _)]; [done|by apply elem_of_nil in Hin].
  - rewrite date_step_row in Hrun.
    destruct (row_loop etfs cl t symbols) as [r|]; simpl in Hrun; [|done].
    apply IH in Hrun as [Hk Hnd]. split.
    + intros d. rewrite Hk, dict_keys_set_elem. set_solver.
    + intros H0. apply Hnd, dict_set_NoDup, H0.
Qed.

(** After the loop, the keys of [prices] are pairwise
    distinct and are exactly the date strings of the index. *)
Lemma build_prices_keys etfs symbols cl p :
  build_prices etfs symbols cl = Ok p ->
  NoDup (dict_keys p) /\
  (forall d, d ∈ dict_keys p <-> exists t, t ∈ cl_index cl /\ strftime_ymd t = d).
Proof.
  intros Hrun. apply date_loop_keys in Hrun as [Hk Hnd].
  split; [apply Hnd, NoDup_nil_2|]. intros d. rewrite Hk. set_solver.
Qed.

(** ** The sort of line 70 *)

Definition str_lt (a b : string) : Prop := String.compare a b = Lt.

Lemma string_le_neq_lt a b : String.le a b -> a <> b -> str_lt a b.
Proof.
  unfold String.le, String.leb, str_lt. intros Hle Hne.
  destruct (String.compare a b) eqn:E; [|done|done].
  by apply String.compare_eq_iff in E.
Qed.

Lemma StronglySorted_le_lt l : StronglySorted String.le l -> NoDup l -> StronglySorted str_lt l.
Proof.
  induction 1 as [|x l Hs IH Hx]; intros Hnd; constructor.
  - apply IH. by apply NoDup_cons in Hnd as [_ ?].
  - apply NoDup_cons in Hnd as [Hnin _]. rewrite Forall_forall in Hx |- *.
    intros y Hy. apply string_le_neq_lt; [by apply Hx|]. intros ->. by apply Hnin.
Qed.

(** The sort is determined: every list sorted by the
    string order that is a permutation of the keys is [sort_dates keys].
    So CPython's timsort and the merge sort of the model produce the same
    list. *)
Theorem sort_dates_unique keys l :
  Sorted String.le l -> l ≡ₚ keys -> l = sort_dates keys.
Proof.
  intros Hs Hp. unfold sort_dates.
  apply (Sorted_unique String.le); [done|apply Sorted_merge_sort; apply _|].
  by rewrite merge_sort_Permutation.
Qed.

(** The statement of [sorted_dates_strict], for the proofs that use it. *)
Lemma sorted_dates_strict_aux etfs symbols cl p :
  build_prices etfs symbols cl = Ok p ->
  StronglySorted str_lt (sort_dates (dict_keys p)) /\
  (forall d, d ∈ sort_dates (dict_keys p) <-> exists t, t ∈ cl_index cl /\ strftime_ymd t = d).
Proof.
  intros Hrun. apply build_prices_keys in Hrun as [Hnd Hk].
  assert (Hperm : sort_dates (dict_keys p) ≡ₚ dict_keys p) by apply merge_sort_Permutation.
  split.
  - apply StronglySorted_le_lt; [apply StronglySorted_merge_sort; apply _|].
    by rewrite Hperm.
  - intros d. rewrite Hperm. apply Hk.
Qed.

(** C2 (safety): the dates of the output are strictly increasing as
    strings, and they are exactly the dates of the index. *)
Theorem sorted_dates_strict etfs symbols cl p :
  build_prices etfs symbols cl = Ok p ->
  StronglySorted str_lt (sort_dates (dict_keys p)) /\
  (forall d, d ∈ sort_dates (dict_keys p) <-> exists t, t ∈ cl_index cl /\ strftime_ymd t = d).
Proof. exact (sorted_dates_strict_aux etfs symbols cl p). Qed.

(** C24: when every timestamp of the index is a valid datetime, the output
    rows are in strictly increasing chronological order of their days. *)
Theorem sorted_dates_chronological etfs symbols cl p i j t1 t2 :
  build_prices etfs symbols cl = Ok p ->
  Forall (fun t => valid_datetime t = true) (cl_index cl) ->
  (i < j)%nat ->
  sort_dates (dict_keys p) !! i = Some (strftime_ymd t1) ->
  sort_dates (dict_keys p) !! j = Some (strftime_ymd t2) ->
  t1 ∈ cl_index cl -> t2 ∈ cl_index cl ->
  compare_date t1 t2 = Lt.
Proof.
  intros Hrun Hv Hij H1 H2 Ht1 Ht2. apply sorted_dates_strict_aux in Hrun as [Hs _].
  rewrite Forall_forall in Hv.
  rewrite <- strftime_ymd_compare_aux by auto.
  exact (StronglySorted_lookup _ _ i j _ _ Hs Hij H1 H2).
Qed.
(** ** The content of a row *)

(** The symbol [s] contributes [name := v] to the row of [t]: [ETFS[s]] is
    [name] and the provider's value at [(s, t)] is a scalar float [x],
    not NaN, with [v = round(x, 4)]. *)
Definition kept (etfs : dict string string) (cl : closes_frame) (t : datetime)
    (s name : string) (v : rounded) : Prop :=
  dict_get etfs s = Some name /\
  exists x, loc_cell cl s t = Ok (LScalar (CFloat x)) /\ float_ne_self x = false /\
    v = py_round4 x.

Lemma kept_det etfs cl t s n1 v1 n2 v2 :
  kept etfs cl t s n1 v1 -> kept etfs cl t s n2 v2 -> n1 = n2 /\ v1 = v2.
Proof. intros [H1 (x1 & L1 & _ & ->)] [H2 (x2 & L2 & _ & ->)]. split; congruence. Qed.

Lemma row_step_cases etfs cl t r0 s r1 :
  row_step etfs cl t r0 s = Ok r1 ->
  (r1 = r0 /\ forall n v, ~ kept etfs cl t s n v) \/
  (exists n v, kept etfs cl t s n v /\ r1 = dict_set r0 n v).
Proof.
  unfold row_step, kept.
  destruct (loc_cell cl s t) as [p|] eqn:Hl; simpl; [|done].
  destruct (is_missing p) as [[]|] eqn:Hm; simpl; [..|done].
  - intros [= <-]. left. split; [done|]. intros n v [_ (x & Hx & Hn & _)].
    injection Hx as ->. simpl in Hm. congruence.
  - destruct p as [[|x]| |]; simpl; try done.
    unfold py_getitem. destruct (dict_get etfs s) as [n|] eqn:He; simpl; [|done].
    intros [= <-]. right. exists n, (py_round4 x). split; [|done].
    split; [done|]. exists x. simpl in Hm. by injection Hm as ->.
Qed.

Section RowContent.
Context (etfs : dict string string) (cl : closes_frame) (t : datetime).

(** Distinct symbols of the loop have distinct names. *)
Definition names_injective (symbols : list string) : Prop :=
  forall s1 s2 n, s1 ∈ symbols -> s2 ∈ symbols ->
    dict_get etfs s1 = Some n -> dict_get etfs s2 = Some n -> s1 = s2.

Lemma row_fold_content symbols r0 r :
  names_injective symbols ->
  foldM (row_step etfs cl t) r0 symbols = Ok r ->
  forall n v, dict_get r n = Some v <->
    (exists s, s ∈ symbols /\ kept etfs cl t s n v) \/
    (dict_get r0 n = Some v /\ forall s v', s ∈ symbols -> ~ kept etfs cl t s n v').
Proof.
  revert r0. induction symbols as [|s ss IH]; intros r0 Hinj Hrun n v; simpl in Hrun.
  { injection Hrun as <-. split; [intros; right; split; [done|set_solver]|].
    intros [(? & Hin & _)|[? _]]; [by apply elem_of_nil in Hin|done]. }
  destruct (row_step etfs cl t r0 s) as [r1|] eqn:Hs; simpl in Hrun; [|done].
  assert (Hinj' : names_injective ss) by (intros ?????; apply Hinj; set_solver).
  rewrite (IH r1 Hinj' Hrun n v).
  apply row_step_cases in Hs as [[-> Hnk]|(n0 & v0 & Hk0 & ->)].
  - split.
    + intros [(s' & ? & ?)|[? Hno]]; [left; exists s'; set_solver|right].
      split; [done|]. intros s' v' [->|]%elem_of_cons; [apply Hnk|by apply Hno].
    + intros [(s' & [->|]%elem_of_cons & Hk)|[? Hno]];
        [by apply Hnk in Hk|left; by exists s'|].
      right. split; [done|]. intros; apply Hno; set_solver.
  - destruct (decide (n = n0)) as [->|Hne].
    + rewrite dict_get_set_eq. split.
      * intros [(s' & ? & ?)|[[= <-] _]]; left; [exists s'; set_solver|exists s; set_solver].
      * intros [(s' & Hin & Hk)|[_ Hno]]; [|exfalso; eapply Hno; [left|exact Hk0]].
        assert (s' = s) as ->.
        { destruct Hk as [He _], Hk0 as [He0 _]. eapply Hinj; [done|left|done|done]. }
        destruct (kept_det _ _ _ _ _ _ _ _ Hk Hk0) as [_ ->].
        destruct (decide (s ∈ ss)) as [Hss|Hss]; [left; by exists s|right].
        split; [done|]. intros s' v' Hs' Hk'.
        assert (s' = s) as -> by (destruct Hk' as [He _], Hk0 as [He0 _];
          eapply Hinj; [set_solver|left|done|done]). done.
    + rewrite dict_get_set_ne by done. split.
      * intros [(s' & ? & ?)|[? Hno]]; [left; exists s'; set_solver|right].
        split; [done|]. intros s' v' [->|]%elem_of_cons Hk; [|by eapply Hno].
        by destruct (kept_det _ _ _ _ _ _ _ _ Hk Hk0).
      * intros [(s' & [->|]%elem_of_cons & Hk)|[? Hno]].
        -- by destruct (kept_det _ _ _ _ _ _ _ _ Hk Hk0).
        -- left. by exists s'.
        -- right. split; [done|]. intros; apply Hno; set_solver.
Qed.

(** The statement of [row_loop_content], for the proofs that use it. *)
Lemma row_loop_content_aux symbols r :
  names_injective symbols ->
  row_loop etfs cl t symbols = Ok r ->
  forall n v, dict_get r n = Some v <-> exists s, s ∈ symbols /\ kept etfs cl t s n v.
Proof.
  intros Hinj Hrun n v. rewrite (row_fold_content symbols [] r Hinj Hrun n v).
  split; [intros [?|[? _]]; done|auto].
Qed.

(** C1: the row built for a timestamp maps a name to [v] exactly when
    some symbol with that name has, at that timestamp, a scalar float
    value [x] that is not NaN, and [v = round(x, 4)].  A missing value
    (NaN, [None], an empty selection) leaves the name out of the row. *)
Theorem row_loop_content symbols r :
  names_injective symbols ->
  row_loop etfs cl t symbols = Ok r ->
  forall n v, dict_get r n = Some v <-> exists s, s ∈ symbols /\ kept etfs cl t s n v.
Proof. exact (row_loop_content_aux symbols r). Qed.
End RowContent.

Lemma date_loop_rows etfs symbols cl ts p0 p d r :
  foldM (date_step etfs symbols cl) p0 ts = Ok p -> dict_get p d = Some r ->
  (exists i t, ts !! i = Some t /\ strftime_ymd t = d /\ row_loop etfs cl t symbols = Ok r /\
     forall j t', (i < j)%nat -> ts !! j = Some t' -> strftime_ymd t' <> d) \/
  (dict_get p0 d = Some r /\ forall t, t ∈ ts -> strftime_ymd t <> d).
Proof.
  revert p0. induction ts as [|t ts IH]; intros p0 Hrun Hd; simpl in Hrun.
  - injection Hrun as <-. right. split; [done|]. intros t Ht. by apply elem_of_nil in Ht.
  - rewrite date_step_row in Hrun.
    destruct (row_loop etfs cl t symbols) as [r0|] eqn:Hr0; simpl in Hrun; [|done].
    destruct (IH _ Hrun Hd) as [(i & t' & Hi & Ht' & Hrow & Hlast)|[Hp1 Hno]].
    + left. exists (S i), t'. do 3 (split; [done|]).
      intros [|j] t'' Hij Hj; [lia|]. apply (Hlast j); [lia|done].
    + destruct (decide (strftime_ymd t = d)) as [<-|Hne].
      * rewrite dict_get_set_eq in Hp1. injection Hp1 as <-. left. exists 0%nat, t.
        do 3 (split; [done|]).
        intros [|j] t'' Hij Hj; [lia|]. apply Hno. simpl in Hj. by apply list_elem_of_lookup_2 in Hj.
      * rewrite dict_get_set_ne in Hp1 by done. right. split; [done|].
        intros t'' [->|]%elem_of_cons; [done|by apply Hno].
Qed.

(** C4: the row stored under a date string is the row of the last
    timestamp of the index with that date string, so a later timestamp of
    the same day replaces an earlier one.  Its content is given by
    [row_loop_content]. *)
Theorem build_prices_rows etfs symbols cl p d r :
  names_injective etfs symbols ->
  build_prices etfs symbols cl = Ok p -> dict_get p d = Some r ->
  exists i t, cl_index cl !! i = Some t /\ strftime_ymd t = d /\
    (forall j t', (i < j)%nat -> cl_index cl !! j = Some t' -> strftime_ymd t' <> d) /\
    forall n v, dict_get r n = Some v <-> exists s, s ∈ symbols /\ kept etfs cl t s n v.
Proof.
  intros Hinj Hrun Hd. unfold build_prices in Hrun.
  destruct (date_loop_rows _ _ _ _ _ _ _ _ Hrun Hd) as [(i & t & Hi & Ht & Hrow & Hlast)|[Hp0 _]];
    [|done].
  exists i, t. do 3 (split; [done|]). by apply (row_loop_content_aux etfs cl t symbols r).
Qed.

(** The nine shipped symbols have pairwise distinct names. *)
Lemma ETFS_names_injective : names_injective ETFS symbols.
Proof.
  intros s1 s2 n _ _ H1 H2. apply dict_get_Some_in, list_elem_of_In in H1, H2.
  unfold ETFS in H1, H2. simpl in H1, H2.
  destruct_or! H1; destruct_or! H2; simplify_eq; done.
Qed.

(** C29: an infinite provider value is not skipped: the test of line 66
    only catches NaN and [None], [round] keeps the infinity, and
    [json.dump] writes it as [Infinity] or [-Infinity], which are not JSON
    tokens. *)
Theorem infinite_price_written etfs cl t symbols r s name neg :
  names_injective etfs symbols -> row_loop etfs cl t symbols = Ok r -> s ∈ symbols ->
  dict_get etfs s = Some name -> loc_cell cl s t = Ok (LScalar (CFloat (Inf neg))) ->
  dict_get r name = Some (RInf neg) /\
  float_repr (RInf neg) = (if neg then "-Infinity" else "Infinity").
Proof.
  intros Hinj Hrun Hs Hn Hl. split; [|by destruct neg].
  apply (row_loop_content_aux etfs cl t symbols r Hinj Hrun). exists s. split; [done|].
  split; [done|]. exists (Inf neg). done.
Qed.

(** ** When the loop raises *)

Lemma row_step_total etfs cl t r s :
  unique_column cl s -> is_Some (dict_get etfs s) -> NoDup (cl_index cl) -> t ∈ cl_index cl ->
  is_ok (row_step etfs cl t r s) = true.
Proof.
  intros Hu [n Hn] Hnd Ht. destruct (loc_cell_scalar_aux cl s t Hu Hnd Ht) as (i & c & _ & Hl & _).
  unfold row_step. rewrite Hl. simpl.
  destruct c as [|x]; simpl; [done|]. destruct (float_ne_self x); simpl; [done|].
  unfold py_getitem. by rewrite Hn.
Qed.

(** C15 (safety): with a duplicate-free index, exactly one column per
    symbol and a name for every symbol, the loop of lines 61-67 raises
    nothing. *)
Theorem build_prices_total etfs symbols cl :
  NoDup (cl_index cl) ->
  (forall s, s ∈ symbols -> unique_column cl s /\ is_Some (dict_get etfs s)) ->
  exists p, build_prices etfs symbols cl = Ok p.
Proof.
  intros Hnd Hs. unfold build_prices. apply foldM_total. intros p t Ht.
  rewrite date_step_row. unfold row_loop.
  destruct (foldM_total (row_step etfs cl t) [] symbols) as [r ->]; [|done].
  intros r0 s Hin. destruct (Hs s Hin). by apply row_step_total.
Qed.

Lemma positions_elem {A} `{EqDecision A} (x : A) l : x ∈ l -> positions x l <> [].
Proof.
  induction l as [|y l IH]; intros Hx; [by apply elem_of_nil in Hx|]. simpl.
  destruct (decide (x = y)); [done|]. apply elem_of_cons in Hx as [|Hx]; [done|].
  destruct (positions x l); [by apply IH|done].
Qed.

(** Under the column and name hypotheses, every exception of a step is a
    [ValueError] from the test of line 66. *)
Lemma row_step_Err_value etfs cl t r s e :
  (1 <= length (filter (fun c => c.1 = s) (cl_columns cl)))%nat ->
  is_Some (dict_get etfs s) -> t ∈ cl_index cl ->
  row_step etfs cl t r s = Err e -> exists msg, e = ValueError msg.
Proof.
  intros Hc [n Hn] Ht. apply positions_elem in Ht.
  unfold row_step, loc_cell.
  destruct (positions t (cl_index cl)) as [|i [|j rows]]; [done|..];
    destruct (filter _ _) as [|col [|col2 cols]]; simpl in Hc; try lia; simpl;
    repeat match goal with
    | |- context [match ?c with CNone => _ | CFloat _ => _ end] => destruct c; simpl
    | |- context [if ?b then _ else _] => destruct b; simpl
    | |- context [match ?l with [] => _ | _ :: _ => _ end] => destruct l; simpl
    end;
    unfold py_getitem; rewrite ?Hn; simpl; intros [= <-]; eauto.
Qed.

(** C16 (error): if a timestamp occurs twice in the index (and every
    symbol has a column and a name), the loop raises [ValueError]: the
    job fails instead of writing a file. *)
Theorem build_prices_duplicate etfs symbols cl t :
  (forall s, s ∈ symbols ->
     (1 <= length (filter (fun c => c.1 = s) (cl_columns cl)))%nat /\ is_Some (dict_get etfs s)) ->
  symbols <> [] ->
  (2 <= length (positions t (cl_index cl)))%nat ->
  exists msg, build_prices etfs symbols cl = Err (ValueError msg).
Proof.
  intros Hs Hne Hdup.
  assert (Ht : t ∈ cl_index cl).
  { destruct (decide (t ∈ cl_index cl)) as [|Hn]; [done|].
    rewrite positions_nil in Hdup by done. simpl in Hdup. lia. }
  destruct symbols as [|s0 ss]; [done|].
  destruct (build_prices etfs (s0 :: ss) cl) as [p|e] eqn:Hb.
  - exfalso. unfold build_prices in Hb.
    assert (Hf : is_ok (foldM (date_step etfs (s0 :: ss) cl) [] (cl_index cl)) = false);
      [|by rewrite Hb in Hf].
    apply foldM_Err_at with (x := t); [done|]. intros p'.
    rewrite date_step_row. unfold row_loop. simpl.
    destruct (Hs s0 ltac:(left)) as [Hc _].
    destruct (loc_cell_duplicate_aux cl s0 t Hc Hdup) as (pr & msg & Hl & Hm).
    assert (Hstep : row_step etfs cl t [] s0 = Err (ValueError msg))
      by (unfold row_step; rewrite Hl; simpl; by rewrite Hm).
    by rewrite Hstep.
  - unfold build_prices in Hb. apply foldM_Err_inv in Hb as (p' & t' & Ht' & Hd).
    rewrite date_step_row in Hd. unfold row_loop in Hd.
    destruct (foldM (row_step etfs cl t') [] (s0 :: ss)) eqn:Hr; simpl in Hd; [done|].
    injection Hd as ->. apply foldM_Err_inv in Hr as (r & s & Hin & Hrs).
    destruct (Hs s Hin) as [Hc Hn].
    destruct (row_step_Err_value etfs cl t' r s e Hc Hn Ht' Hrs) as [msg ->]. by exists msg.
Qed.

(** The loop's exceptions are [KeyError]s and [ValueError]s. *)
Lemma row_step_not_IndexError etfs cl t r s : row_step etfs cl t r s <> Err IndexError.
Proof.
  unfold row_step, loc_cell, is_missing, to_float, py_getitem.
  repeat (case_match; simpl); congruence.
Qed.

Lemma build_prices_not_IndexError etfs symbols cl : build_prices etfs symbols cl <> Err IndexError.
Proof.
  intros Hb. apply foldM_Err_inv in Hb as (p & t & _ & Hd).
  rewrite date_step_row in Hd. unfold row_loop in Hd.
  destruct (foldM (row_step etfs cl t) [] symbols) eqn:Hr; simpl in Hd; [done|].
  injection Hd as ->. apply foldM_Err_inv in Hr as (r & s & _ & Hs).
  by apply row_step_not_IndexError in Hs.
Qed.

(** A non-empty index gives a non-empty list of sorted dates. *)
Lemma sort_dates_nonempty etfs symbols cl p :
  build_prices etfs symbols cl = Ok p -> cl_index cl <> [] ->
  exists d ds, sort_dates (dict_keys p) = d :: ds.
Proof.
  intros Hb Hne. apply sorted_dates_strict_aux in Hb as [_ Hk].
  destruct (cl_index cl) as [|t ts] eqn:Hi; [done|].
  destruct (sort_dates (dict_keys p)) as [|d ds] eqn:Hs; [|eauto].
  exfalso. apply (elem_of_nil (strftime_ymd t)). apply Hk. exists t. split; [left|done].
Qed.

(** ** What the table holds *)

(** A property [R] of every (name, value) entry of every row, given that
    it holds of each name of [etfs] with the rounding of each non-NaN
    scalar the frame returns. *)
Section Entries.
Variables (etfs : dict string string) (cl : closes_frame) (R : string -> rounded -> Prop).
Hypothesis HR : forall s t x name,
  dict_get etfs s = Some name -> loc_cell cl s t = Ok (LScalar (CFloat x)) ->
  float_ne_self x = false -> R name (py_round4 x).

Definition entries_ok (p : prices_dict) : Prop :=
  Forall (fun dr => Forall (fun nv => R nv.1 nv.2) dr.2) p.

Lemma symbol_step_entries t ds p s p' :
  entries_ok p -> symbol_step etfs cl t ds p s = Ok p' -> entries_ok p'.
Proof.
  unfold symbol_step, py_getitem. intros Hp H.
  destruct (loc_cell cl s t) as [pr|] eqn:Hl; [|done]; cbn [bind] in H.
  destruct (is_missing pr) as [[]|] eqn:Hm; cbn [bind] in H; [by injection H as <-| |done].
  destruct (to_float pr) as [x|] eqn:Hx; [|done]; cbn [bind] in H.
  destruct (dict_get p ds) as [r|] eqn:Hr; [|done]; cbn [bind id] in H.
  destruct (dict_get etfs s) as [name|] eqn:Hn; [|done]; cbn [bind] in H. injection H as <-.
  destruct pr as [[|x']| |]; cbn in Hx; try done. injection Hx as ->. cbn in Hm. injection Hm as Hm.
  apply (dict_set_Forall (fun _ r => Forall (fun nv => R nv.1 nv.2) r)); [done|].
  apply dict_set_Forall; [exact (dict_get_Forall (fun _ r => Forall (fun nv => R nv.1 nv.2) r) _ _ _ Hp Hr)|].
  by eapply HR.
Qed.

Lemma build_prices_entries symbols p : build_prices etfs symbols cl = Ok p -> entries_ok p.
Proof.
  unfold build_prices. apply foldM_invariant; [|constructor].
  intros p0 t p1 _ Hp0 Hstep. unfold date_step in Hstep.
  eapply foldM_invariant; [|apply (dict_set_Forall (fun _ r => Forall (fun nv => R nv.1 nv.2) r)); [exact Hp0|constructor]|exact Hstep].
  intros; eapply symbol_step_entries; eauto.
Qed.
End Entries.

End Prices.
