(* ===== verification/Job.v ===== *)
(** [main()] of [fetch_data.py] (lines 42-88) and [exit(main())] (line 92).

    [main] is a computation over a [World]: the successive readings of
    [datetime.now()], the provider behind [yf.download], a log of the
    requests made to it, the files, the paths that [open(path, "w")]
    refuses (with the [OSError] message) and the lines printed on stdout.
    A Python exception stops the computation, and the effects made before
    it stay in the world.  [main] runs its steps in the order of the
    source: clock, window, print, download, the empty test with its early
    [return 1], column choice, the price loop, the sort, the second clock
    read, the document, the file write and the two final prints.

    Theorems: the provider request, the empty-answer path (exit code 1, no
    file), the success path (the file holds the serialised document, exit
    code 0, and stdout gains exactly the fetch line, the row count and the
    date range), the [OSError] path of
    [open] (exit code 1, no file, no report line), and that
    [sorted_dates[0]] never raises. *)

From S2P Require Import Prelude Config Calendar Rounding Frame Json Prices.

Open Scope string_scope.

Module Job.
Import Config Calendar Rounding Frame Json Prices.

Record World := mkWorld {
  w_clock : nat -> datetime;
  w_ticks : nat;
  w_provider : list string -> datetime -> datetime -> string + dataframe;
  w_requests : list (list string * datetime * datetime);
  w_files : dict string string;
  w_open_error : string -> option string;
  w_stdout : list string
}.

(** A computation of the job: its result (or exception) and the world
    after it. *)
Definition job (A : Type) := World -> result A * World.

Definition jret {A} (a : A) : job A := fun w => (Ok a, w).

Definition jbind {A B} (m : job A) (k : A -> job B) : job B :=
  fun w => match m w with
           | (Ok a, w') => k a w'
           | (Err e, w') => (Err e, w')
           end.

Declare Scope job_scope.
Delimit Scope job_scope with job.
Notation "'do' x <- m ;; k" := (jbind m (fun x => k))
  (at level 100, x name, m at next level, right associativity) : job_scope.
Open Scope job_scope.

(** A pure step that may raise. *)
Definition lift {A} (r : result A) : job A := fun w => (r, w).

(** [datetime.now()]: the next clock reading. *)
Definition now : job datetime :=
  fun w => (Ok (w_clock w (w_ticks w)),
            mkWorld (w_clock w) (S (w_ticks w)) (w_provider w) (w_requests w) (w_files w) (w_open_error w)
              (w_stdout w)).

Definition print (s : string) : job unit :=
  fun w => (Ok tt, mkWorld (w_clock w) (w_ticks w) (w_provider w) (w_requests w) (w_files w)
                     (w_open_error w) (w_stdout w ++ [s])).

(** [yf.download(symbols, start=..., end=..., progress=False)]: the request
    is logged; a provider failure is an exception. *)
Definition download (symbols : list string) (start end_ : datetime) : job dataframe :=
  fun w =>
    let w' := mkWorld (w_clock w) (w_ticks w) (w_provider w)
                (w_requests w ++ [(symbols, start, end_)]) (w_files w) (w_open_error w) (w_stdout w) in
    match w_provider w symbols start end_ with
    | inl msg => (Err (ProviderError msg), w')
    | inr df => (Ok df, w')
    end.

(** [with open(path, "w") as f: json.dump(...)]: [open] raises [OSError]
    when the path cannot be opened for writing (a read-only directory, a
    directory of that name, no permission), and the file system is left as
    it was; otherwise the file is replaced by the contents. *)
Definition write_file (path contents : string) : job unit :=
  fun w =>
    match w_open_error w path with
    | Some msg => (Err (OSError msg), w)
    | None => (Ok tt, mkWorld (w_clock w) (w_ticks w) (w_provider w) (w_requests w)
                        (dict_set (w_files w) path contents) (w_open_error w) (w_stdout w))
    end.

(** [l[0]] and [l[-1]]. *)
Definition py_first {A} (l : list A) : result A :=
  match l with [] => Err IndexError | x :: _ => Ok x end.

Definition py_last {A} (l : list A) : result A :=
  match last l with None => Err IndexError | Some x => Ok x end.

Lemma py_last_cons {A} (d : A) ds : exists x, py_last (d :: ds) = Ok x.
Proof. revert d. induction ds as [|d' ds IH]; intros d; [by eexists|apply IH]. Qed.

(** One element of ["asset_classes"]. *)
Definition asset_class_json (a : AssetClass) : json :=
  JObj [("name", JStr (ac_name a)); ("symbol", JStr (ac_symbol a)); ("color", JStr (ac_color a))].

(** The dict of lines 73-80. *)
Definition output_doc (updated : datetime) (classes : list AssetClass) (rows : list json) : json :=
  JObj [("updated_at", JStr (isoformat updated));
        ("asset_classes", JArr (map asset_class_json classes));
        ("prices", JArr rows)].

(** Line 82: [Path(__file__).parent / "data.json"]. *)
Definition output_path (script_dir : string) : string := script_dir +:+ "/data.json".

(** Lines 42-88. *)
Definition main (script_dir : string) : job Z :=
  do end_date <- now ;;
  do start_date <- lift (window_start end_date) ;;
  do _u <- print ("Fetching data from " +:+ strftime_ymd start_date +:+ " to "
                  +:+ strftime_ymd end_date) ;;
  let symbols := symbols_of ETFS in
  do data <- download symbols start_date end_date ;;
  if df_empty data then
    do _u <- print "ERROR: No data returned from yfinance" ;; jret 1%Z
  else
    do closes <- lift (select_closes data) ;;
    do prices <- lift (build_prices ETFS symbols closes) ;;
    let sorted_dates := sort_dates (dict_keys prices) in
    do rows <- lift (sorted_prices prices) ;;
    do updated <- now ;;
    do classes <- lift asset_classes ;;
    let path := output_path script_dir in
    do _u <- write_file path (dumps (output_doc updated classes rows)) ;;
    do _u <- print ("Wrote " +:+ dec_string (Z.of_nat (length rows)) +:+ " days of data to "
                    +:+ path) ;;
    do first <- lift (py_first sorted_dates) ;;
    do last_ <- lift (py_last sorted_dates) ;;
    do _u <- print ("Date range: " +:+ first +:+ " to " +:+ last_) ;;
    jret 0%Z.

(** Line 92, [exit(main())]: the returned code, or 1 for an uncaught
    exception. *)
Definition exit_code (r : result Z) : Z :=
  match r with Ok n => n | Err _ => 1%Z end.

(** ** Equations of the effects *)

(** The world after a request to the provider. *)
Definition log_request (w : World) (symbols : list string) (start end_ : datetime) : World :=
  mkWorld (w_clock w) (w_ticks w) (w_provider w) (w_requests w ++ [(symbols, start, end_)])%list
    (w_files w) (w_open_error w) (w_stdout w).

Lemma jbind_lift_Ok {A B} (a : A) (k : A -> job B) w : jbind (lift (Ok a)) k w = k a w.
Proof. done. Qed.

Lemma jbind_lift_Err {A B} e (k : A -> job B) w : jbind (lift (Err e)) k w = (Err e, w).
Proof. done. Qed.

Lemma jbind_download_inr {B} symbols s e (k : dataframe -> job B) w df :
  w_provider w symbols s e = inr df ->
  jbind (download symbols s e) k w = k df (log_request w symbols s e).
Proof. intros Hp. unfold jbind, download. by rewrite Hp. Qed.

Lemma jbind_download_inl {B} symbols s e (k : dataframe -> job B) w msg :
  w_provider w symbols s e = inl msg ->
  jbind (download symbols s e) k w = (Err (ProviderError msg), log_request w symbols s e).
Proof. intros Hp. unfold jbind, download. by rewrite Hp. Qed.

(** The world after [open(path, "w")] and [json.dump] succeed. *)
Definition store_file (w : World) (path contents : string) : World :=
  mkWorld (w_clock w) (w_ticks w) (w_provider w) (w_requests w)
    (dict_set (w_files w) path contents) (w_open_error w) (w_stdout w).

Lemma jbind_write_ok {B} path c (k : unit -> job B) w :
  w_open_error w path = None -> jbind (write_file path c) k w = k tt (store_file w path c).
Proof. intros Ho. unfold jbind, write_file. by rewrite Ho. Qed.

Lemma jbind_write_err {B} path c (k : unit -> job B) w msg :
  w_open_error w path = Some msg -> jbind (write_file path c) k w = (Err (OSError msg), w).
Proof. intros Ho. unfold jbind, write_file. by rewrite Ho. Qed.

Create Rewrite HintDb job_rw.
#[export] Hint Rewrite @jbind_lift_Ok @jbind_lift_Err : job_rw.

(** One step of [main]: the effects that compute, then the recorded
    results of the pure steps. *)
Ltac run_job :=
  repeat (cbn [main jbind now print jret w_clock w_ticks w_provider w_requests
                w_files w_open_error w_stdout log_request store_file py_first fst snd];
          autorewrite with job_rw).

(** ** Effects that leave the request log alone *)

Definition keeps_requests {A} (m : job A) : Prop :=
  forall w, w_requests (m w).2 = w_requests w.

Lemma keeps_jret {A} (a : A) : keeps_requests (jret a).
Proof. done. Qed.
Lemma keeps_lift {A} (r : result A) : keeps_requests (lift r).
Proof. done. Qed.
Lemma keeps_now : keeps_requests now.
Proof. done. Qed.
Lemma keeps_print s : keeps_requests (print s).
Proof. done. Qed.
Lemma keeps_write_file p c : keeps_requests (write_file p c).
Proof. intros w. unfold write_file. by destruct (w_open_error w p). Qed.
Lemma keeps_jbind {A B} (m : job A) (k : A -> job B) :
  keeps_requests m -> (forall a, keeps_requests (k a)) -> keeps_requests (jbind m k).
Proof.
  intros Hm Hk w. unfold jbind. specialize (Hm w).
  destruct (m w) as [[a|e] w']; simpl in *; [by rewrite Hk|done].
Qed.
Lemma keeps_if {A} (b : bool) (m1 m2 : job A) :
  keeps_requests m1 -> keeps_requests m2 -> keeps_requests (if b then m1 else m2).
Proof. by destruct b. Qed.

Create HintDb job discriminated.
#[export] Hint Resolve keeps_jret keeps_lift keeps_now keeps_print keeps_write_file : job.

(** Proves [keeps_requests] of a [do]-block by following its structure. *)
Ltac keeps_tac :=
  repeat first [ apply keeps_jbind; [|intros ?; cbv beta zeta]
               | apply keeps_if
               | solve [eauto with job] ].

(** The start of the window for the clock reading [now0]. *)
Definition window_of (now0 : datetime) : datetime := mkDatetime (year now0 - 5) 1 1 0 0 0 0.

Lemma window_ok now0 :
  valid_datetime now0 = true -> (6 <= year now0)%Z -> window_start now0 = Ok (window_of now0).
Proof.
  intros Hv Hy. pose proof (window_start_spec_aux _ Hv) as Hw.
  destruct (window_start _); [by destruct Hw as [_ ->]|lia].
Qed.

(** The first line [main] prints. *)
Definition fetch_line (now0 : datetime) : string :=
  "Fetching data from " +:+ strftime_ymd (window_of now0) +:+ " to " +:+ strftime_ymd now0.

Section Run.
Context (dir : string) (w : World).
Let now0 := w_clock w (w_ticks w).
Context (Hv : valid_datetime now0 = true) (Hy : (6 <= year now0)%Z).

(** Runs [main] up to the provider's answer [Hp]. *)
Ltac run_to_download Hp :=
  unfold main; run_job; rewrite window_ok; [|exact Hv|exact Hy]; run_job;
  erewrite jbind_download_inr by exact Hp; run_job.

(** Runs [main] on a non-empty answer up to the file write. *)
Ltac run_to_write Hp He Hs Hb Hr Hc :=
  run_to_download Hp; rewrite He, Hs; run_job; unfold symbols in Hb; rewrite Hb; run_job;
  rewrite Hr; run_job; rewrite Hc; run_job.

(** C5 (error): when the provider answers with an empty frame, [main]
    prints the fetch line and the error line, writes no file and returns
    1, the exit code of the process. *)
Theorem main_empty df :
  w_provider w symbols (window_of now0) now0 = inr df -> df_empty df = true ->
  (main dir w).1 = Ok 1%Z /\ exit_code (main dir w).1 = 1%Z /\
  w_files (main dir w).2 = w_files w /\
  w_stdout (main dir w).2 = (w_stdout w ++ [fetch_line now0; "ERROR: No data returned from yfinance"])%list.
Proof.
  intros Hp He. run_to_download Hp. rewrite He. run_job. by rewrite <- app_assoc.
Qed.

(** The statement of [main_success], for the proofs that use it. *)
Lemma main_success_aux df cl p :
  w_provider w symbols (window_of now0) now0 = inr df -> df_empty df = false ->
  select_closes df = Ok cl -> build_prices ETFS symbols cl = Ok p ->
  w_open_error w (output_path dir) = None ->
  exists classes rows,
    asset_classes = Ok classes /\ sorted_prices p = Ok rows /\
    (main dir w).1 = Ok 0%Z /\ exit_code (main dir w).1 = 0%Z /\
    dict_get (w_files (main dir w).2) (output_path dir) =
      Some (dumps (output_doc (w_clock w (S (w_ticks w))) classes rows)).
Proof.
  intros Hp He Hs Hb Ho.
  destruct asset_classes_shipped_aux as (classes & Hc & _).
  destruct (sorted_prices_total p) as (rows & Hr & _).
  destruct (sort_dates_nonempty ETFS symbols cl p Hb) as (d & ds & Hd).
  { rewrite (select_closes_index df cl Hs). unfold df_empty in He.
    destruct (df_index df); [done|]. done. }
  exists classes, rows. do 2 (split; [done|]).
  run_to_write Hp He Hs Hb Hr Hc. erewrite jbind_write_ok by exact Ho. run_job.
  rewrite Hd. destruct (py_last_cons d ds) as [x ->]. run_job.
  split; [done|]. split; [done|]. apply dict_get_set_eq.
Qed.

(** C6 (functional): when the provider answers with a non-empty frame,
    the column choice and the loop succeed and [open] can create the
    output file, [main] writes to
    [data.json] the compact JSON of the document, built from the second
    clock reading, the nine asset classes and the sorted rows, then
    returns 0. *)
Theorem main_success df cl p :
  w_provider w symbols (window_of now0) now0 = inr df -> df_empty df = false ->
  select_closes df = Ok cl -> build_prices ETFS symbols cl = Ok p ->
  w_open_error w (output_path dir) = None ->
  exists classes rows,
    asset_classes = Ok classes /\ sorted_prices p = Ok rows /\
    (main dir w).1 = Ok 0%Z /\ exit_code (main dir w).1 = 0%Z /\
    dict_get (w_files (main dir w).2) (output_path dir) =
      Some (dumps (output_doc (w_clock w (S (w_ticks w))) classes rows)).
Proof. exact (main_success_aux df cl p). Qed.

(** C18: the stdout of a successful run is exactly three lines after
    what was printed before: the fetch line, ["Wrote N days of data to
    PATH"] with [N] the number of keys of [prices] (one per distinct date
    string of the index), and
    ["Date range: FIRST to LAST"] with the first and the last of the
    sorted dates. *)
Theorem main_success_stdout df cl p :
  w_provider w symbols (window_of now0) now0 = inr df -> df_empty df = false ->
  select_closes df = Ok cl -> build_prices ETFS symbols cl = Ok p ->
  w_open_error w (output_path dir) = None ->
  exists d ds x, sort_dates (dict_keys p) = d :: ds /\ last (d :: ds) = Some x /\
    w_stdout (main dir w).2 =
      (w_stdout w ++ [fetch_line now0;
                      "Wrote " +:+ dec_string (Z.of_nat (length (dict_keys p))) +:+
                        " days of data to " +:+ output_path dir;
                      "Date range: " +:+ d +:+ " to " +:+ x])%list.
Proof.
  intros Hp He Hs Hb Ho.
  destruct asset_classes_shipped_aux as (classes & Hc & _).
  destruct (sorted_prices_total p) as (rows & Hr & Hlen).
  destruct (sort_dates_nonempty ETFS symbols cl p Hb) as (d & ds & Hd).
  { rewrite (select_closes_index df cl Hs). unfold df_empty in He.
    destruct (df_index df); [done|]. done. }
  destruct (py_last_cons d ds) as [x Hx]. exists d, ds, x.
  split; [done|]. split; [by unfold py_last in Hx; destruct (last _); [injection Hx as ->|]|].
  run_to_write Hp He Hs Hb Hr Hc. erewrite jbind_write_ok by exact Ho. run_job.
  rewrite Hd, Hx. run_job. rewrite Hlen, <- !app_assoc. reflexivity.
Qed.

(** C11 (error): when [open] cannot create [data.json], [main] raises
    [OSError] after the price table is built: no file is written, only the
    fetch line is printed, and the process exits with 1. *)
Theorem main_open_fails df cl p msg :
  w_provider w symbols (window_of now0) now0 = inr df -> df_empty df = false ->
  select_closes df = Ok cl -> build_prices ETFS symbols cl = Ok p ->
  w_open_error w (output_path dir) = Some msg ->
  (main dir w).1 = Err (OSError msg) /\ exit_code (main dir w).1 = 1%Z /\
  w_files (main dir w).2 = w_files w /\
  w_stdout (main dir w).2 = (w_stdout w ++ [fetch_line now0])%list.
Proof.
  intros Hp He Hs Hb Ho.
  destruct asset_classes_shipped_aux as (classes & Hc & _).
  destruct (sorted_prices_total p) as (rows & Hr & _).
  run_to_write Hp He Hs Hb Hr Hc. erewrite jbind_write_err by exact Ho. run_job. done.
Qed.
End Run.

(** C13 (safety): whatever the clock, the provider and the files, [main]
    never raises [IndexError]: when the final print evaluates
    [sorted_dates[0]] and [sorted_dates[-1]], the list is not empty. *)
Theorem main_no_IndexError dir w : (main dir w).1 <> Err IndexError.
Proof.
  unfold main. run_job.
  destruct (window_start (w_clock w (w_ticks w))) as [s|e] eqn:Hw; run_job;
    [|unfold window_start, datetime_new in Hw;
      by destruct (check_datetime_Err _ _ Hw) as [? ->]].
  destruct (w_provider w (symbols_of ETFS) s (w_clock w (w_ticks w))) as [msg|df] eqn:Hp;
    [by erewrite jbind_download_inl by exact Hp|erewrite jbind_download_inr by exact Hp].
  run_job. destruct (df_empty df) eqn:He; run_job; [done|].
  destruct (select_closes df) as [cl|e] eqn:Hs; run_job;
    [|by destruct (select_closes_Err _ _ Hs) as [? ->]].
  destruct (build_prices ETFS (symbols_of ETFS) cl) as [p|e] eqn:Hb; run_job;
    [|intros [= ->]; by apply (build_prices_not_IndexError ETFS (symbols_of ETFS) cl)].
  destruct (sorted_prices_total p) as (rows & -> & _). run_job.
  destruct asset_classes_shipped_aux as (classes & -> & _). run_job.
  destruct (w_open_error w (output_path dir)) as [msg|] eqn:Ho;
    [by erewrite jbind_write_err by exact Ho|erewrite jbind_write_ok by exact Ho].
  destruct (sort_dates_nonempty ETFS (symbols_of ETFS) cl p Hb) as (d & ds & ->).
  { rewrite (select_closes_index df cl Hs). unfold df_empty in He.
    destruct (df_index df); done. }
  run_job. destruct (py_last_cons d ds) as [x ->]. run_job. done.
Qed.

(** C17: on a valid clock reading from year 6 on, [main] makes exactly one
    request to the provider, for the nine [ETFS] symbols in table order,
    from January 1 five years back to the clock reading, whatever the
    provider answers and whatever happens after the request. *)
Theorem main_requests dir w :
  valid_datetime (w_clock w (w_ticks w)) = true -> (6 <= year (w_clock w (w_ticks w)))%Z ->
  w_requests (main dir w).2 =
    (w_requests w ++ [(symbols, window_of (w_clock w (w_ticks w)), w_clock w (w_ticks w))])%list.
Proof.
  intros Hv Hy. unfold main. run_job. rewrite window_ok by done. run_job.
  destruct (w_provider w (symbols_of ETFS) (window_of (w_clock w (w_ticks w))) (w_clock w (w_ticks w)))
    as [msg|df] eqn:Hp;
    [erewrite jbind_download_inl by exact Hp; done|erewrite jbind_download_inr by exact Hp].
  match goal with |- w_requests (?m ?w0).2 = _ =>
    assert (Hk : keeps_requests m) by keeps_tac; rewrite (Hk w0) end.
  done.
Qed.

End Job.
