(* ===== verification/Output.v ===== *)
(** The document [main] writes to [data.json] (lines 71-84), and what the
    page that reads it can rely on.

    [output_doc] is the dict of lines 73-80 and [sorted_prices] the list of
    line 71.  This file states the layout of that document as a boolean
    schema ([doc_shape]): an object with ["updated_at"] (a string),
    ["asset_classes"] (objects with the string members ["name"],
    ["symbol"] and ["color"], in this order) and ["prices"] (objects whose
    first member is ["date"], a string, followed by numbers under other
    keys).  Every document the job builds has this layout.  When every
    price of the provider is NaN or a finite float below [10^16 - 1] in
    magnitude ([cells_fit]), all its numbers are finite and the file
    [main] writes decodes, by the reader of [JsonRead], to the document
    itself, and two such runs on the same provider answer write the same
    file exactly when their second clock readings print the same
    [isoformat]. *)

From S2P Require Import Prelude Config Calendar Rounding Frame Json JsonRead Prices Job.

Open Scope string_scope.

Module Output.
Import Config Calendar Rounding Frame Json JsonRead Prices Job.

(** ** The layout of the document *)

Definition is_jstr (j : json) : bool := match j with JStr _ => true | _ => false end.
Definition is_jnum (j : json) : bool := match j with JNum _ => true | _ => false end.

(** One element of ["asset_classes"]. *)
Definition class_shape (j : json) : bool :=
  match j with
  | JObj [(k1, JStr _); (k2, JStr _); (k3, JStr _)] =>
      bool_decide (k1 = "name") && bool_decide (k2 = "symbol") && bool_decide (k3 = "color")
  | _ => false
  end.

(** One element of ["prices"]. *)
Definition row_shape (j : json) : bool :=
  match j with
  | JObj ((k, JStr _) :: kvs) =>
      bool_decide (k = "date") &&
      forallb (fun kv => is_jnum kv.2 && negb (bool_decide (kv.1 = "date"))) kvs
  | _ => false
  end.

Definition doc_shape (j : json) : bool :=
  match j with
  | JObj [(k1, JStr _); (k2, JArr classes); (k3, JArr rows)] =>
      bool_decide (k1 = "updated_at") && bool_decide (k2 = "asset_classes") &&
      bool_decide (k3 = "prices") && forallb class_shape classes && forallb row_shape rows
  | _ => false
  end.

(** Every float cell of the closes is NaN or a finite float below
    [10^16 - 1] in magnitude: no infinite price. *)
Definition cells_fit (cl : closes_frame) : bool :=
  forallb (fun col => forallb (fun c => match c with
                                        | CFloat x => float_ne_self x || fits_fixed x
                                        | CNone => true
                                        end) col.2)
    (cl_columns cl).

(** ** Lemmas *)

Lemma Forall2_Forall_snd {A B} (P : A -> B -> Prop) (Q : B -> Prop) xs ys :
  Forall2 P xs ys -> (forall x y, P x y -> Q y) -> Forall Q ys.
Proof. induction 1; constructor; eauto. Qed.

Lemma asset_classes_json_ok classes :
  forallb class_shape (map asset_class_json classes) = true /\
  forallb json_finite (map asset_class_json classes) = true.
Proof. induction classes as [|a classes [IH1 IH2]]; [done|]. cbn. by rewrite IH1, IH2. Qed.

(** An entry of a row of the table: a name that is not ["date"] (the
    names of [ETFS]) and, where the prices fit, a fixed-notation number. *)
Definition entry_ok (fits : bool) (n : string) (v : rounded) : Prop :=
  n <> "date" /\ (fits = true -> json_finite (JNum v) = true).

Lemma ETFS_names_not_date s n : dict_get ETFS s = Some n -> n <> "date".
Proof.
  intros H. apply dict_get_Some_in, list_elem_of_In in H. unfold ETFS in H. simpl in H.
  destruct_or! H; injection H as <- <-; done.
Qed.

Lemma table_entries cl symbols p :
  build_prices ETFS symbols cl = Ok p -> entries_ok (entry_ok (cells_fit cl)) p.
Proof.
  apply build_prices_entries. intros s t x name Hn Hl Hx. split; [by eapply ETFS_names_not_date|].
  intros Hfit. destruct (loc_cell_scalar_elem cl s t x Hl) as (col & Hcol & Hc).
  unfold cells_fit in Hfit. rewrite forallb_forall in Hfit.
  specialize (Hfit col (proj1 (list_elem_of_In _ _) Hcol)). rewrite forallb_forall in Hfit.
  specialize (Hfit (CFloat x) (proj1 (list_elem_of_In _ _) Hc)). cbv beta iota in Hfit.
  rewrite Hx in Hfit.
  destruct (py_round4_fits x Hfit) as (neg & k & -> & Hk). cbn.
  apply andb_true_iff. split; [apply Z.leb_le|apply Z.ltb_lt]; lia.
Qed.

(** The members after ["date"] of a row being built keep the layout. *)
Definition member_ok (fits : bool) (k : string) (j : json) : Prop :=
  is_jnum j = true /\ k <> "date" /\ (fits = true -> json_finite j = true).

Lemma row_fold_ok fits d r rest :
  Forall (fun nv => entry_ok fits nv.1 nv.2) r ->
  Forall (fun kv => member_ok fits kv.1 kv.2) rest ->
  exists rest', fold_left (fun acc kv => dict_set acc kv.1 (JNum kv.2)) r (("date", JStr d) :: rest)
                  = ("date", JStr d) :: rest' /\
    Forall (fun kv => member_ok fits kv.1 kv.2) rest'.
Proof.
  revert rest. induction r as [|[n v] r IH]; intros rest Hr Hrest; [by exists rest|].
  apply Forall_cons in Hr as [[Hn Hv] Hr]. cbn [fold_left fst snd dict_set].
  rewrite decide_False by done. apply IH; [done|].
  apply dict_set_Forall; [done|]. split; [done|]. by split.
Qed.

Lemma price_row_ok fits p d j :
  Forall (fun dr => Forall (fun nv => entry_ok fits nv.1 nv.2) dr.2) p ->
  price_row p d = Ok j -> row_shape j = true /\ (fits = true -> json_finite j = true).
Proof.
  unfold price_row, py_getitem. intros Hp.
  destruct (dict_get _ _) as [r|] eqn:Hr; cbn [bind id]; [|intros [=]]. intros [= <-].
  pose proof (dict_get_Forall (fun _ r => Forall (fun nv => entry_ok fits nv.1 nv.2) r) _ _ _ Hp Hr)
    as Hrow.
  destruct (row_fold_ok fits d r [] Hrow (Forall_nil_2 _)) as (rest & -> & Hrest).
  rewrite Forall_forall in Hrest. split.
  - cbn [row_shape]. rewrite bool_decide_eq_true_2 by done. apply forallb_forall.
    intros [k v] Hin. apply list_elem_of_In, Hrest in Hin as (H1 & H2 & _).
    cbn [fst snd] in H1, H2 |- *. rewrite H1, bool_decide_eq_false_2 by done. done.
  - intros Hf. cbn [json_finite forallb]. apply forallb_forall.
    intros [k v] Hin. apply list_elem_of_In, Hrest in Hin as (_ & _ & H3). by apply H3.
Qed.

Lemma sorted_prices_ok fits p rows :
  Forall (fun dr => Forall (fun nv => entry_ok fits nv.1 nv.2) dr.2) p ->
  sorted_prices p = Ok rows ->
  forallb row_shape rows = true /\ (fits = true -> forallb json_finite rows = true).
Proof.
  intros Hp Hs. apply mapM_Forall2 in Hs.
  pose proof (Forall2_Forall_snd _ _ _ _ Hs (fun d j Hj => price_row_ok fits p d j Hp Hj)) as H.
  rewrite Forall_forall in H. split.
  - apply forallb_forall. intros j Hj. apply list_elem_of_In, H in Hj. by destruct Hj.
  - intros Hf. apply forallb_forall. intros j Hj. apply list_elem_of_In, H in Hj. by apply Hj.
Qed.

(** The statement of [output_doc_shape], for the proofs that use it. *)
Lemma output_doc_shape_aux cl symbols p rows updated classes :
  build_prices ETFS symbols cl = Ok p -> sorted_prices p = Ok rows ->
  doc_shape (output_doc updated classes rows) = true.
Proof.
  intros Hb Hs. destruct (sorted_prices_ok _ _ _ (table_entries _ _ _ Hb) Hs) as [Hrows _].
  cbn [output_doc doc_shape]. rewrite !bool_decide_eq_true_2 by done.
  by rewrite (proj1 (asset_classes_json_ok classes)), Hrows.
Qed.

(** C12 (type): every document the job builds has the layout the page
    reads: ["updated_at"] a string, ["asset_classes"] objects with the
    string members ["name"], ["symbol"], ["color"], and ["prices"] objects
    with ["date"] first, as a string, then numbers under other keys. *)
Theorem output_doc_shape cl symbols p rows updated classes :
  build_prices ETFS symbols cl = Ok p -> sorted_prices p = Ok rows ->
  doc_shape (output_doc updated classes rows) = true.
Proof. exact (output_doc_shape_aux cl symbols p rows updated classes). Qed.

(** The run of [main] that reaches the write: a valid clock, the provider
    answering [df] to the request of that clock, and an output path that
    [open] can create. *)
Definition run_writes (dir : string) (w : World) (df : dataframe) : Prop :=
  valid_datetime (w_clock w (w_ticks w)) = true /\ (6 <= year (w_clock w (w_ticks w)))%Z /\
  w_provider w symbols (window_of (w_clock w (w_ticks w))) (w_clock w (w_ticks w)) = inr df /\
  w_open_error w (output_path dir) = None.

(** A successful run whose prices fit writes the compact JSON of a
    document with finite numbers only, built from the second clock
    reading. *)
Lemma main_written dir w df cl p :
  run_writes dir w df -> df_empty df = false -> select_closes df = Ok cl ->
  build_prices ETFS symbols cl = Ok p -> cells_fit cl = true ->
  exists classes rows, asset_classes = Ok classes /\ sorted_prices p = Ok rows /\
    dict_get (w_files (main dir w).2) (output_path dir) =
      Some (dumps (output_doc (w_clock w (S (w_ticks w))) classes rows)) /\
    json_finite (output_doc (w_clock w (S (w_ticks w))) classes rows) = true.
Proof.
  intros (Hv & Hy & Hp & Ho) He Hs Hb Hfit.
  destruct (main_success_aux dir w Hv Hy df cl p Hp He Hs Hb Ho)
    as (classes & rows & Hc & Hr & _ & _ & Hfile).
  exists classes, rows. do 3 (split; [done|]).
  destruct (sorted_prices_ok _ _ _ (table_entries _ _ _ Hb) Hr) as [_ Hfin].
  unfold output_doc. rewrite json_finite_obj. cbn [forallb fst snd].
  rewrite !json_finite_arr, (proj2 (asset_classes_json_ok classes)), (Hfin Hfit). done.
Qed.

(** C9 (roundtrip): when every provider price is NaN or a finite float
    below [10^16 - 1] in magnitude, a successful run writes a [data.json]
    that is JSON, decodes to the document the job built, and has the
    layout of [doc_shape]. *)
Theorem main_file_decodes dir w df cl p :
  valid_datetime (w_clock w (w_ticks w)) = true -> (6 <= year (w_clock w (w_ticks w)))%Z ->
  w_provider w symbols (window_of (w_clock w (w_ticks w))) (w_clock w (w_ticks w)) = inr df ->
  df_empty df = false -> select_closes df = Ok cl -> build_prices ETFS symbols cl = Ok p ->
  w_open_error w (output_path dir) = None -> cells_fit cl = true ->
  exists doc, dict_get (w_files (main dir w).2) (output_path dir) = Some (dumps doc) /\
    decode (dumps doc) = Some doc /\ doc_shape doc = true.
Proof.
  intros Hv Hy Hp He Hs Hb Ho Hfit.
  destruct (main_written dir w df cl p (conj Hv (conj Hy (conj Hp Ho))) He Hs Hb Hfit)
    as (classes & rows & _ & Hr & Hfile & Hfin).
  eexists. split; [exact Hfile|]. split; [by apply decode_dumps_aux|by eapply output_doc_shape_aux].
Qed.

(** C28 (functional): two successful runs on the same provider answer,
    whose prices fit, write the same [data.json] exactly when the second
    clock readings have the same [isoformat]: the file is a function of
    the answer and of ["updated_at"], and a rerun at another instant
    rewrites the file even when no price changed. *)
Theorem rerun_same_file dir w1 w2 df cl p :
  run_writes dir w1 df -> run_writes dir w2 df ->
  df_empty df = false -> select_closes df = Ok cl -> build_prices ETFS symbols cl = Ok p ->
  cells_fit cl = true ->
  dict_get (w_files (main dir w1).2) (output_path dir) =
    dict_get (w_files (main dir w2).2) (output_path dir) <->
  isoformat (w_clock w1 (S (w_ticks w1))) = isoformat (w_clock w2 (S (w_ticks w2))).
Proof.
  intros H1 H2 He Hs Hb Hfit.
  destruct (main_written dir w1 df cl p H1 He Hs Hb Hfit) as (c1 & r1 & Hc1 & Hr1 & -> & Hf1).
  destruct (main_written dir w2 df cl p H2 He Hs Hb Hfit) as (c2 & r2 & Hc2 & Hr2 & -> & Hf2).
  rewrite Hc1 in Hc2. rewrite Hr1 in Hr2. injection Hc2 as <-. injection Hr2 as <-.
  split.
  - intros Hd. apply (f_equal (option_map decode)) in Hd. cbn [option_map] in Hd.
    rewrite !decode_dumps_aux in Hd by done. unfold output_doc in Hd. congruence.
  - intros Hiso. unfold output_doc. by rewrite Hiso.
Qed.

End Output.
