(* ===== verification/Scenarios.v ===== *)
(** Concrete runs of the job on synthetic provider answers: the spec's
    example row, a repeated date string, two runs that differ only in the
    second clock reading, and a run whose file is not JSON.  Every
    statement is closed and is proved by evaluating the model. *)

From S2P Require Import Prelude Config Calendar Rounding Frame Json JsonRead Prices Job.

Open Scope string_scope.

Module Scenarios.
Import Config Calendar Rounding Frame Json JsonRead Prices Job.

(** 2024-01-02, midnight, and the same day at 16:00. *)
Definition jan2 : datetime := mkDatetime 2024 1 2 0 0 0 0.
Definition jan2_close : datetime := mkDatetime 2024 1 2 16 0 0 0.

(** The double nearest to 450.1234: 7918654595745081 * 2^-44. *)
Definition spy_450 : pyfloat := Finite false 7918654595745081 (-44).

(** A provider answer with one adjusted-close column per symbol; [col s]
    is the column of symbol [s]. *)
Definition frame_of (index : list datetime) (col : string -> list cell) : dataframe :=
  mkFrame index (map (fun s => (("Adj Close", s), col s)) symbols).

Definition spy_only (xs : list cell) (s : string) : list cell :=
  if decide (s = "SPY") then xs else map (fun _ => CFloat NaN) xs.

(** Lines 57-71 on a provider answer. *)
Definition rows_of (df : dataframe) : result (list json) :=
  cl <- select_closes df ;; p <- build_prices ETFS symbols cl ;; sorted_prices p.

Definition quoted (s : string) : string :=
  String (ascii_of_nat 34) (s +:+ String (ascii_of_nat 34) EmptyString).

(** The spec's test case: a provider answer with SPY = 450.1234 on
    2024-01-02 (every other symbol NaN) gives the single row
    [{"date":"2024-01-02","Large Cap":450.1234}]. *)
Theorem spec_example_row :
  rows_of (frame_of [jan2] (spy_only [CFloat spy_450])) =
    Ok [JObj [("date", JStr "2024-01-02"); ("Large Cap", JNum (RDec false 4501234))]] /\
  dumps (JObj [("date", JStr "2024-01-02"); ("Large Cap", JNum (RDec false 4501234))]) =
    "{" +:+ quoted "date" +:+ ":" +:+ quoted "2024-01-02" +:+ "," +:+ quoted "Large Cap"
      +:+ ":450.1234}".
Proof. split; vm_compute; reflexivity. Qed.

(** Two timestamps of the same day (midnight with a price, 16:00
    without) give one row, and the second one's empty row replaces the
    first one's price: [prices[date_str] = {}] resets the day. *)
Theorem repeated_date_overwrites :
  (cl <- select_closes (frame_of [jan2; jan2_close] (spy_only [CFloat spy_450; CFloat NaN])) ;;
   build_prices ETFS symbols cl) = Ok [("2024-01-02", [])] /\
  rows_of (frame_of [jan2; jan2_close] (spy_only [CFloat spy_450; CFloat NaN])) =
    Ok [JObj [("date", JStr "2024-01-02")]].
Proof. split; vm_compute; reflexivity. Qed.

(** A clock whose first reading is 2024-06-01 12:00:00 and whose later
    readings are one second later, with [micro] microseconds. *)
Definition clock_at (micro : Z) (n : nat) : datetime :=
  if (n =? 0)%nat then mkDatetime 2024 6 1 12 0 0 0 else mkDatetime 2024 6 1 12 0 1 micro.

Definition world_of (df : dataframe) (clock : nat -> datetime) : World :=
  mkWorld clock 0 (fun _ _ _ => inr df) [] [] (fun _ => None) [].

(** The spec says that two runs on the same provider answer write
    byte-identical files.  They do not: two runs that differ only in the
    microseconds of the second clock reading both succeed and write
    different [data.json] files, because ["updated_at"] is that reading. *)
Theorem rerun_output_differs :
  let df := frame_of [jan2] (spy_only [CFloat spy_450]) in
  (main "/srv" (world_of df (clock_at 0))).1 = Ok 0%Z /\
  (main "/srv" (world_of df (clock_at 250))).1 = Ok 0%Z /\
  dict_get (w_files (main "/srv" (world_of df (clock_at 0))).2) (output_path "/srv") <>
  dict_get (w_files (main "/srv" (world_of df (clock_at 250))).2) (output_path "/srv").
Proof. split; [|split]; vm_compute; [reflexivity|reflexivity|discriminate]. Qed.

(** A run in which the provider returns +inf for SPY succeeds and
    writes [data.json], and that file is not JSON: the reader rejects it
    (it holds the token [Infinity]). *)
Theorem infinite_price_file_rejected :
  let df := frame_of [jan2] (spy_only [CFloat (Inf false)]) in
  (main "/srv" (world_of df (clock_at 0))).1 = Ok 0%Z /\
  option_map decode (dict_get (w_files (main "/srv" (world_of df (clock_at 0))).2)
                       (output_path "/srv")) = Some None.
Proof. split; vm_compute; reflexivity. Qed.

End Scenarios.
