(* ===== verification/Witnesses.v ===== *)
(** Witnesses: each theorem of the development that has hypotheses,
    applied at a concrete input where its hypotheses hold (checked by
    evaluation), so that none of them is vacuous. *)

From S2P Require Import Prelude Config Calendar Rounding Frame Json JsonRead Prices Job Output Scenarios.

Open Scope string_scope.

Module Witnesses.
Import Config Calendar Rounding Frame Json JsonRead Prices Job Output Scenarios.

(** The provider answer of the spec's example, its closes and its table. *)
Definition frame1 : dataframe := frame_of [jan2] (spy_only [CFloat spy_450]).
Definition cl1 : closes_frame := mkCloses [jan2] (map (fun s => (s, spy_only [CFloat spy_450] s)) symbols).
Definition r1 : row := [("Large Cap", RDec false 4501234)].
Definition p1 : prices_dict := [("2024-01-02", r1)].

(** Two consecutive days. *)
Definition jan3 : datetime := mkDatetime 2024 1 3 0 0 0 0.
Definition cl2days : closes_frame :=
  mkCloses [jan2; jan3] (map (fun s => (s, spy_only [CFloat spy_450; CFloat spy_450] s)) symbols).

(** The same timestamp twice. *)
Definition cl_dup : closes_frame :=
  mkCloses [jan2; jan2] (map (fun s => (s, spy_only [CFloat spy_450; CFloat spy_450] s)) symbols).

(** SPY is +inf. *)
Definition cl_inf : closes_frame := mkCloses [jan2] (map (fun s => (s, spy_only [CFloat (Inf false)] s)) symbols).

(** An empty answer (no rows). *)
Definition frame_empty : dataframe := frame_of [] (fun _ => []).

Definition w_ok : World := world_of frame1 (clock_at 0).
Definition w_empty : World := world_of frame_empty (clock_at 0).

(** The answer of [w_ok], on a read-only file system. *)
Definition w_readonly : World :=
  mkWorld (clock_at 0) 0 (fun _ _ _ => inr frame1) [] [] (fun _ => Some "Read-only file system") [].

(** Evaluate a closed hypothesis. *)
Ltac eval_tac := vm_compute; first [reflexivity | discriminate | lia | exact I].

Lemma symbols_have_columns (cl : closes_frame) (P : string -> Prop) :
  (forall s, s ∈ symbols -> P s) <->
  P "SPY" /\ P "IWM" /\ P "EFA" /\ P "EEM" /\ P "REET" /\ P "AGG" /\ P "BNDX" /\ P "HYG" /\ P "BIL".
Proof.
  split; [intros H; repeat split; apply H; vm_compute; set_solver|].
  intros HP s Hs. apply list_elem_of_In in Hs. unfold symbols, symbols_of, dict_keys, ETFS in Hs.
  simpl in Hs. destruct_or! Hs; subst; tauto.
Qed.

Lemma row_loop_content_witness :
  names_injective ETFS symbols /\ row_loop ETFS cl1 jan2 symbols = Ok r1 /\
  (dict_get r1 "Large Cap" = Some (RDec false 4501234) <->
   exists s, s ∈ symbols /\ kept ETFS cl1 jan2 s "Large Cap" (RDec false 4501234)).
Proof.
  split; [exact ETFS_names_injective|]. split; [vm_compute; reflexivity|].
  apply (row_loop_content ETFS cl1 jan2 symbols r1); [exact ETFS_names_injective|vm_compute; reflexivity].
Defined.

Lemma sorted_dates_strict_witness :
  build_prices ETFS symbols cl2days = Ok [("2024-01-02", r1); ("2024-01-03", r1)] /\
  StronglySorted str_lt (sort_dates ["2024-01-02"; "2024-01-03"]) /\
  (forall d, d ∈ sort_dates ["2024-01-02"; "2024-01-03"] <->
     exists t, t ∈ cl_index cl2days /\ strftime_ymd t = d).
Proof.
  split; [vm_compute; reflexivity|].
  apply (sorted_dates_strict ETFS symbols cl2days [("2024-01-02", r1); ("2024-01-03", r1)]).
  vm_compute; reflexivity.
Defined.

Lemma strftime_ymd_compare_witness :
  valid_datetime (mkDatetime 2023 12 31 23 59 59 0) = true /\ valid_datetime jan2 = true /\
  String.compare (strftime_ymd (mkDatetime 2023 12 31 23 59 59 0)) (strftime_ymd jan2) =
    compare_date (mkDatetime 2023 12 31 23 59 59 0) jan2.
Proof.
  split; [reflexivity|]. split; [reflexivity|].
  apply strftime_ymd_compare; reflexivity.
Defined.

Lemma build_prices_rows_witness :
  names_injective ETFS symbols /\ build_prices ETFS symbols cl1 = Ok p1 /\
  dict_get p1 "2024-01-02" = Some r1 /\
  exists i t, cl_index cl1 !! i = Some t /\ strftime_ymd t = "2024-01-02" /\
    (forall j t', (i < j)%nat -> cl_index cl1 !! j = Some t' -> strftime_ymd t' <> "2024-01-02") /\
    forall n v, dict_get r1 n = Some v <-> exists s, s ∈ symbols /\ kept ETFS cl1 t s n v.
Proof.
  split; [exact ETFS_names_injective|]. split; [vm_compute; reflexivity|].
  split; [reflexivity|].
  apply (build_prices_rows ETFS symbols cl1 p1 "2024-01-02" r1);
    [exact ETFS_names_injective|vm_compute; reflexivity|reflexivity].
Defined.

Lemma main_empty_witness :
  valid_datetime (w_clock w_empty (w_ticks w_empty)) = true /\
  (6 <= year (w_clock w_empty (w_ticks w_empty)))%Z /\
  w_provider w_empty symbols (window_of (w_clock w_empty (w_ticks w_empty)))
    (w_clock w_empty (w_ticks w_empty)) = inr frame_empty /\
  df_empty frame_empty = true /\
  (main "/srv" w_empty).1 = Ok 1%Z /\ exit_code (main "/srv" w_empty).1 = 1%Z /\
  w_files (main "/srv" w_empty).2 = w_files w_empty /\
  w_stdout (main "/srv" w_empty).2 =
    (w_stdout w_empty ++ [fetch_line (w_clock w_empty (w_ticks w_empty));
                          "ERROR: No data returned from yfinance"])%list.
Proof.
  do 4 (split; [eval_tac|]).
  apply (main_empty "/srv" w_empty) with (df := frame_empty); eval_tac.
Defined.

Lemma main_success_witness :
  valid_datetime (w_clock w_ok (w_ticks w_ok)) = true /\
  (6 <= year (w_clock w_ok (w_ticks w_ok)))%Z /\
  w_provider w_ok symbols (window_of (w_clock w_ok (w_ticks w_ok))) (w_clock w_ok (w_ticks w_ok))
    = inr frame1 /\
  df_empty frame1 = false /\ select_closes frame1 = Ok cl1 /\ build_prices ETFS symbols cl1 = Ok p1 /\
  w_open_error w_ok (output_path "/srv") = None /\
  exists classes rows,
    asset_classes = Ok classes /\ sorted_prices p1 = Ok rows /\
    (main "/srv" w_ok).1 = Ok 0%Z /\ exit_code (main "/srv" w_ok).1 = 0%Z /\
    dict_get (w_files (main "/srv" w_ok).2) (output_path "/srv") =
      Some (dumps (output_doc (w_clock w_ok (S (w_ticks w_ok))) classes rows)).
Proof.
  do 7 (split; [eval_tac|]).
  apply (main_success "/srv" w_ok) with (df := frame1) (cl := cl1); eval_tac.
Defined.

Lemma round_half_even_spec_witness :
  (0 <= 3125)%Z /\ (0 < 10)%Z /\ (round_half_even 3125 10 = 312%Z <-> nearest_even 3125 10 312).
Proof. split; [lia|]. split; [lia|]. apply round_half_even_spec; lia. Defined.

Lemma build_prices_total_witness :
  NoDup (cl_index cl1) /\
  (forall s, s ∈ symbols -> unique_column cl1 s /\ is_Some (dict_get ETFS s)) /\
  exists p, build_prices ETFS symbols cl1 = Ok p.
Proof.
  assert (Hnd : NoDup (cl_index cl1)) by (vm_compute; apply NoDup_singleton).
  assert (Hs : forall s, s ∈ symbols -> unique_column cl1 s /\ is_Some (dict_get ETFS s)).
  { apply (symbols_have_columns cl1). repeat split; try reflexivity; eexists; reflexivity. }
  split; [exact Hnd|]. split; [exact Hs|]. exact (build_prices_total ETFS symbols cl1 Hnd Hs).
Defined.

Lemma build_prices_duplicate_witness :
  (forall s, s ∈ symbols ->
     (1 <= length (filter (fun c => c.1 = s) (cl_columns cl_dup)))%nat /\ is_Some (dict_get ETFS s)) /\
  symbols <> [] /\ (2 <= length (positions jan2 (cl_index cl_dup)))%nat /\
  exists msg, build_prices ETFS symbols cl_dup = Err (ValueError msg).
Proof.
  assert (Hs : forall s, s ∈ symbols ->
     (1 <= length (filter (fun c => c.1 = s) (cl_columns cl_dup)))%nat /\ is_Some (dict_get ETFS s)).
  { apply (symbols_have_columns cl_dup). vm_compute. repeat split; try lia; eexists; reflexivity. }
  assert (Hne : symbols <> []) by (vm_compute; discriminate).
  assert (Hd : (2 <= length (positions jan2 (cl_index cl_dup)))%nat) by (vm_compute; lia).
  split; [exact Hs|]. split; [exact Hne|]. split; [exact Hd|].
  exact (build_prices_duplicate ETFS symbols cl_dup jan2 Hs Hne Hd).
Defined.

Lemma main_requests_witness :
  valid_datetime (w_clock w_ok (w_ticks w_ok)) = true /\ (6 <= year (w_clock w_ok (w_ticks w_ok)))%Z /\
  w_requests (main "/srv" w_ok).2 =
    (w_requests w_ok ++ [(symbols, window_of (w_clock w_ok (w_ticks w_ok)), w_clock w_ok (w_ticks w_ok))])%list.
Proof.
  split; [eval_tac|]. split; [eval_tac|].
  apply main_requests; eval_tac.
Defined.

Lemma window_start_spec_witness :
  valid_datetime (clock_at 0 0) = true /\
  match window_start (clock_at 0 0) with
  | Ok s => (6 <= year (clock_at 0 0))%Z /\ s = mkDatetime (year (clock_at 0 0) - 5) 1 1 0 0 0 0
  | Err e => (year (clock_at 0 0) <= 5)%Z /\ e = ValueError (year_range_msg (year (clock_at 0 0) - 5))
  end.
Proof. split; [reflexivity|]. apply window_start_spec. reflexivity. Defined.

Lemma window_covers_witness :
  valid_datetime (clock_at 0 0) = true /\
  window_start (clock_at 0 0) = Ok (mkDatetime 2019 1 1 0 0 0 0) /\
  valid_datetime (mkDatetime 2021 3 4 10 0 0 0) = true /\
  (year (clock_at 0 0) - 5 <= year (mkDatetime 2021 3 4 10 0 0 0) < year (clock_at 0 0))%Z /\
  compare_datetime (mkDatetime 2019 1 1 0 0 0 0) (clock_at 0 0) = Lt /\
  compare_datetime (mkDatetime 2019 1 1 0 0 0 0) (mkDatetime 2021 3 4 10 0 0 0) <> Gt /\
  compare_datetime (mkDatetime 2021 3 4 10 0 0 0) (clock_at 0 0) = Lt.
Proof.
  do 3 (split; [eval_tac|]). split; [split; eval_tac|].
  apply window_covers; [eval_tac..|split; eval_tac].
Defined.

Lemma strftime_ymd_inj_witness :
  valid_datetime jan2 = true /\ valid_datetime jan2_close = true /\
  (strftime_ymd jan2 = strftime_ymd jan2_close <->
     year jan2 = year jan2_close /\ month jan2 = month jan2_close /\ day jan2 = day jan2_close).
Proof. split; [reflexivity|]. split; [reflexivity|]. apply strftime_ymd_inj; reflexivity. Defined.

Lemma sorted_dates_chronological_witness :
  build_prices ETFS symbols cl2days = Ok [("2024-01-02", r1); ("2024-01-03", r1)] /\
  Forall (fun t => valid_datetime t = true) (cl_index cl2days) /\ (0 < 1)%nat /\
  sort_dates (dict_keys [("2024-01-02", r1); ("2024-01-03", r1)]) !! 0%nat = Some (strftime_ymd jan2) /\
  sort_dates (dict_keys [("2024-01-02", r1); ("2024-01-03", r1)]) !! 1%nat = Some (strftime_ymd jan3) /\
  jan2 ∈ cl_index cl2days /\ jan3 ∈ cl_index cl2days /\
  compare_date jan2 jan3 = Lt.
Proof.
  assert (Hb : build_prices ETFS symbols cl2days = Ok [("2024-01-02", r1); ("2024-01-03", r1)])
    by (vm_compute; reflexivity).
  assert (Hv : Forall (fun t => valid_datetime t = true) (cl_index cl2days))
    by (repeat constructor).
  assert (H0 : sort_dates (dict_keys [("2024-01-02", r1); ("2024-01-03", r1)]) !! 0%nat =
                 Some (strftime_ymd jan2)) by (vm_compute; reflexivity).
  assert (H1 : sort_dates (dict_keys [("2024-01-02", r1); ("2024-01-03", r1)]) !! 1%nat =
                 Some (strftime_ymd jan3)) by (vm_compute; reflexivity).
  assert (Hj2 : jan2 ∈ cl_index cl2days) by (vm_compute; left).
  assert (Hj3 : jan3 ∈ cl_index cl2days) by (vm_compute; right; left).
  do 7 (split; [assumption || lia|]).
  exact (sorted_dates_chronological ETFS symbols cl2days _ 0 1 jan2 jan3 Hb Hv ltac:(lia) H0 H1 Hj2 Hj3).
Defined.

Lemma loc_cell_scalar_witness :
  unique_column cl1 "SPY" /\ NoDup (cl_index cl1) /\ jan2 ∈ cl_index cl1 /\
  exists i c, cl_index cl1 !! i = Some jan2 /\ loc_cell cl1 "SPY" jan2 = Ok (LScalar c) /\
    is_ok (is_missing (LScalar c)) = true.
Proof.
  assert (Hu : unique_column cl1 "SPY") by (vm_compute; reflexivity).
  assert (Hnd : NoDup (cl_index cl1)) by (vm_compute; apply NoDup_singleton).
  assert (Hj : jan2 ∈ cl_index cl1) by (vm_compute; left).
  split; [exact Hu|]. split; [exact Hnd|]. split; [exact Hj|].
  exact (loc_cell_scalar cl1 "SPY" jan2 Hu Hnd Hj).
Defined.

Lemma loc_cell_duplicate_witness :
  (1 <= length (filter (fun c => c.1 = "SPY") (cl_columns cl_dup)))%nat /\
  (2 <= length (positions jan2 (cl_index cl_dup)))%nat /\
  exists p msg, loc_cell cl_dup "SPY" jan2 = Ok p /\ is_missing p = Err (ValueError msg).
Proof.
  split; [vm_compute; lia|]. split; [vm_compute; lia|].
  apply loc_cell_duplicate; vm_compute; lia.
Defined.

Lemma infinite_price_written_witness :
  names_injective ETFS symbols /\ row_loop ETFS cl_inf jan2 symbols = Ok [("Large Cap", RInf false)] /\
  "SPY" ∈ symbols /\ dict_get ETFS "SPY" = Some "Large Cap" /\
  loc_cell cl_inf "SPY" jan2 = Ok (LScalar (CFloat (Inf false))) /\
  dict_get [("Large Cap", RInf false)] "Large Cap" = Some (RInf false) /\
  float_repr (RInf false) = "Infinity".
Proof.
  assert (Hr : row_loop ETFS cl_inf jan2 symbols = Ok [("Large Cap", RInf false)])
    by (vm_compute; reflexivity).
  assert (Hs : "SPY" ∈ symbols) by (vm_compute; left).
  assert (Hn : dict_get ETFS "SPY" = Some "Large Cap") by reflexivity.
  assert (Hl : loc_cell cl_inf "SPY" jan2 = Ok (LScalar (CFloat (Inf false)))) by (vm_compute; reflexivity).
  split; [exact ETFS_names_injective|]. do 4 (split; [assumption|]).
  exact (infinite_price_written ETFS cl_inf jan2 symbols _ "SPY" "Large Cap" false
           ETFS_names_injective Hr Hs Hn Hl).
Defined.

Lemma float_repr_roundtrip_witness :
  (0 <= 4501234 < 10 ^ 20)%Z /\ starts_digit "]" = false /\
  read_number (float_repr (RDec false 4501234) +:+ "]") = Some (RDec false 4501234, "]") /\
  read_number (float_repr (RDec true 312) +:+ EmptyString) = Some (RDec true 312, EmptyString).
Proof.
  split; [lia|]. split; [reflexivity|]. split.
  - apply (float_repr_roundtrip false 4501234 "]"); [lia|reflexivity].
  - apply (float_repr_roundtrip true 312 EmptyString); [lia|reflexivity].
Defined.

(** The row of the spec's example, in a document with a string that needs
    escapes. *)
Definition doc1 : json :=
  JObj [("updated_at", JStr (String (chr 34) (String (chr 10) "x")));
        ("prices", JArr [JObj [("date", JStr "2024-01-02"); ("Large Cap", JNum (RDec false 4501234))];
                         JArr []; JNull; JBool true; JNum (RDec true 5)])].

Lemma decode_dumps_witness : json_finite doc1 = true /\ decode (dumps doc1) = Some doc1.
Proof.
  assert (H : json_finite doc1 = true) by reflexivity.
  split; [exact H|exact (decode_dumps doc1 H)].
Defined.

Lemma main_success_stdout_witness :
  valid_datetime (w_clock w_ok (w_ticks w_ok)) = true /\
  (6 <= year (w_clock w_ok (w_ticks w_ok)))%Z /\
  w_provider w_ok symbols (window_of (w_clock w_ok (w_ticks w_ok))) (w_clock w_ok (w_ticks w_ok))
    = inr frame1 /\
  df_empty frame1 = false /\ select_closes frame1 = Ok cl1 /\ build_prices ETFS symbols cl1 = Ok p1 /\
  w_open_error w_ok (output_path "/srv") = None /\
  exists d ds x, sort_dates (dict_keys p1) = d :: ds /\ last (d :: ds) = Some x /\
    w_stdout (main "/srv" w_ok).2 =
      (w_stdout w_ok ++ [fetch_line (w_clock w_ok (w_ticks w_ok));
                         "Wrote " +:+ dec_string (Z.of_nat (length (dict_keys p1))) +:+
                           " days of data to " +:+ output_path "/srv";
                         "Date range: " +:+ d +:+ " to " +:+ x])%list.
Proof.
  do 7 (split; [eval_tac|]).
  apply (main_success_stdout "/srv" w_ok) with (df := frame1) (cl := cl1); eval_tac.
Defined.

Lemma main_open_fails_witness :
  valid_datetime (w_clock w_readonly (w_ticks w_readonly)) = true /\
  (6 <= year (w_clock w_readonly (w_ticks w_readonly)))%Z /\
  w_provider w_readonly symbols (window_of (w_clock w_readonly (w_ticks w_readonly)))
    (w_clock w_readonly (w_ticks w_readonly)) = inr frame1 /\
  df_empty frame1 = false /\ select_closes frame1 = Ok cl1 /\ build_prices ETFS symbols cl1 = Ok p1 /\
  w_open_error w_readonly (output_path "/srv") = Some "Read-only file system" /\
  (main "/srv" w_readonly).1 = Err (OSError "Read-only file system") /\
  exit_code (main "/srv" w_readonly).1 = 1%Z /\
  w_files (main "/srv" w_readonly).2 = w_files w_readonly /\
  w_stdout (main "/srv" w_readonly).2 =
    (w_stdout w_readonly ++ [fetch_line (w_clock w_readonly (w_ticks w_readonly))])%list.
Proof.
  do 7 (split; [eval_tac|]).
  apply (main_open_fails "/srv" w_readonly) with (df := frame1) (cl := cl1) (p := p1); eval_tac.
Defined.

(** The row of the spec's example, as [sorted_prices] builds it. *)
Definition rows1 : list json :=
  [JObj [("date", JStr "2024-01-02"); ("Large Cap", JNum (RDec false 4501234))]].

Lemma output_doc_shape_witness :
  build_prices ETFS symbols cl1 = Ok p1 /\ sorted_prices p1 = Ok rows1 /\
  doc_shape (output_doc jan2 [] rows1) = true.
Proof.
  assert (Hb : build_prices ETFS symbols cl1 = Ok p1) by (vm_compute; reflexivity).
  assert (Hs : sorted_prices p1 = Ok rows1) by (vm_compute; reflexivity).
  split; [exact Hb|]. split; [exact Hs|]. exact (output_doc_shape cl1 symbols p1 rows1 jan2 [] Hb Hs).
Defined.

Lemma main_file_decodes_witness :
  valid_datetime (w_clock w_ok (w_ticks w_ok)) = true /\
  (6 <= year (w_clock w_ok (w_ticks w_ok)))%Z /\
  w_provider w_ok symbols (window_of (w_clock w_ok (w_ticks w_ok))) (w_clock w_ok (w_ticks w_ok))
    = inr frame1 /\
  df_empty frame1 = false /\ select_closes frame1 = Ok cl1 /\ build_prices ETFS symbols cl1 = Ok p1 /\
  w_open_error w_ok (output_path "/srv") = None /\ cells_fit cl1 = true /\
  exists doc, dict_get (w_files (main "/srv" w_ok).2) (output_path "/srv") = Some (dumps doc) /\
    decode (dumps doc) = Some doc /\ doc_shape doc = true.
Proof.
  do 8 (split; [eval_tac|]).
  apply (main_file_decodes "/srv" w_ok frame1 cl1 p1); eval_tac.
Defined.

(** The same answer fetched 250 microseconds later. *)
Definition w_late : World := world_of frame1 (clock_at 250).

Lemma rerun_same_file_witness :
  run_writes "/srv" w_ok frame1 /\ run_writes "/srv" w_late frame1 /\
  df_empty frame1 = false /\ select_closes frame1 = Ok cl1 /\ build_prices ETFS symbols cl1 = Ok p1 /\
  cells_fit cl1 = true /\
  isoformat (w_clock w_ok (S (w_ticks w_ok))) <> isoformat (w_clock w_late (S (w_ticks w_late))) /\
  (dict_get (w_files (main "/srv" w_ok).2) (output_path "/srv") =
     dict_get (w_files (main "/srv" w_late).2) (output_path "/srv") <->
   isoformat (w_clock w_ok (S (w_ticks w_ok))) = isoformat (w_clock w_late (S (w_ticks w_late)))).
Proof.
  assert (H1 : run_writes "/srv" w_ok frame1) by (unfold run_writes; repeat split; eval_tac).
  assert (H2 : run_writes "/srv" w_late frame1) by (unfold run_writes; repeat split; eval_tac).
  split; [exact H1|]. split; [exact H2|]. do 4 (split; [eval_tac|]).
  split; [vm_compute; discriminate|].
  apply (rerun_same_file "/srv" w_ok w_late frame1 cl1 p1 H1 H2); eval_tac.
Defined.

End Witnesses.
